(** * Rita dashboard API: tenant-scoped queries and rollups

    A shallow embedding of the route handlers of the Rita v2 dashboard API
    (Express routers over a PostgreSQL pool) and the properties of its
    tenant-scoped query and aggregation core.

    Layout:
    - [JS]      the JavaScript values and built-ins the handlers use
                (truthiness, [String.prototype.trim], [parseInt], [isNaN],
                [String.prototype.replace] with a string pattern), with
                numbers as the binary64 doubles they are;
    - [Sql]     the relational operators the statements are made of
                (joins, ORDER BY, LIMIT/OFFSET, DISTINCT ON), over lists of rows
                kept in storage order;
    - [Store]   the tables, the storage engine's own conversions, and the
                monad the handlers run in (database state, the log of the
                statements sent, and a thrown error caught as a 500);
    - one module per router: [Auth], [Metrics], [Leads], [Conversations],
      [Search], [Sessions], [Stock], [Companies], with the handlers the
      properties are about; a handler is modelled from the point where
      [authenticateToken] has let the request through;
    - [ErrorHandler] and [Token], the error handler of the application and
      the token middlewares of the routers;
    - [Reference], one engine and a sample database to run the handlers on;
    - the properties, one section per component. *)

From Stdlib Require Import ZArith QArith Qround Bool List String Ascii.
From Stdlib Require Import DecimalString Lia Sorted Permutation.
From Stdlib Require DecimalPos.
From Corelib Require Import SpecFloat.
Import ListNotations.

Local Open Scope string_scope.
Local Open Scope Z_scope.

(* ================================================================== *)
(** * JavaScript values and built-ins *)
(* ================================================================== *)

Module JS.

(** The primitive values the handlers compute with.  A key of [req.params]
    or [req.query] that a handler reads holds a string or is absent (the
    bracket syntax of the query parser, which builds arrays and objects, is
    left out); the members of a JSON [req.body] are the [json] values below.
    A character of a [string] stands for one UTF-16 code unit in the Latin-1
    range.

    A number is a binary64 double.  The numbers the handlers pass around are
    integral ([parseInt] results, their differences and products, the
    numbers of a JSON body): [JNum z] is the double whose value is the
    integer [z] (the two zeros are both [JNum 0]: no handler tells them
    apart, but for the division in [Listing.paginate], which reads the sign
    of a zero off the text it parses), [JInf] and [JNegInf] are the two
    infinities and [JNaN] is NaN.  The doubles that are not integral, the
    growth figures, are [double]s in [Metrics]. *)
Inductive jsval : Type :=
| JUndef
| JNull
| JBool (b : bool)
| JNum (z : Z)
| JNaN
| JInf
| JNegInf
| JStr (s : string).

Definition jsval_eqb (a b : jsval) : bool :=
  match a, b with
  | JUndef, JUndef => true
  | JNull, JNull => true
  | JBool x, JBool y => Bool.eqb x y
  | JNum x, JNum y => Z.eqb x y
  | JInf, JInf => true
  | JNegInf, JNegInf => true
  | JStr x, JStr y => String.eqb x y
  | _, _ => false   (* NaN === NaN is false *)
  end.

(** ToBoolean. *)
Definition truthy (v : jsval) : bool :=
  match v with
  | JUndef | JNull | JNaN => false
  | JBool b => b
  | JInf | JNegInf => true
  | JNum z => negb (z =? 0)
  | JStr s => negb (String.eqb s "")
  end.

(** [a || b]. *)
Definition or_else (a b : jsval) : jsval := if truthy a then a else b.

(** Destructuring default, [{ k = d } = obj]: the default replaces [undefined]
    only. *)
Definition default_to (d v : jsval) : jsval :=
  match v with JUndef => d | _ => v end.

Definition string_of_Z (z : Z) : string :=
  NilZero.string_of_int (Z.to_int z).

(** ** Doubles

    IEEE 754 binary64, as the Standard Library specifies it: 53 bits of
    precision, results rounded to the nearest double, ties to the even
    one. *)
Definition double : Type := spec_float.

Definition fsub : double -> double -> double := SFsub 53 1024.
Definition fmul : double -> double -> double := SFmul 53 1024.
Definition fdiv : double -> double -> double := SFdiv 53 1024.

(** The double nearest to an integer. *)
Definition double_of_Z (z : Z) : double := binary_normalize 53 1024 z 0 false.

Definition infinite (negative : bool) : jsval :=
  if negative then JNegInf else JInf.

(** The double nearest to an integer, as a value: an integer of at most 53
    bits is a double; a longer one keeps its 53 leading bits, rounded to
    the nearest, a tie to the even one; from [2^1024 - 2^970] on the
    nearest double is an infinity. *)
Definition number_of_Z (z : Z) : jsval :=
  let a := Z.abs z in
  let excess := Z.log2 a - 52 in
  if excess <=? 0 then JNum z
  else
    let q := Z.shiftr a excess in
    let r := Z.land a (Z.ones excess) in
    let half := Z.shiftl 1 (excess - 1) in
    let q' := if (half <? r) || ((r =? half) && Z.odd q) then q + 1 else q in
    let m := Z.shiftl q' excess in
    if 2 ^ 1024 <=? m then infinite (z <? 0) else JNum (Z.sgn z * m).

(** An integral double as a value. *)
Definition number (x : double) : jsval :=
  match x with
  | S754_zero _ => JNum 0
  | S754_infinity s => infinite s
  | S754_nan => JNaN
  | S754_finite s m e =>
      JNum (cond_Zopp s (if 0 <=? e then Z.pos m * 2 ^ e
                         else Z.pos m / 2 ^ (- e)))
  end.

(** [Math.round]: the nearest integer, a half going up; a zero result has
    the sign of the argument. *)
Definition Math_round (x : double) : double :=
  match x with
  | S754_finite s m e =>
      if 0 <=? e then x
      else let d := 2 ^ (- e) in
           binary_normalize 53 1024
             ((2 * cond_Zopp s (Z.pos m) + d) / (2 * d)) 0 s
  | _ => x
  end.

(** [Math.ceil]. *)
Definition Math_ceil (x : double) : double :=
  match x with
  | S754_finite s m e =>
      if 0 <=? e then x
      else binary_normalize 53 1024
             (- ((- cond_Zopp s (Z.pos m)) / 2 ^ (- e))) 0 s
  | _ => x
  end.

(** ** Number::toString: the shortest decimal that reads back as the
    double, written plainly for a magnitude from 1e-6 to below 1e21 and in
    exponent form beyond. *)

Fixpoint zeros (n : nat) : string :=
  match n with O => "" | S n' => String "0" (zeros n') end.

Fixpoint strip_zeros (s : list ascii) : list ascii :=
  match s with
  | "0"%char :: t => strip_zeros t
  | _ => s
  end.

Definition strip_trailing_zeros (s : string) : string :=
  string_of_list_ascii (rev (strip_zeros (rev (list_ascii_of_string s)))).

(** The least [j], from [j] on, with [d <= m * 10^j]. *)
Fixpoint first_scale (fuel : nat) (m d j : Z) : Z :=
  match fuel with
  | O => j
  | S fuel' => if d <=? m * 10 ^ j then j else first_scale fuel' m d (j + 1)
  end.

(** The [n] with [10^(n-1) <= m * 2^e < 10^n]. *)
Definition decimal_exponent (m : positive) (e : Z) : Z :=
  let whole := if 0 <=? e then Z.pos m * 2 ^ e else Z.pos m / 2 ^ (- e) in
  if 0 <? whole then Z.of_nat (String.length (string_of_Z whole))
  else 1 - first_scale 400 (Z.pos m) (2 ^ (- e)) 1.

(** The shortest decimal [c * 10^p] that rounds to the double [m * 2^e],
    whose decimal exponent is [n]: with k = 1, 2, ... digits, the two
    decimals of k digits around the double are tried, and the first k for
    which one of them lies within the rounding interval of the double gives
    the answer (the nearer of the two, the even one when they are equally
    near).  The interval, in units of [2^(e-2)], reaches from [4m - 2] (from
    [4m - 1] at the bottom of a binade) to [4m + 2], ends included when [m]
    is even.  Seventeen digits always suffice. *)
Fixpoint shortest (fuel : nat) (m : positive) (e n k : Z) : Z * Z :=
  let p := n - k in
  let E := e - 2 in
  let A := 10 ^ Z.max p 0 * 2 ^ Z.max (- E) 0 in
  let B := 2 ^ Z.max E 0 * 10 ^ Z.max (- p) 0 in
  let x := 4 * Z.pos m in
  let below := if (Z.pos m =? 2 ^ 52) && (-1074 <? e) then 1 else 2 in
  let inside c :=
    if Z.even (Z.pos m)
    then ((x - below) * B <=? c * A) && (c * A <=? (x + 2) * B)
    else ((x - below) * B <? c * A) && (c * A <? (x + 2) * B) in
  let lo := (x * B) / A in
  let hi := lo + 1 in
  let dlo := x * B - lo * A in
  let dhi := hi * A - x * B in
  match fuel with
  | O => (lo, p)
  | S fuel' =>
      match inside lo, inside hi with
      | true, true =>
          if dlo <? dhi then (lo, p)
          else if dhi <? dlo then (hi, p)
          else if Z.even lo then (lo, p) else (hi, p)
      | true, false => (lo, p)
      | false, true => (hi, p)
      | false, false => shortest fuel' m e n (k + 1)
      end
  end.

Definition Number_toString (x : double) : string :=
  match x with
  | S754_zero _ => "0"
  | S754_infinity false => "Infinity"
  | S754_infinity true => "-Infinity"
  | S754_nan => "NaN"
  | S754_finite s m e =>
      let '(c, p) := shortest 17 m e (decimal_exponent m e) 1 in
      let all := string_of_Z c in
      let digits := strip_trailing_zeros all in
      let k := Z.of_nat (String.length digits) in
      let n := Z.of_nat (String.length all) + p in
      let text :=
        if (k <=? n) && (n <=? 21)
        then digits ++ zeros (Z.to_nat (n - k))
        else if (0 <? n) && (n <=? 21)
        then substring 0 (Z.to_nat n) digits ++ "."
             ++ substring (Z.to_nat n) (Z.to_nat (k - n)) digits
        else if (-6 <? n) && (n <=? 0)
        then "0." ++ zeros (Z.to_nat (- n)) ++ digits
        else
          let exponent := n - 1 in
          let mantissa :=
            if k =? 1 then digits
            else substring 0 1 digits ++ "."
                 ++ substring 1 (Z.to_nat (k - 1)) digits in
          mantissa ++ "e" ++ (if 0 <=? exponent then "+" else "-")
          ++ string_of_Z (Z.abs exponent) in
      if s then "-" ++ text else text
  end.

(** ToString.  An integer below 2^53 is its own shortest decimal. *)
Definition ToString (v : jsval) : string :=
  match v with
  | JUndef => "undefined"
  | JNull => "null"
  | JBool true => "true"
  | JBool false => "false"
  | JNum z => if Z.abs z <? 2 ^ 53 then string_of_Z z
              else Number_toString (double_of_Z z)
  | JNaN => "NaN"
  | JInf => "Infinity"
  | JNegInf => "-Infinity"
  | JStr s => s
  end.

(** ** Characters *)

Definition code (c : ascii) : N := N_of_ascii c.

(** WhiteSpace and LineTerminator code units of the Latin-1 range. *)
Definition is_ws (c : ascii) : bool :=
  let n := code c in
  (((9 <=? n) && (n <=? 13)) || (n =? 32) || (n =? 160))%N.

Definition is_digit (c : ascii) : bool :=
  let n := code c in ((48 <=? n) && (n <=? 57))%N.

(** The value of [c] as a digit of base [radix], if it is one. *)
Definition digit_val (radix : Z) (c : ascii) : option Z :=
  let n := Z.of_N (code c) in
  let d := if (48 <=? n) && (n <=? 57) then Some (n - 48)
           else if (97 <=? n) && (n <=? 122) then Some (n - 87)
           else if (65 <=? n) && (n <=? 90) then Some (n - 55)
           else None in
  match d with
  | Some v => if v <? radix then Some v else None
  | None => None
  end.

(** ** String.prototype.trim *)

Fixpoint trimStart (s : string) : string :=
  match s with
  | String c t => if is_ws c then trimStart t else s
  | EmptyString => EmptyString
  end.

Fixpoint trimEnd (s : string) : string :=
  match s with
  | EmptyString => EmptyString
  | String c t =>
      match trimEnd t with
      | EmptyString => if is_ws c then EmptyString else String c EmptyString
      | t' => String c t'
      end
  end.

Definition trim (s : string) : string := trimEnd (trimStart s).

(** ** parseInt(v) with no radix argument *)

Fixpoint parse_digits (radix : Z) (s : string) (acc : option Z) : option Z :=
  match s with
  | String c t =>
      match digit_val radix c with
      | Some d =>
          parse_digits radix t
            (Some (radix * match acc with Some a => a | None => 0 end + d))
      | None => acc
      end
  | EmptyString => acc
  end.

Definition strip_sign (s : string) : Z * string :=
  match s with
  | String "-" t => (-1, t)
  | String "+" t => (1, t)
  | _ => (1, s)
  end.

Definition strip_hex_prefix (s : string) : Z * string :=
  match s with
  | String "0" (String "x" t) => (16, t)
  | String "0" (String "X" t) => (16, t)
  | _ => (10, s)
  end.

(** What [parseInt] reads of a text: leading white space is skipped, then
    a sign, a hexadecimal prefix and the longest run of digits are taken;
    the rest of the text is ignored.  The result is the sign (is it a
    minus?) and the integer the digits spell, [None] when there is no
    digit. *)
Definition parseInt_text (s : string) : option (bool * Z) :=
  let '(sign, s1) := strip_sign (trimStart s) in
  let '(radix, s2) := strip_hex_prefix s1 in
  match parse_digits radix s2 None with
  | Some n => Some (sign <? 0, n)
  | None => None
  end.

(** [parseInt(v)]: the double nearest to the signed integer read, NaN when
    there is none. *)
Definition parseInt (v : jsval) : jsval :=
  match parseInt_text (ToString v) with
  | Some (negative, n) => number_of_Z (if negative then - n else n)
  | None => JNaN
  end.

(** The same number as a [double]: here ["-0"] is read as the negative
    zero it is. *)
Definition parseInt_double (v : jsval) : double :=
  match parseInt_text (ToString v) with
  | Some (negative, n) =>
      binary_normalize 53 1024 (if negative then - n else n) 0 negative
  | None => S754_nan
  end.

(** ** isNaN(v): ToNumber(v) is NaN.  For a string this is the grammar of
    StringNumericLiteral. *)

Fixpoint skip_digits (s : string) : string :=
  match s with
  | String c t => if is_digit c then skip_digits t else s
  | EmptyString => EmptyString
  end.

Definition starts_with_digit (s : string) : bool :=
  match s with String c _ => is_digit c | EmptyString => false end.

(** An optional ExponentPart, then the end of the literal. *)
Definition exponent_then_end (s : string) : bool :=
  match s with
  | EmptyString => true
  | String c t =>
      if (Ascii.eqb c "e" || Ascii.eqb c "E")%bool then
        let t' := snd (strip_sign t) in
        starts_with_digit t' && String.eqb (skip_digits t') ""
      else false
  end.

(** StrUnsignedDecimalLiteral. *)
Definition unsigned_decimal (s : string) : bool :=
  if String.eqb s "Infinity" then true
  else match s with
       | String "." t => starts_with_digit t && exponent_then_end (skip_digits t)
       | _ =>
           starts_with_digit s &&
           match skip_digits s with
           | String "." t => exponent_then_end (skip_digits t)
           | r => exponent_then_end r
           end
       end.

Fixpoint all_digits_of (radix : Z) (s : string) : bool :=
  match s with
  | String c t =>
      match digit_val radix c with
      | Some _ => all_digits_of radix t
      | None => false
      end
  | EmptyString => true
  end.

(** NonDecimalIntegerLiteral: 0x, 0o, 0b and at least one digit. *)
Definition non_decimal (s : string) : bool :=
  match s with
  | String "0" (String p t) =>
      let radix :=
        if (Ascii.eqb p "x" || Ascii.eqb p "X")%bool then 16
        else if (Ascii.eqb p "o" || Ascii.eqb p "O")%bool then 8
        else if (Ascii.eqb p "b" || Ascii.eqb p "B")%bool then 2
        else 0 in
      (0 <? radix) && negb (String.eqb t "") && all_digits_of radix t
  | _ => false
  end.

Definition string_is_numeric (s : string) : bool :=
  let t := trim s in
  String.eqb t "" || non_decimal t || unsigned_decimal (snd (strip_sign t)).

Definition isNaN (v : jsval) : bool :=
  match v with
  | JUndef | JNaN => true
  | JNull | JBool _ | JNum _ | JInf | JNegInf => false
  | JStr s => negb (string_is_numeric s)
  end.

(** ** Arithmetic on numbers: the exact result, rounded to the nearest
    double.  (The operands are numbers wherever the handlers compute.) *)

Definition num_sub (a b : jsval) : jsval :=
  match a, b with
  | JNum x, JNum y => number_of_Z (x - y)
  | JInf, JNum _ | JInf, JNegInf | JNum _, JNegInf => JInf
  | JNegInf, JNum _ | JNegInf, JInf | JNum _, JInf => JNegInf
  | _, _ => JNaN
  end.

Definition num_mul (a b : jsval) : jsval :=
  match a, b with
  | JNum x, JNum y => number_of_Z (x * y)
  | JNum x, JInf | JInf, JNum x =>
      if x =? 0 then JNaN else infinite (x <? 0)
  | JNum x, JNegInf | JNegInf, JNum x =>
      if x =? 0 then JNaN else infinite (0 <? x)
  | JInf, JInf | JNegInf, JNegInf => JInf
  | JInf, JNegInf | JNegInf, JInf => JNegInf
  | _, _ => JNaN
  end.

(** [a < b]: false as soon as one side is NaN. *)
Definition num_lt (a b : jsval) : bool :=
  match a, b with
  | JNum x, JNum y => x <? y
  | JNum _, JInf | JNegInf, JNum _ | JNegInf, JInf => true
  | _, _ => false
  end.

(** Number.isInteger(v): no coercion. *)
Definition Number_isInteger (v : jsval) : bool :=
  match v with JNum _ => true | _ => false end.

(** ** String.prototype.replace with a string pattern: the first occurrence
    only.  (The replacements used here, ["$2"], ["$3"], ..., are inserted as
    they stand: a string pattern has no capture groups.) *)

Fixpoint starts_with (p s : string) : bool :=
  match p, s with
  | EmptyString, _ => true
  | String a p', String b s' => Ascii.eqb a b && starts_with p' s'
  | String _ _, EmptyString => false
  end.

Fixpoint drop (n : nat) (s : string) : string :=
  match n, s with
  | O, _ => s
  | S n', String _ t => drop n' t
  | S _, EmptyString => EmptyString
  end.

Fixpoint replace (pat rep s : string) : string :=
  if starts_with pat s then (rep ++ drop (String.length pat) s)%string
  else match s with
       | String c t => String c (replace pat rep t)
       | EmptyString => EmptyString
       end.

(** A JavaScript object used as a map from names to values: absent keys read
    as [undefined]. *)
Definition obj : Type := list (string * jsval).

Fixpoint get (k : string) (o : obj) : jsval :=
  match o with
  | (k', v) :: o' => if String.eqb k k' then v else get k o'
  | [] => JUndef
  end.

(** ** The values of a parsed JSON body: the primitive ones above, a number
    with a fractional part (given by its decimal text, which is all the
    handlers can learn of it), objects and arrays. *)
#[local] Set Warnings "-register-all".
Inductive json : Type :=
| Prim (v : jsval)
| Fraction (text : string)
| Object (members : list (string * json))
| Array (items : list json).

Fixpoint has_member {A} (k : string) (o : list (string * A)) : bool :=
  match o with
  | (k', _) :: o' => String.eqb k k' || has_member k o'
  | [] => false
  end.

(** ToString of a body value; [None] when it throws a TypeError.  A plain
    object converts through [Object.prototype.toString]; an own member named
    [toString] hides it, JSON cannot make that member callable, and
    [valueOf] hands back the object itself, so the conversion throws.  An
    array joins the texts of its elements, [null] and [undefined] giving the
    empty text. *)
Fixpoint json_text (j : json) : option string :=
  match j with
  | Prim v => Some (ToString v)
  | Fraction text => Some text
  | Object members =>
      if has_member "toString" members then None else Some "[object Object]"
  | Array items =>
      (fix join (l : list json) : option string :=
         let element x :=
           match x with
           | Prim JNull | Prim JUndef => Some ""
           | _ => json_text x
           end in
         match l with
         | [] => Some ""
         | [x] => element x
         | x :: l' =>
             match element x, join l' with
             | Some a, Some b => Some (a ++ "," ++ b)%string
             | _, _ => None
             end
         end) items
  end.

(** ToBoolean: an object is truthy, and so is a number that is not zero. *)
Definition json_truthy (j : json) : bool :=
  match j with Prim v => truthy v | _ => true end.

(** [j === s] for a string [s]. *)
Definition json_is (j : json) (s : string) : bool :=
  match j with Prim v => jsval_eqb v (JStr s) | _ => false end.

(** [parseInt(j)]: the number it returns, or [None] when the conversion of
    its argument to text throws. *)
Definition parseInt_json (j : json) : option jsval :=
  match json_text j with
  | Some s => Some (parseInt (JStr s))
  | None => None
  end.

(** The body as an object: absent keys read as [undefined]. *)
Definition body : Type := list (string * json).

Fixpoint get_member (k : string) (o : body) : json :=
  match o with
  | (k', v) :: o' => if String.eqb k k' then v else get_member k o'
  | [] => Prim JUndef
  end.

End JS.

Import JS.

(* ================================================================== *)
(** * Relational operators *)
(* ================================================================== *)

(** A table, and every intermediate relation, is the list of its rows in
    storage order.  Where SQL leaves the order of rows with equal sort keys to
    the engine, the operators below keep the order they are given; the
    properties are stated for every database, hence for every storage
    order. *)
Module Sql.

Section Operators.
Context {A B : Type}.

(** [FROM l (INNER) JOIN r ON on]. *)
Definition inner_join (on : A -> B -> bool) (l : list A) (r : list B)
  : list (A * B) :=
  flat_map (fun a => map (pair a) (filter (on a) r)) l.

(** [FROM l LEFT JOIN r ON on]: a row of [l] with no partner is kept once,
    with NULLs ([None]) for the columns of [r]. *)
Definition left_join (on : A -> B -> bool) (l : list A) (r : list B)
  : list (A * option B) :=
  flat_map (fun a => match filter (on a) r with
                     | [] => [(a, None)]
                     | bs => map (fun b => (a, Some b)) bs
                     end) l.

(** [ORDER BY]: [leb x y] says that [x] may come before [y]. *)
Fixpoint insert (leb : A -> A -> bool) (x : A) (l : list A) : list A :=
  match l with
  | [] => [x]
  | y :: t => if leb x y then x :: l else y :: insert leb x t
  end.

Definition order_by (leb : A -> A -> bool) (l : list A) : list A :=
  fold_right (insert leb) [] l.

(** A scalar subquery, or a [LATERAL ... LIMIT 1] joined [ON true]: the
    first row, NULL when there is none. *)
Definition first_row (l : list A) : option A := hd_error l.

(** [COUNT( * )], and [COUNT(CASE WHEN p THEN 1 END)]. *)
Definition count (l : list A) : Z := Z.of_nat (List.length l).
Definition count_when (p : A -> bool) (l : list A) : Z := count (filter p l).

(** [LIMIT n] and [OFFSET n] of a bigint that is not negative: the first
    [n] rows, and the rows after them (no more rows are taken or skipped
    than there are). *)
Definition take (n : Z) (l : list A) : list A :=
  firstn (Z.to_nat (Z.min n (count l))) l.

Definition skip (n : Z) (l : list A) : list A :=
  skipn (Z.to_nat (Z.min n (count l))) l.

(** [SELECT DISTINCT ON (key)]: the first row of each set of rows with the
    same key. *)
Fixpoint distinct_on_from (seen : list Z) (key : A -> Z) (l : list A)
  : list A :=
  match l with
  | [] => []
  | x :: t =>
      if existsb (Z.eqb (key x)) seen then distinct_on_from seen key t
      else x :: distinct_on_from (key x :: seen) key t
  end.

Definition distinct_on (key : A -> Z) (l : list A) : list A :=
  distinct_on_from [] key l.

(** [SELECT DISTINCT], for an equality test on the selected columns. *)
Fixpoint distinct (eqb : A -> A -> bool) (l : list A) : list A :=
  match l with
  | [] => []
  | x :: t =>
      x :: filter (fun y => negb (eqb x y)) (distinct eqb t)
  end.

(** [GROUP BY key], one group per key in order of first appearance, each
    with its rows. *)
Definition group_by (key : A -> Z) (l : list A) : list (A * list A) :=
  map (fun x => (x, filter (fun y => key y =? key x) l)) (distinct_on key l).
End Operators.

(** Ascending and descending order on timestamps and ids; for a nullable
    key, [DESC NULLS LAST]. *)
Definition asc {A} (key : A -> Z) (x y : A) : bool := key x <=? key y.
Definition desc {A} (key : A -> Z) (x y : A) : bool := key y <=? key x.
Definition desc_nulls_last {A} (key : A -> option Z) (x y : A) : bool :=
  match key x, key y with
  | Some a, Some b => b <=? a
  | Some _, None => true
  | None, Some _ => false
  | None, None => true
  end.

(** [MAX(e)] over a group: NULL for an empty one. *)
Definition max_of (l : list Z) : option Z :=
  match l with
  | [] => None
  | x :: t => Some (fold_left Z.max t x)
  end.

End Sql.

(* ================================================================== *)
(** * The store: tables, engine, and the handlers' monad *)
(* ================================================================== *)

Module Store.

(** ** Tables

    The columns are the ones the statements of the routers name.  Timestamps
    and dates are integers (a count of time units since an epoch); a nullable
    column is an [option]. *)

Record company := {
  co_id : Z;
  co_name : string;
  co_context : option string;
  co_dealers : option string;
  co_phone_number : option string;
  co_phone_number_id : option string;
  co_created_at : Z }.

Record contact := {
  ct_id : Z;
  ct_name : option string;
  ct_phone_number : option Z;
  ct_email : option string;
  ct_created_at : Z }.

Record session := {
  s_id : Z;
  s_company_id : Z;
  s_contact_id : Z;
  s_status : Z;
  s_associated_leads : option string;
  s_created_at : Z }.

(** A row of [conversations]: one message. *)
Record message := {
  c_id : Z;
  c_session_id : Z;
  c_company_id : Z;
  c_content : string;
  c_sender : Z;
  c_wa_id : option string;
  c_created_at : Z }.

Record lead := {
  l_id : Z;
  l_company_id : Z;
  l_contact_id : Z;
  l_name : option string;
  l_email : option string;
  l_phone_number : option string;
  l_location : option string;
  l_lead_source : option string;
  l_channel : option string;
  l_status : option Z;
  l_created_at : Z }.

Record transferred_lead := {
  tl_id : Z;
  tl_lead_id : Z;
  tl_session_id : Z;
  tl_contact_id : Z;
  tl_company_id : Z;
  tl_summary : option string;
  tl_zoho_id : option string;
  tl_created_at : Z }.

Record discarded_lead := {
  dl_id : Z;
  dl_lead_id : Z;
  dl_session_id : Z;
  dl_contact_id : Z;
  dl_summary : option string;
  dl_created_at : Z }.

Record knowledge := {
  kv_id : Z;
  kv_contact_id : Z;
  kv_session_id : Z;
  kv_company_id : Z;
  kv_key : string;
  kv_value : string;
  kv_created_at : Z }.

(** [contact_company]: the many-to-many link of contacts and companies. *)
Record contact_company_link := {
  cc_contact_id : Z;
  cc_company_id : Z }.

(** A row of [stock]; [EMPRESA] holds the owning company's name. *)
Record vehicle := {
  v_id : Z;
  v_MARCA : option string;
  v_MODELO : option string;
  v_VERSAO : option string;
  v_MATRICULA : option string;
  v_VIN : option string;
  v_PRECO : option Z;
  v_QUILOMETROS : option Z;
  v_CATEGORIA : option string;
  v_TAGS : option string;
  v_EMPRESA : option string;
  v_LOCAL : option string;
  v_OTHER_PHOTOS : option string;
  v_created_at : Z }.

Record test_metric := {
  tm_company_id : Z;
  tm_month : Z;
  tm_totalConversations : Z;
  tm_transferredLeads : Z;
  tm_totalLeads : Z;
  tm_qualificationPercentage : Q }.

Record db := {
  companies : list company;
  contacts : list contact;
  contact_company : list contact_company_link;
  sessions : list session;
  conversations : list message;
  leads : list lead;
  transferred_leads : list transferred_lead;
  discarded_leads : list discarded_lead;
  knowledge_vault : list knowledge;
  stock : list vehicle;
  test_metrics : list test_metric }.

(** ** The storage engine

    PostgreSQL's own reading of a text parameter as an integer ([int4in]),
    as a bigint ([int8in]) or
    as the id of a contact, session, lead or vehicle ([id_in]: the seed
    script writes contact and session ids as UUID text; the model codes an id
    as an integer and leaves its reading from text to the engine), its
    ILIKE operator ([ilike text pattern]), its clock and its calendar are
    the engine's: the handlers are modelled over any engine. *)
Class engine := {
  int4in : string -> option Z;
  int8in : string -> option Z;
  id_in : string -> option Z;
  ilike : string -> string -> bool;
  (** the clock and the calendar: CURRENT_DATE as a day number, [ts::date],
      [date_trunc('month', ts)] and the month of a date as month numbers, and
      the timestamp [d - INTERVAL '1 month' * n] of a date [d] *)
  current_date : Z;
  date_of : Z -> Z;
  month_of : Z -> Z;
  month_of_date : Z -> Z;
  months_before : Z -> Z -> Z;
  (** [INTERVAL 'n minutes'] in the unit of the timestamps *)
  minutes : Z -> Z }.

(** ** Statements

    One constructor per statement text of the routers.  A statement assembled
    from filter fragments carries the fragments as the handler built them,
    placeholders included. *)
Inductive statement : Type :=
(* metrics *)
| SelectRealtimeMetrics
| SelectTestMetrics
| SelectHistoricalMetrics
(* leads *)
| SelectLeadsPage (statusFilter searchFilter : string)
| SelectLeadsCount (statusFilter searchFilter : string)
| SelectLeadDetails
(* conversations *)
| SelectConversationsPage (searchFilter statusFilter : string)
| SelectConversationsCount (searchFilter statusFilter : string)
| SelectContactsPage (searchFilter statusFilter : string)
| SelectContactsCount (searchFilter statusFilter : string)
| SelectConversationDetails
(* search *)
| SearchContacts (companyFilter : string)
| SearchConversations (statusFilter : string)
| SearchLeads (whereClause : string)
| SelectCompanyName
| SearchStock
| GlobalContacts
| GlobalConversations
| GlobalLeads
(* sessions *)
| SelectSessionDetails
| SelectSessionLeads
| SelectSessionTransferStatus
| UpdateSessionStatus
(* stock *)
| SelectVehicleDetails
(* companies *)
| SelectCompany
| CountCompanyRecords
| DeleteCompany.

(** The numbers of the [$n] placeholders of a piece of SQL text. *)
Fixpoint read_number (s : string) (acc : nat) : nat :=
  match s with
  | String c t =>
      if is_digit c
      then read_number t (10 * acc + (N.to_nat (code c) - 48))%nat
      else acc
  | EmptyString => acc
  end.

Fixpoint placeholders_in (s : string) : list nat :=
  match s with
  | String c t =>
      if (Ascii.eqb c "$" && starts_with_digit t)%bool
      then read_number t 0 :: placeholders_in t
      else placeholders_in t
  | EmptyString => []
  end.

(** The placeholders of a statement: those of its fixed text, then those of
    its fragments. *)
Definition placeholders (st : statement) : list nat :=
  match st with
  | SelectRealtimeMetrics => [1]
  | SelectTestMetrics => [1; 2]
  | SelectHistoricalMetrics => [2; 2; 1; 2; 1; 2]
  | SelectLeadsPage f g => (1 :: placeholders_in f ++ placeholders_in g ++ [2; 3])%list
  | SelectLeadsCount f g => (1 :: placeholders_in f ++ placeholders_in g)%list
  | SelectLeadDetails => [1]
  | SelectConversationsPage f g =>
      (1 :: placeholders_in f ++ placeholders_in g ++ [2; 3])%list
  | SelectConversationsCount f g => (1 :: placeholders_in f ++ placeholders_in g)%list
  | SelectContactsPage f g =>
      ([1; 1; 1; 1; 1] ++ placeholders_in f ++ placeholders_in g
         ++ [1; 2; 3])%list
  | SelectContactsCount f g => (1 :: placeholders_in f ++ placeholders_in g)%list
  | SelectConversationDetails => [1]
  | SearchContacts f => (1 :: 1 :: 1 :: placeholders_in f ++ [2])%list
  | SearchConversations f => (1 :: 2 :: placeholders_in f ++ [3])%list
  | SearchLeads f => ([1; 2; 2; 2; 2; 2] ++ placeholders_in f ++ [3])%list
  | SelectCompanyName => [1]
  | SearchStock => [1; 2; 2; 2; 2; 2; 2; 2; 2; 3]
  | GlobalContacts => [1; 2; 2; 2]
  | GlobalConversations => [1; 2]
  | GlobalLeads => [1; 2; 2; 2]
  | SelectSessionDetails => [1]
  | SelectSessionLeads => [1; 1]
  | SelectSessionTransferStatus => [1]
  | UpdateSessionStatus => [1; 2]
  | SelectVehicleDetails => [1]
  | SelectCompany => [1]
  | CountCompanyRecords => [1; 1; 1]
  | DeleteCompany => [1]
  end%nat.

(** ** Parameters *)

(** [$i] of a parameter list (1-based). *)
Definition param (ps : list jsval) (i : nat) : jsval := nth (i - 1) ps JUndef.

(** The parameters are those of the text: every placeholder has a
    parameter to read, and every parameter is named by a placeholder.
    (PostgreSQL prepares the statement with the parameters its text names,
    rejects a parameter list of another length, and rejects a text that
    skips a number, whose parameter it cannot type.) *)
Definition bound (st : statement) (ps : list jsval) : bool :=
  forallb (fun i => (1 <=? i) && (i <=? List.length ps))%nat (placeholders st)
  && forallb (fun i => existsb (Nat.eqb i) (placeholders st))
             (seq 1 (List.length ps)).

(** The driver sends a parameter as text, a number or a boolean as
    [ToString] writes it, and the engine reads the text as the type of its
    placeholder.  Of such a text the engine makes an integer when it is an
    optional minus sign and decimal digits, and the integer is within the
    range of the type; a text in exponent form, [Infinity], [NaN], [true]
    and [false] are errors.  A string parameter is left to the engine's own
    reading. *)
Definition digits_only (s : string) : option Z :=
  if negb (String.eqb s "") && all_digits_of 10 s
  then parse_digits 10 s None
  else None.

Definition integer_of_text (s : string) : option Z :=
  match s with
  | String "-" t => option_map Z.opp (digits_only t)
  | _ => digits_only s
  end.

Definition int4_range (z : Z) : bool :=
  (- 2 ^ 31 <=? z) && (z <? 2 ^ 31).

Definition int8_range (z : Z) : bool :=
  (- 2 ^ 63 <=? z) && (z <? 2 ^ 63).

Definition number_param (range : Z -> bool) (v : jsval) : option Z :=
  match integer_of_text (ToString v) with
  | Some z => if range z then Some z else None
  | None => None
  end.

(** A parameter read where an integer is expected.  The outer [None] is an
    engine error; the inner one is NULL. *)
Definition as_int `{engine} (v : jsval) : option (option Z) :=
  match v with
  | JUndef | JNull => Some None
  | JStr s => match int4in s with Some z => Some (Some z) | None => None end
  | _ => match number_param int4_range v with
         | Some z => Some (Some z)
         | None => None
         end
  end.

(** A parameter read where a row id is expected. *)
Definition as_id `{engine} (v : jsval) : option (option Z) :=
  match v with
  | JUndef | JNull => Some None
  | _ => match id_in (ToString v) with Some z => Some (Some z) | None => None end
  end.

(** A parameter read where text is expected; [None] is NULL. *)
Definition as_text (v : jsval) : option string :=
  match v with
  | JUndef | JNull => None
  | _ => Some (ToString v)
  end.

(** A LIMIT or OFFSET parameter: a bigint that is not negative, NULL
    meaning none. *)
Definition as_limit `{engine} (v : jsval) : option (option Z) :=
  let count (z : option Z) :=
    match z with
    | Some z => if z <? 0 then None else Some (Some z)
    | None => None
    end in
  match v with
  | JUndef | JNull => Some None
  | JStr s => count (int8in s)
  | _ => count (number_param int8_range v)
  end.

(** [col = $i] and [text ILIKE $i] with NULLs: a comparison with NULL is not
    true. *)
Definition int_eq (col : Z) (v : option Z) : bool :=
  match v with Some z => col =? z | None => false end.

Definition text_eq (col : option string) (v : option string) : bool :=
  match col, v with Some a, Some b => String.eqb a b | _, _ => false end.

Definition text_ilike `{engine} (col : option string) (pat : option string)
  : bool :=
  match col, pat with Some a, Some p => ilike a p | _, _ => false end.

(** ** The monad of the handlers

    A computation reads and writes the database, appends to the log of the
    statements sent with their parameters, and may throw. *)
Record world := {
  database : db;
  sent : list (statement * list jsval) }.

Definition M (A : Type) : Type := world -> option A * world.

Definition ret {A} (a : A) : M A := fun w => (Some a, w).

Definition bind {A B} (m : M A) (k : A -> M B) : M B :=
  fun w => match m w with
           | (Some a, w') => k a w'
           | (None, w') => (None, w')
           end.

Definition throw {A} : M A := fun w => (None, w).

(** [await query(text, params)]: the statement is sent; the engine rejects it
    when the parameters are not those of the text or when [run] fails, and
    the promise then throws. *)
Definition query {A} (st : statement) (ps : list jsval)
    (run : db -> option (A * db)) : M A :=
  fun w =>
    let log := (sent w ++ [(st, ps)])%list in
    if bound st ps then
      match run (database w) with
      | Some (a, d) => (Some a, {| database := d; sent := log |})
      | None => (None, {| database := database w; sent := log |})
      end
    else (None, {| database := database w; sent := log |}).

(** A read-only statement. *)
Definition select {A} (st : statement) (ps : list jsval)
    (run : db -> option A) : M A :=
  query st ps (fun d => match run d with
                        | Some a => Some (a, d)
                        | None => None
                        end).

(** ** Responses *)

(** [res.status(code).json({ success: true, data })] and
    [res.status(code).json({ success: false, error: { message, details } })]. *)
Inductive response (A : Type) : Type :=
| Success (code : Z) (data : A)
| Failure (code : Z) (message : string) (details : option (Z * Z * Z)).
Arguments Success {A} code data.
Arguments Failure {A} code message details.

(** [try { ... } catch (error) { res.status(500).json(...) }]. *)
Definition catching {A} (m : M (response A)) (message : string)
  : world -> response A * world :=
  fun w => match m w with
           | (Some r, w') => (r, w')
           | (None, w') => (Failure 500 message None, w')
           end.

(** ** Requests.  [req.body] is the object the body parser leaves
    ([express.json] is installed ahead of the routers): empty for a request
    without a body.  [req.companyId] is what the Tenant Guard attaches. *)
Record request := {
  req_params : obj;
  req_query : obj;
  req_body : body;
  req_companyId : jsval }.

Definition with_companyId (req : request) (v : jsval) : request :=
  {| req_params := req_params req;
     req_query := req_query req;
     req_body := req_body req;
     req_companyId := v |}.

End Store.

Import Store.

Declare Scope handler_scope.
Delimit Scope handler_scope with handler.
Notation "x <- m ;; k" := (bind m (fun x => k))
  (at level 100, m at next level, right associativity) : handler_scope.
Notation "'let?' x := e 'in' k" :=
  (match e with Some x => k | None => None end)
  (at level 10, x pattern, e at level 100, k at level 200).

Local Open Scope handler_scope.

(* ================================================================== *)
(** * middleware/auth.js *)
(* ================================================================== *)

Module Auth.

Inductive guard_result : Type :=
| Reject (code : Z) (message : string)
| Next (req : request).

(** The candidate identifier, [req.params.companyId || req.query.company_id
    || req.body.company_id]: path, then query, then body. *)
Definition candidate (req : request) : json :=
  let fromUrl := or_else (get "companyId" (req_params req))
                         (get "company_id" (req_query req)) in
  if truthy fromUrl then Prim fromUrl
  else get_member "company_id" (req_body req).

(** The [try] block of [requireCompanyAccess]; [None] when it throws. *)
Definition checkCompanyAccess (req : request) : option guard_result :=
  let companyId := candidate req in
  if negb (json_truthy companyId)
     || json_is companyId "null"
     || json_is companyId "undefined"
  then Some (Reject 400 "Valid Company ID required")
  else
    let? parsedCompanyId := parseInt_json companyId in
    if isNaN parsedCompanyId
    then Some (Reject 400 "Company ID must be a valid number")
    else Some (Next (with_companyId req parsedCompanyId)).

(** [requireCompanyAccess]: the [try] block, and its [catch]. *)
Definition requireCompanyAccess (req : request) : guard_result :=
  match checkCompanyAccess req with
  | Some outcome => outcome
  | None => Reject 500 "Company access validation failed"
  end.

(** A route [router.get(path, requireCompanyAccess, handler)]. *)
Definition guarded {A} (handler : request -> world -> response A * world)
    (req : request) (w : world) : response A * world :=
  match requireCompanyAccess req with
  | Reject code message => (Failure code message None, w)
  | Next req' => handler req' w
  end.

End Auth.

(* ================================================================== *)
(** * routes/metrics.js *)
(* ================================================================== *)

Module Metrics.

(** [ROUND(x, 2)] of a numeric: to two decimals, a half away from zero. *)
Definition ROUND2 (x : Q) : Q :=
  if Qle_bool 0 x
  then inject_Z (Qfloor (x * 100 + (1 # 2))) / 100
  else - (inject_Z (Qfloor (- x * 100 + (1 # 2))) / 100).

(** [Math.round(x * 100) / 100]. *)
Definition round2 (x : double) : double :=
  fdiv (Math_round (fmul x (double_of_Z 100))) (double_of_Z 100).

(** The row of the realtime statement.  The engine hands each COUNT over as
    the decimal text of a bigint. *)
Record realtime_row := {
  conversations_today : Z;
  transfers_today : Z;
  conversations_yesterday : Z;
  transfers_yesterday : Z;
  conversations_this_month : Z;
  transfers_this_month : Z;
  active_sessions : Z }.

(** [yesterday > 0 ? ((today - yesterday) / yesterday * 100)
                   : (today > 0 ? 100 : 0)].
    The operators turn the text of a count into the double nearest to it
    and compute in doubles; a count compares with 0 as its double does. *)
Definition growth (today yesterday : Z) : double :=
  if 0 <? yesterday
  then fmul (fdiv (fsub (double_of_Z today) (double_of_Z yesterday))
                  (double_of_Z yesterday))
            (double_of_Z 100)
  else if 0 <? today then double_of_Z 100 else double_of_Z 0.

Definition conversationGrowth (metrics : realtime_row) : double :=
  growth (conversations_today metrics) (conversations_yesterday metrics).

Definition transferGrowth (metrics : realtime_row) : double :=
  growth (transfers_today metrics) (transfers_yesterday metrics).

(** The [data] of the realtime response; [parseInt] reads each count back
    from its text. *)
Record realtime_data := {
  today_conversations : jsval;
  today_transfers : jsval;
  yesterday_conversations : jsval;
  yesterday_transfers : jsval;
  thisMonth_conversations : jsval;
  thisMonth_transfers : jsval;
  growth_conversations : double;
  growth_transfers : double;
  activeSessions : jsval }.

Definition realtime_format (metrics : realtime_row) : realtime_data :=
  {| today_conversations := number_of_Z (conversations_today metrics);
     today_transfers := number_of_Z (transfers_today metrics);
     yesterday_conversations := number_of_Z (conversations_yesterday metrics);
     yesterday_transfers := number_of_Z (transfers_yesterday metrics);
     thisMonth_conversations := number_of_Z (conversations_this_month metrics);
     thisMonth_transfers := number_of_Z (transfers_this_month metrics);
     growth_conversations := round2 (conversationGrowth metrics);
     growth_transfers := round2 (transferGrowth metrics);
     activeSessions := number_of_Z (active_sessions metrics) |}.

Section Handlers.
Context {E : engine}.

(** The realtime statement: the company row joined with its sessions and
    with its transferred leads, one COUNT per figure. *)
Definition select_realtime (companyId : jsval) : M realtime_row :=
  select SelectRealtimeMetrics [companyId] (fun d =>
    let? c := as_int companyId in
    let rows :=
      filter (fun r => int_eq (co_id (fst (fst r))) c)
        (Sql.left_join
           (fun (r : company * option session) tl =>
              co_id (fst r) =? tl_company_id tl)
           (Sql.left_join (fun comp s => co_id comp =? s_company_id s)
              (companies d) (sessions d))
           (transferred_leads d)) in
    let s_when (p : session -> bool) :=
      Sql.count_when
        (fun r : company * option session * option transferred_lead =>
           match snd (fst r) with Some s => p s | None => false end) rows in
    let tl_when (p : transferred_lead -> bool) :=
      Sql.count_when
        (fun r : company * option session * option transferred_lead =>
           match snd r with Some tl => p tl | None => false end) rows in
    Some {|
      conversations_today :=
        s_when (fun s => date_of (s_created_at s) =? current_date);
      transfers_today :=
        tl_when (fun tl => date_of (tl_created_at tl) =? current_date);
      conversations_yesterday :=
        s_when (fun s => date_of (s_created_at s) =? current_date - 1);
      transfers_yesterday :=
        tl_when (fun tl => date_of (tl_created_at tl) =? current_date - 1);
      conversations_this_month :=
        s_when (fun s =>
                  month_of (s_created_at s) =? month_of_date current_date);
      transfers_this_month :=
        tl_when (fun tl =>
                   month_of (tl_created_at tl) =? month_of_date current_date);
      active_sessions :=
        s_when (fun s => existsb (Z.eqb (s_status s)) [0; 1; 2]) |}).

(** GET /api/metrics/realtime (after [requireCompanyAccess]). *)
Definition realtime (req : request) : world -> response realtime_data * world :=
  catching
    (let company_id := get "company_id" (req_query req) in
     let companyId := or_else company_id (req_companyId req) in
     if negb (truthy companyId)
     then ret (Failure 400 "Company ID is required" None)
     else
       metrics <- select_realtime companyId ;;
       ret (Success 200 (realtime_format metrics)))
    "Failed to fetch realtime metrics".

(** A row of the monthly aggregation over sessions and transferred leads. *)
Record monthly_row := {
  mr_month : Z;
  mr_totalConversations : Z;
  mr_transferredLeads : Z;
  mr_transferredSessions : Z;
  mr_qualificationPercentage : Q }.

(** What the historical endpoint answers with: the rows of [test_metrics],
    or the rows computed from sessions and transferred leads. *)
Inductive historical_data : Type :=
| TestRows (rows : list test_metric)
| ComputedRows (rows : list monthly_row).

(** [SELECT ... FROM test_metrics WHERE company_id = $1 ORDER BY month
    LIMIT $2]. *)
Definition select_test_metrics (companyId monthsBack : jsval)
  : M (list test_metric) :=
  select SelectTestMetrics [companyId; monthsBack] (fun d =>
    let? c := as_int companyId in
    let? n := as_limit monthsBack in
    let rows :=
      Sql.order_by (Sql.asc tm_month)
        (filter (fun t => int_eq (tm_company_id t) c) (test_metrics d)) in
    Some (match n with Some n => Sql.take n rows | None => rows end)).

Definition count_distinct (l : list Z) : Z := Sql.count (nodup Z.eq_dec l).

(** The fallback statement: one row per month of the last [$2] months, with
    the sessions and the transferred leads of the company counted by
    month. *)
Definition select_historical (companyId monthsBack : jsval)
  : M (list monthly_row) :=
  select SelectHistoricalMetrics [companyId; monthsBack] (fun d =>
    let? c := as_int companyId in
    let? n := as_int monthsBack in
    let n := match n with Some n => n | None => 0 end in
    let months :=
      Sql.order_by (Sql.asc (fun m : Z => m))
        (map (fun i => month_of_date current_date - Z.of_nat i)
             (seq 0 (Z.to_nat n))) in
    let since := months_before current_date n in
    let monthly_conversations :=
      filter (fun s => int_eq (s_company_id s) c
                       && (since <=? s_created_at s)) (sessions d) in
    let monthly_transferred :=
      filter (fun tl => int_eq (tl_company_id tl) c
                        && (since <=? tl_created_at tl))
             (transferred_leads d) in
    Some (map (fun m =>
      let total_conversations :=
        Sql.count_when (fun s => month_of (s_created_at s) =? m)
                       monthly_conversations in
      let mt :=
        filter (fun tl => month_of (tl_created_at tl) =? m)
               monthly_transferred in
      let transferred_sessions := count_distinct (map tl_session_id mt) in
      {| mr_month := m;
         mr_totalConversations := total_conversations;
         mr_transferredLeads := Sql.count mt;
         mr_transferredSessions := transferred_sessions;
         mr_qualificationPercentage :=
           if 0 <? total_conversations
           then ROUND2 (inject_Z transferred_sessions
                        / inject_Z total_conversations * 100)%Q
           else 0%Q |}) months)).

(** GET /api/metrics/historical (after [requireCompanyAccess]). *)
Definition historical (req : request)
  : world -> response historical_data * world :=
  catching
    (let company_id := get "company_id" (req_query req) in
     let months := default_to (JNum 6) (get "months" (req_query req)) in
     let companyId := or_else company_id (req_companyId req) in
     if negb (truthy companyId)
     then ret (Failure 400 "Company ID is required" None)
     else
       let monthsBack := or_else (parseInt months) (JNum 6) in
       (* First try to get data from test_metrics table *)
       testData <- select_test_metrics companyId monthsBack ;;
       if (0 <? List.length testData)%nat
       then ret (Success 200 (TestRows testData))
       else
         (* Fallback to real data if test data doesn't exist *)
         historicalData <- select_historical companyId monthsBack ;;
         ret (Success 200 (ComputedRows historicalData)))
    "Failed to fetch historical metrics".
End Handlers.

End Metrics.

(* ================================================================== *)
(** * Pagination and filter fragments shared by the listings *)
(* ================================================================== *)

Module Listing.

(** The [pagination] object of a listing response. *)
Record pagination := {
  pg_page : jsval;
  pg_limit : jsval;
  pg_total : Z;
  pg_pages : jsval;
  pg_hasNext : bool;
  pg_hasPrev : bool }.

(** [{ page: parseInt(page), limit: parseInt(limit), total,
       pages: Math.ceil(total / parseInt(limit)),
       hasNext: parseInt(page) < totalPages, hasPrev: parseInt(page) > 1 }],
    with [total = parseInt(countResult.rows[0].total)].  The division and
    the comparisons are those of the doubles. *)
Definition paginate (page limit : jsval) (total : Z) : pagination :=
  let totalPages :=
    Math_ceil (fdiv (double_of_Z total) (parseInt_double limit)) in
  {| pg_page := parseInt page;
     pg_limit := parseInt limit;
     pg_total := total;
     pg_pages := number totalPages;
     pg_hasNext := SFltb (parseInt_double page) totalPages;
     pg_hasPrev := SFltb (double_of_Z 1) (parseInt_double page) |}.

(** [(parseInt(page) - 1) * parseInt(limit)]. *)
Definition offset_of (page limit : jsval) : jsval :=
  num_mul (num_sub (parseInt page) (JNum 1)) (parseInt limit).

(** ["$" + n]. *)
Definition dollar (n : Z) : string := ("$" ++ string_of_Z n)%string.

(** [`%${search}%`]. *)
Definition wildcard (search : jsval) : jsval :=
  JStr ("%" ++ ToString search ++ "%")%string.

(** [status !== null && !isNaN(status)]. *)
Definition status_given (status : jsval) : bool :=
  negb (jsval_eqb status JNull) && negb (isNaN status).

Section Fragments.
Context {E : engine}.

(** [LIMIT $i OFFSET $j]; an engine error when either is not a non-negative
    integer. *)
Definition limit_offset_params {A} (ps : list jsval) (i j : nat)
    (rows : list A) : option (list A) :=
  let? lim := as_limit (param ps i) in
  let? off := as_limit (param ps j) in
  let rows := match off with Some o => Sql.skip o rows | None => rows end in
  Some (match lim with Some n => Sql.take n rows | None => rows end).

(** The meaning of a fragment [AND x.status = $k] as it stands in the
    statement text: no condition when the fragment is empty, else the
    comparison with the parameter its placeholder names. *)
Definition status_condition (fragment : string) (ps : list jsval)
  : option (option Z -> bool) :=
  if String.eqb fragment "" then Some (fun _ => true)
  else match placeholders_in fragment with
       | [k] => let? v := as_int (param ps k) in
                Some (fun status => match status with
                                    | Some st => int_eq st v
                                    | None => false
                                    end)
       | _ => None
       end.

(** The meaning of a fragment [AND (a ILIKE $i OR b ILIKE $j OR c ILIKE $k)]
    over the three texts [a], [b], [c] of a row. *)
Definition search_condition (fragment : string) (ps : list jsval)
  : option (option string -> option string -> option string -> bool) :=
  if String.eqb fragment "" then Some (fun _ _ _ => true)
  else match placeholders_in fragment with
       | [i; j; k] =>
           Some (fun a b c =>
                   text_ilike a (as_text (param ps i))
                   || text_ilike b (as_text (param ps j))
                   || text_ilike c (as_text (param ps k)))
       | _ => None
       end.
End Fragments.

End Listing.

Import Listing.

(* ================================================================== *)
(** * routes/conversations.js *)
(* ================================================================== *)

Module Conversations.

(** A row of the page statement of the listing: the session, its contact
    (LEFT JOIN), its latest message (LATERAL ... LIMIT 1) and its number of
    messages (LATERAL COUNT). *)
Record conversation_row := {
  cr_session : session;
  cr_contact : option contact;
  cr_last_msg : option message;
  cr_total_messages : Z }.

(** An element of [data.conversations]. *)
Record conversation := {
  session_id : Z;
  contact_id : option Z;
  contact_name : string;
  phone_number : option Z;
  contact_email : option string;
  last_message : string;
  last_message_time : option Z;
  last_message_sender : option Z;
  status : Z;
  session_created_at : Z;
  total_messages : Z }.

(** A row of the page statement of the contacts listing. *)
Record contact_row := {
  ctr_contact : contact;
  ctr_session_count : Z;
  ctr_last_session_time : option Z;
  ctr_active_sessions : Z;
  ctr_latest_status : option Z;
  ctr_last_message : option string;
  ctr_last_message_time : option Z;
  ctr_last_message_sender : option Z }.

(** An element of [data.contacts]. *)
Record contact_item := {
  ci_contact_id : Z;
  ci_contact_name : string;
  ci_phone_number : option Z;
  ci_contact_email : option string;
  ci_contact_created_at : Z;
  ci_session_count : Z;
  ci_last_session_time : option Z;
  ci_last_message : string;
  ci_last_message_time : option Z;
  ci_last_message_sender : option Z;
  ci_active_sessions : Z;
  ci_latest_status : option Z }.

(** The row, and the [data], of the session details: the session, its contact
    and the name of its company, the number of its messages and the latest
    one. *)
Record session_details := {
  sd_session : session;
  sd_contact : option contact;
  sd_company_name : option string;
  sd_message_count : Z;
  sd_last_message : option string;
  sd_last_message_time : option Z }.

(** [text || fallback] for a nullable text column. *)
Definition text_or (fallback : string) (v : option string) : string :=
  match v with
  | Some s => if String.eqb s "" then fallback else s
  | None => fallback
  end.

Definition format_conversation (row : conversation_row) : conversation :=
  {| session_id := s_id (cr_session row);
     contact_id := option_map ct_id (cr_contact row);
     contact_name :=
       text_or "Unknown"
         (match cr_contact row with Some ct => ct_name ct | None => None end);
     phone_number :=
       match cr_contact row with Some ct => ct_phone_number ct | None => None end;
     contact_email :=
       match cr_contact row with Some ct => ct_email ct | None => None end;
     last_message := text_or "No messages" (option_map c_content (cr_last_msg row));
     last_message_time := option_map c_created_at (cr_last_msg row);
     last_message_sender := option_map c_sender (cr_last_msg row);
     status := s_status (cr_session row);
     session_created_at := s_created_at (cr_session row);
     total_messages := cr_total_messages row |}.

Definition format_contact (row : contact_row) : contact_item :=
  {| ci_contact_id := ct_id (ctr_contact row);
     ci_contact_name := text_or "Unknown" (ct_name (ctr_contact row));
     ci_phone_number := ct_phone_number (ctr_contact row);
     ci_contact_email := ct_email (ctr_contact row);
     ci_contact_created_at := ct_created_at (ctr_contact row);
     ci_session_count := ctr_session_count row;
     ci_last_session_time := ctr_last_session_time row;
     ci_last_message := text_or "No messages" (ctr_last_message row);
     ci_last_message_time := ctr_last_message_time row;
     ci_last_message_sender := ctr_last_message_sender row;
     ci_active_sessions := ctr_active_sessions row;
     ci_latest_status := ctr_latest_status row |}.

Section Handlers.
Context {E : engine}.

Definition contact_matches
    (cond : option string -> option string -> option string -> bool)
    (ct : option contact) : bool :=
  match ct with
  | Some ct => cond (ct_name ct) (option_map string_of_Z (ct_phone_number ct))
                    (ct_email ct)
  | None => cond None None None
  end.

(** The messages of a session, latest first: [FROM conversations c WHERE
    c.session_id = s.id ORDER BY c.created_at DESC]. *)
Definition messages_latest_first (d : db) (sid : Z) : list message :=
  Sql.order_by (Sql.desc c_created_at)
    (filter (fun c => c_session_id c =? sid) (conversations d)).

(** The page statement:
    [SELECT DISTINCT ON (s.id) ... FROM sessions s
       LEFT JOIN contacts ct ON s.contact_id = ct.id
       LEFT JOIN LATERAL (... ORDER BY c.created_at DESC LIMIT 1) last_msg ON true
       LEFT JOIN LATERAL (SELECT COUNT( * ) ...) msg_count ON true
     WHERE s.company_id = $1 <searchFilter> <statusFilter>
     ORDER BY s.id, last_msg.created_at DESC NULLS LAST
     LIMIT $2 OFFSET $3]. *)
Definition select_conversations_page (searchFilter statusFilter : string)
    (queryParams : list jsval) : M (list conversation_row) :=
  select (SelectConversationsPage searchFilter statusFilter) queryParams
    (fun d =>
       let? c := as_int (param queryParams 1) in
       let? search := search_condition searchFilter queryParams in
       let? status := status_condition statusFilter queryParams in
       let joined :=
         map (fun r : session * option contact =>
                let sid := s_id (fst r) in
                {| cr_session := fst r;
                   cr_contact := snd r;
                   cr_last_msg := Sql.first_row (messages_latest_first d sid);
                   cr_total_messages :=
                     Sql.count (filter (fun m => c_session_id m =? sid)
                                       (conversations d)) |})
             (Sql.left_join (fun s ct => s_contact_id s =? ct_id ct)
                            (sessions d) (contacts d)) in
       let kept :=
         filter (fun r => int_eq (s_company_id (cr_session r)) c
                          && contact_matches search (cr_contact r)
                          && status (Some (s_status (cr_session r)))) joined in
       let ordered :=
         Sql.order_by
           (fun x y =>
              (s_id (cr_session x) <? s_id (cr_session y))
              || ((s_id (cr_session x) =? s_id (cr_session y))
                  && Sql.desc_nulls_last
                       (fun r => option_map c_created_at (cr_last_msg r)) x y))
           kept in
       limit_offset_params queryParams 2 3
         (Sql.distinct_on (fun r => s_id (cr_session r)) ordered)).

(** The count statement:
    [SELECT COUNT(DISTINCT s.id) AS total FROM sessions s
       LEFT JOIN contacts ct ON s.contact_id = ct.id
       LEFT JOIN conversations c ON s.id = c.session_id
     WHERE s.company_id = $1 <searchFilter> <statusFilter>]. *)
Definition select_conversations_count (searchFilter statusFilter : string)
    (countParams : list jsval) : M Z :=
  select (SelectConversationsCount searchFilter statusFilter) countParams
    (fun d =>
       let? c := as_int (param countParams 1) in
       let? search := search_condition searchFilter countParams in
       let? status := status_condition statusFilter countParams in
       let joined :=
         Sql.left_join
           (fun (r : session * option contact) m =>
              s_id (fst r) =? c_session_id m)
           (Sql.left_join (fun s ct => s_contact_id s =? ct_id ct)
                          (sessions d) (contacts d))
           (conversations d) in
       let kept :=
         filter (fun r : session * option contact * option message =>
                   let s := fst (fst r) in
                   int_eq (s_company_id s) c
                   && contact_matches search (snd (fst r))
                   && status (Some (s_status s))) joined in
       Some (Metrics.count_distinct (map (fun r => s_id (fst (fst r))) kept))).

(** GET /api/conversations (after [requireCompanyAccess]). *)
Definition list_conversations (req : request)
  : world -> response (list conversation * pagination) * world :=
  catching
    (let q := req_query req in
     let company_id := get "company_id" q in
     let page := default_to (JNum 1) (get "page" q) in
     let limit := default_to (JNum 20) (get "limit" q) in
     let search := default_to (JStr "") (get "search" q) in
     let status := default_to JNull (get "status" q) in
     let companyId := or_else company_id (req_companyId req) in
     let offset := offset_of page limit in
     if negb (truthy companyId)
     then ret (Failure 400 "Company ID is required" None)
     else
       (* Build search and status filters *)
       let queryParams := [companyId; parseInt limit; offset] in
       let paramIndex := 4 in
       let '(searchFilter, queryParams, paramIndex) :=
         if truthy search
         then (("AND (ct.name ILIKE " ++ dollar paramIndex
                ++ " OR ct.phone_number::text ILIKE " ++ dollar paramIndex
                ++ " OR ct.email ILIKE " ++ dollar paramIndex ++ ")")%string,
               (queryParams ++ [wildcard search])%list,
               paramIndex + 1)
         else ("", queryParams, paramIndex) in
       let '(statusFilter, queryParams) :=
         if status_given status
         then (("AND s.status = " ++ dollar paramIndex)%string,
               (queryParams ++ [parseInt status])%list)
         else ("", queryParams) in
       conversationsResult <-
         select_conversations_page searchFilter statusFilter queryParams ;;
       (* Get total count for pagination *)
       let statusParam :=
         if negb (jsval_eqb status JNull) then [parseInt status] else [] in
       total <-
         select_conversations_count
           (replace (dollar (paramIndex - 1)) "$2" searchFilter)
           (replace (dollar paramIndex)
                    (dollar (if truthy search then 3 else 2)) statusFilter)
           (if truthy search
            then (companyId :: wildcard search :: statusParam)
            else (companyId :: statusParam)) ;;
       ret (Success 200 (map format_conversation conversationsResult,
                         paginate page limit total)))
    "Failed to fetch conversations".

(** ** The contacts listing *)

(** The meaning of the fragment [AND EXISTS (SELECT 1 FROM sessions s2
    WHERE s2.contact_id = ct.id AND s2.company_id = $i AND s2.status = $k)]
    as it stands in the statement text. *)
Definition exists_status_condition (fragment : string) (ps : list jsval)
  : option (db -> contact -> bool) :=
  if String.eqb fragment "" then Some (fun _ _ => true)
  else match placeholders_in fragment with
       | [i; k] =>
           let? c := as_int (param ps i) in
           let? v := as_int (param ps k) in
           Some (fun d ct =>
                   existsb (fun s2 => (s_contact_id s2 =? ct_id ct)
                                      && int_eq (s_company_id s2) c
                                      && int_eq (s_status s2) v)
                           (sessions d))
       | _ => None
       end.

(** [FROM conversations c JOIN sessions s3 ON c.session_id = s3.id
     WHERE s3.contact_id = ct.id AND s3.company_id = $1
     ORDER BY c.created_at DESC]. *)
Definition contact_messages_latest_first (d : db) (c : option Z) (ct : contact)
  : list message :=
  map fst
    (Sql.order_by (Sql.desc (fun r : message * session => c_created_at (fst r)))
       (filter (fun r : message * session =>
                  (s_contact_id (snd r) =? ct_id ct)
                  && int_eq (s_company_id (snd r)) c)
               (Sql.inner_join (fun m s3 => c_session_id m =? s_id s3)
                               (conversations d) (sessions d)))).

(** [FROM sessions s2 WHERE s2.contact_id = ct.id AND s2.company_id = $1
     ORDER BY s2.created_at DESC]. *)
Definition contact_sessions_latest_first (d : db) (c : option Z) (ct : contact)
  : list session :=
  Sql.order_by (Sql.desc s_created_at)
    (filter (fun s2 => (s_contact_id s2 =? ct_id ct)
                       && int_eq (s_company_id s2) c)
            (sessions d)).

(** The sort key of the page statement:
    [COALESCE((SELECT c.created_at ... ORDER BY c.created_at DESC LIMIT 1),
              ct.created_at)]. *)
Definition contact_sort_key (row : contact_row) : Z :=
  match ctr_last_message_time row with
  | Some t => t
  | None => ct_created_at (ctr_contact row)
  end.

(** The page statement: contacts joined with their sessions of the company,
    grouped by contact ([contacts.id] is the key of the table, the other
    grouping columns depend on it), one aggregate or scalar subquery per
    output column, [ORDER BY MAX(COALESCE(...)) DESC LIMIT $2 OFFSET $3]. *)
Definition select_contacts_page (searchFilter statusFilter : string)
    (queryParams : list jsval) : M (list contact_row) :=
  select (SelectContactsPage searchFilter statusFilter) queryParams
    (fun d =>
       let? c := as_int (param queryParams 1) in
       let? search := search_condition searchFilter queryParams in
       let? status := exists_status_condition statusFilter queryParams in
       let kept :=
         filter (fun r : contact * session =>
                   int_eq (s_company_id (snd r)) c
                   && contact_matches search (Some (fst r))
                   && status d (fst r))
                (Sql.inner_join (fun ct s => s_contact_id s =? ct_id ct)
                                (contacts d) (sessions d)) in
       let rows :=
         map (fun g : (contact * session) * list (contact * session) =>
                let ct := fst (fst g) in
                let group := map snd (snd g) in
                {| ctr_contact := ct;
                   ctr_session_count := Sql.count group;
                   ctr_last_session_time :=
                     Sql.max_of (map s_created_at group);
                   ctr_active_sessions :=
                     Sql.count_when
                       (fun s => existsb (Z.eqb (s_status s)) [1; 2]) group;
                   ctr_latest_status :=
                     option_map s_status
                       (Sql.first_row (contact_sessions_latest_first d c ct));
                   ctr_last_message :=
                     option_map c_content
                       (Sql.first_row (contact_messages_latest_first d c ct));
                   ctr_last_message_time :=
                     option_map c_created_at
                       (Sql.first_row (contact_messages_latest_first d c ct));
                   ctr_last_message_sender :=
                     option_map c_sender
                       (Sql.first_row (contact_messages_latest_first d c ct))
                |})
             (Sql.group_by (fun r : contact * session => ct_id (fst r)) kept) in
       limit_offset_params queryParams 2 3
         (Sql.order_by (Sql.desc contact_sort_key) rows)).

(** The count statement:
    [SELECT COUNT(DISTINCT ct.id) AS total FROM contacts ct
       INNER JOIN sessions s ON s.contact_id = ct.id
     WHERE s.company_id = $1 <searchFilter> <statusFilter>]. *)
Definition select_contacts_count (searchFilter statusFilter : string)
    (countParams : list jsval) : M Z :=
  select (SelectContactsCount searchFilter statusFilter) countParams
    (fun d =>
       let? c := as_int (param countParams 1) in
       let? search := search_condition searchFilter countParams in
       let? status := exists_status_condition statusFilter countParams in
       let kept :=
         filter (fun r : contact * session =>
                   int_eq (s_company_id (snd r)) c
                   && contact_matches search (Some (fst r))
                   && status d (fst r))
                (Sql.inner_join (fun ct s => s_contact_id s =? ct_id ct)
                                (contacts d) (sessions d)) in
       Some (Metrics.count_distinct (map (fun r => ct_id (fst r)) kept))).

(** GET /api/conversations/contacts (after [requireCompanyAccess]). *)
Definition list_contacts (req : request)
  : world -> response (list contact_item * pagination) * world :=
  catching
    (let q := req_query req in
     let company_id := get "company_id" q in
     let page := default_to (JNum 1) (get "page" q) in
     let limit := default_to (JNum 20) (get "limit" q) in
     let search := default_to (JStr "") (get "search" q) in
     let status := default_to JNull (get "status" q) in
     let companyId := or_else company_id (req_companyId req) in
     let offset := offset_of page limit in
     if negb (truthy companyId)
     then ret (Failure 400 "Company ID is required" None)
     else
       let queryParams := [companyId; parseInt limit; offset] in
       let paramIndex := 4 in
       let '(searchFilter, queryParams, paramIndex) :=
         if truthy search
         then (("AND (ct.name ILIKE " ++ dollar paramIndex
                ++ " OR ct.phone_number::text ILIKE " ++ dollar paramIndex
                ++ " OR ct.email ILIKE " ++ dollar paramIndex ++ ")")%string,
               (queryParams ++ [wildcard search])%list,
               paramIndex + 1)
         else ("", queryParams, paramIndex) in
       let '(statusFilter, queryParams) :=
         if status_given status
         then (("AND EXISTS (SELECT 1 FROM sessions s2 WHERE s2.contact_id = ct.id AND s2.company_id = $1 AND s2.status = "
                ++ dollar paramIndex ++ ")")%string,
               (queryParams ++ [parseInt status])%list)
         else ("", queryParams) in
       contactsResult <-
         select_contacts_page searchFilter statusFilter queryParams ;;
       let statusParam :=
         if negb (jsval_eqb status JNull) then [parseInt status] else [] in
       total <-
         select_contacts_count
           (replace (dollar (paramIndex - 1)) "$2" searchFilter)
           (replace (dollar paramIndex)
                    (dollar (if truthy search then 3 else 2)) statusFilter)
           (if truthy search
            then (companyId :: wildcard search :: statusParam)
            else (companyId :: statusParam)) ;;
       ret (Success 200 (map format_contact contactsResult,
                         paginate page limit total)))
    "Failed to fetch contacts".

(** ** Session details *)

(** [SELECT ... FROM sessions s LEFT JOIN contacts ct ON s.contact_id = ct.id
     LEFT JOIN companies c ON s.company_id = c.id WHERE s.id = $1], with the
    message count and the latest message as scalar subqueries. *)
Definition select_conversation_details (sessionId : jsval)
  : M (list session_details) :=
  select SelectConversationDetails [sessionId] (fun d =>
    let? id := as_id sessionId in
    Some (map (fun r : session * option contact * option company =>
                 let s := fst (fst r) in
                 {| sd_session := s;
                    sd_contact := snd (fst r);
                    sd_company_name := option_map co_name (snd r);
                    sd_message_count :=
                      Sql.count (filter (fun m => c_session_id m =? s_id s)
                                        (conversations d));
                    sd_last_message :=
                      option_map c_content
                        (Sql.first_row (messages_latest_first d (s_id s)));
                    sd_last_message_time :=
                      option_map c_created_at
                        (Sql.first_row (messages_latest_first d (s_id s))) |})
              (filter (fun r : session * option contact * option company =>
                         int_eq (s_id (fst (fst r))) id)
                 (Sql.left_join
                    (fun (r : session * option contact) co =>
                       s_company_id (fst r) =? co_id co)
                    (Sql.left_join (fun s ct => s_contact_id s =? ct_id ct)
                                   (sessions d) (contacts d))
                    (companies d))))).

(** GET /api/conversations/:sessionId.  The route has no
    [requireCompanyAccess]; its statement selects by session id alone. *)
Definition conversation_details (req : request)
  : world -> response session_details * world :=
  catching
    (let sessionId := get "sessionId" (req_params req) in
     if negb (truthy sessionId)
     then ret (Failure 400 "Session ID is required" None)
     else
       result <- select_conversation_details sessionId ;;
       match result with
       | [] => ret (Failure 404 "Session not found" None)
       | session :: _ => ret (Success 200 session)
       end)
    "Failed to fetch session details".
End Handlers.

End Conversations.

(* ================================================================== *)
(** * routes/leads.js *)
(* ================================================================== *)

Module Leads.

(** The row, and the [data], of the lead details. *)
Record lead_details := {
  ld_lead : lead;
  ld_contact : option contact;
  ld_company_name : option string;
  ld_transfer : option transferred_lead;
  ld_discard : option discarded_lead;
  ld_isTransferred : bool;
  ld_isDiscarded : bool }.

Section Handlers.
Context {E : engine}.

Definition lead_matches
    (cond : option string -> option string -> option string -> bool)
    (l : lead) : bool :=
  cond (l_name l) (l_email l) (l_phone_number l).

(** The page statement:
    [SELECT l.*, ct.name, ct.id FROM leads l
       LEFT JOIN contacts ct ON l.contact_id = ct.id
     WHERE l.company_id = $1 <statusFilter> <searchFilter>
     ORDER BY l.created_at DESC LIMIT $2 OFFSET $3]. *)
Definition select_leads_page (statusFilter searchFilter : string)
    (queryParams : list jsval) : M (list (lead * option contact)) :=
  select (SelectLeadsPage statusFilter searchFilter) queryParams
    (fun d =>
       let? c := as_int (param queryParams 1) in
       let? status := status_condition statusFilter queryParams in
       let? search := search_condition searchFilter queryParams in
       limit_offset_params queryParams 2 3
         (Sql.order_by
            (Sql.desc (fun r : lead * option contact => l_created_at (fst r)))
            (filter (fun r : lead * option contact =>
                       int_eq (l_company_id (fst r)) c
                       && status (l_status (fst r))
                       && lead_matches search (fst r))
               (Sql.left_join (fun l ct => l_contact_id l =? ct_id ct)
                              (leads d) (contacts d))))).

(** The count statement:
    [SELECT COUNT( * ) AS total FROM leads l
       LEFT JOIN contacts ct ON l.contact_id = ct.id
     WHERE l.company_id = $1 <statusFilter> <searchFilter>]. *)
Definition select_leads_count (statusFilter searchFilter : string)
    (countParams : list jsval) : M Z :=
  select (SelectLeadsCount statusFilter searchFilter) countParams
    (fun d =>
       let? c := as_int (param countParams 1) in
       let? status := status_condition statusFilter countParams in
       let? search := search_condition searchFilter countParams in
       Some (Sql.count
               (filter (fun r : lead * option contact =>
                          int_eq (l_company_id (fst r)) c
                          && status (l_status (fst r))
                          && lead_matches search (fst r))
                  (Sql.left_join (fun l ct => l_contact_id l =? ct_id ct)
                                 (leads d) (contacts d))))).

(** GET /api/leads (after [requireCompanyAccess]). *)
Definition list_leads (req : request)
  : world -> response (list (lead * option contact) * pagination) * world :=
  catching
    (let q := req_query req in
     let company_id := get "company_id" q in
     let page := default_to (JNum 1) (get "page" q) in
     let limit := default_to (JNum 20) (get "limit" q) in
     let status := default_to JNull (get "status" q) in
     let search := default_to (JStr "") (get "search" q) in
     let companyId := or_else company_id (req_companyId req) in
     let offset := offset_of page limit in
     if negb (truthy companyId)
     then ret (Failure 400 "Company ID is required" None)
     else
       (* Build filters *)
       let queryParams := [companyId; parseInt limit; offset] in
       let paramIndex := 4 in
       let '(statusFilter, queryParams, paramIndex) :=
         if status_given status
         then (("AND l.status = " ++ dollar paramIndex)%string,
               (queryParams ++ [parseInt status])%list,
               paramIndex + 1)
         else ("", queryParams, paramIndex) in
       let '(searchFilter, queryParams) :=
         if truthy search
         then (("AND (l.name ILIKE " ++ dollar paramIndex
                ++ " OR l.email ILIKE " ++ dollar paramIndex
                ++ " OR l.phone_number ILIKE " ++ dollar paramIndex ++ ")")%string,
               (queryParams ++ [wildcard search])%list)
         else ("", queryParams) in
       result <- select_leads_page statusFilter searchFilter queryParams ;;
       (* Get total count *)
       (* Remove limit and offset *)
       let countParams := firstn (Z.to_nat (paramIndex - 2)) queryParams in
       let n := Z.of_nat (List.length countParams) in
       total <-
         select_leads_count
           (replace (dollar (paramIndex - 1)) (dollar (n + 1)) statusFilter)
           (replace (dollar paramIndex)
              (dollar (n + (if negb (jsval_eqb status JNull) then 2 else 1)))
              searchFilter)
           (countParams
              ++ (if status_given status then [parseInt status] else [])
              ++ (if truthy search then [wildcard search] else []))%list ;;
       ret (Success 200 (result, paginate page limit total)))
    "Failed to fetch leads".

(** [SELECT l.*, ... FROM leads l
       LEFT JOIN contacts ct ON l.contact_id = ct.id
       LEFT JOIN companies c ON l.company_id = c.id
       LEFT JOIN transferred_leads tl ON l.id = tl.lead_id
       LEFT JOIN discarded_leads dl ON l.id = dl.lead_id
     WHERE l.id = $1]. *)
Definition select_lead_details (id : jsval) : M (list lead_details) :=
  select SelectLeadDetails [id] (fun d =>
    let? i := as_id id in
    Some (map (fun r : lead * option contact * option company
                       * option transferred_lead * option discarded_lead =>
                 let '(l, ct, co, tl, dl) := r in
                 {| ld_lead := l;
                    ld_contact := ct;
                    ld_company_name := option_map co_name co;
                    ld_transfer := tl;
                    ld_discard := dl;
                    (* !!lead.transfer_id, !!lead.discard_id *)
                    ld_isTransferred :=
                      match tl with
                      | Some t => negb (tl_id t =? 0)
                      | None => false
                      end;
                    ld_isDiscarded :=
                      match dl with
                      | Some t => negb (dl_id t =? 0)
                      | None => false
                      end |})
              (filter (fun r : lead * option contact * option company
                               * option transferred_lead * option discarded_lead =>
                         int_eq (l_id (fst (fst (fst (fst r))))) i)
                 (Sql.left_join
                    (fun r dl => l_id (fst (fst (fst r))) =? dl_lead_id dl)
                    (Sql.left_join
                       (fun r tl => l_id (fst (fst r)) =? tl_lead_id tl)
                       (Sql.left_join
                          (fun (r : lead * option contact) co =>
                             l_company_id (fst r) =? co_id co)
                          (Sql.left_join
                             (fun l ct => l_contact_id l =? ct_id ct)
                             (leads d) (contacts d))
                          (companies d))
                       (transferred_leads d))
                    (discarded_leads d))))).

(** GET /api/leads/:id.  The route has no [requireCompanyAccess]; its
    statement selects by lead id alone. *)
Definition lead_by_id (req : request)
  : world -> response lead_details * world :=
  catching
    (let id := get "id" (req_params req) in
     if negb (truthy id)
     then ret (Failure 400 "Lead ID is required" None)
     else
       result <- select_lead_details id ;;
       match result with
       | [] => ret (Failure 404 "Lead not found" None)
       | lead :: _ => ret (Success 200 lead)
       end)
    "Failed to fetch lead details".
End Handlers.

End Leads.

(* ================================================================== *)
(** * routes/sessions.js *)
(* ================================================================== *)

Module Sessions.

(** The [data] of the session details. *)
Record session_info := {
  si_session : session;
  si_contact : option contact;
  si_company_name : option string;
  si_message_count : Z;
  si_knowledge_count : Z;
  si_last_message : option string;
  si_last_message_time : option Z;
  si_first_message_time : option Z;
  si_leads : list lead;
  si_transfer_status : option transferred_lead;
  si_discard_status : option discarded_lead }.

(** A row of the session statement, before the leads and the transfer status
    are attached. *)
Definition session_row : Type :=
  (session * option contact * option company) * (Z * Z)
  * (option message * option message).

Definition with_status (s : session) (st : Z) : session :=
  {| s_id := s_id s;
     s_company_id := s_company_id s;
     s_contact_id := s_contact_id s;
     s_status := st;
     s_associated_leads := s_associated_leads s;
     s_created_at := s_created_at s |}.

Definition with_sessions (d : db) (l : list session) : db :=
  {| companies := companies d;
     contacts := contacts d;
     contact_company := contact_company d;
     sessions := l;
     conversations := conversations d;
     leads := leads d;
     transferred_leads := transferred_leads d;
     discarded_leads := discarded_leads d;
     knowledge_vault := knowledge_vault d;
     stock := stock d;
     test_metrics := test_metrics d |}.

Section Handlers.
Context {E : engine}.

(** [SELECT ... FROM sessions s LEFT JOIN contacts ct ON s.contact_id = ct.id
     LEFT JOIN companies c ON s.company_id = c.id WHERE s.id = $1], with
    the message statistics and the knowledge count as scalar subqueries. *)
Definition select_session_details (id : jsval) : M (list session_row) :=
  select SelectSessionDetails [id] (fun d =>
    let? i := as_id id in
    Some (map (fun r : session * option contact * option company =>
                 let sid := s_id (fst (fst r)) in
                 let msgs :=
                   filter (fun m => c_session_id m =? sid) (conversations d) in
                 (r,
                  (Sql.count msgs,
                   Sql.count (filter (fun k => kv_session_id k =? sid)
                                     (knowledge_vault d))),
                  (Sql.first_row (Sql.order_by (Sql.desc c_created_at) msgs),
                   Sql.first_row (Sql.order_by (Sql.asc c_created_at) msgs))))
              (filter (fun r : session * option contact * option company =>
                         int_eq (s_id (fst (fst r))) i)
                 (Sql.left_join
                    (fun (r : session * option contact) co =>
                       s_company_id (fst r) =? co_id co)
                    (Sql.left_join (fun s ct => s_contact_id s =? ct_id ct)
                                   (sessions d) (contacts d))
                    (companies d))))).

(** [SELECT ... FROM leads
     WHERE company_id = (SELECT company_id FROM sessions WHERE id = $1)
       AND contact_id = (SELECT contact_id FROM sessions WHERE id = $1)]. *)
Definition select_session_leads (id : jsval) : M (list lead) :=
  select SelectSessionLeads [id] (fun d =>
    let? i := as_id id in
    let s := Sql.first_row (filter (fun s => int_eq (s_id s) i) (sessions d)) in
    Some (filter (fun l => int_eq (l_company_id l) (option_map s_company_id s)
                           && int_eq (l_contact_id l) (option_map s_contact_id s))
                 (leads d))).

(** [SELECT ... FROM sessions s
       LEFT JOIN transferred_leads tl ON s.id = tl.session_id
       LEFT JOIN discarded_leads dl ON s.id = dl.session_id
     WHERE s.id = $1]. *)
Definition select_transfer_status (id : jsval)
  : M (list (session * option transferred_lead * option discarded_lead)) :=
  select SelectSessionTransferStatus [id] (fun d =>
    let? i := as_id id in
    Some (filter (fun r : session * option transferred_lead
                          * option discarded_lead =>
                    int_eq (s_id (fst (fst r))) i)
            (Sql.left_join
               (fun (r : session * option transferred_lead) dl =>
                  s_id (fst r) =? dl_session_id dl)
               (Sql.left_join (fun s tl => s_id s =? tl_session_id tl)
                              (sessions d) (transferred_leads d))
               (discarded_leads d)))).

(** GET /api/sessions/:id.  The route has no [requireCompanyAccess]; its
    statements select by session id alone. *)
Definition session_by_id (req : request)
  : world -> response session_info * world :=
  catching
    (let id := get "id" (req_params req) in
     if negb (truthy id)
     then ret (Failure 400 "Session ID is required" None)
     else
       result <- select_session_details id ;;
       match result with
       | [] => ret (Failure 404 "Session not found" None)
       | (r, (message_count, knowledge_count), (last, first)) :: _ =>
           (* Get associated leads info *)
           leadsResult <- select_session_leads id ;;
           (* Get transferred/discarded status *)
           statusResult <- select_transfer_status id ;;
           let statusInfo :=
             match statusResult with
             | (_, tl, dl) :: _ => (tl, dl)
             | [] => (None, None)
             end in
           ret (Success 200
             {| si_session := fst (fst r);
                si_contact := snd (fst r);
                si_company_name := option_map co_name (snd r);
                si_message_count := message_count;
                si_knowledge_count := knowledge_count;
                si_last_message := option_map c_content last;
                si_last_message_time := option_map c_created_at last;
                si_first_message_time := option_map c_created_at first;
                si_leads := leadsResult;
                si_transfer_status :=
                  match fst statusInfo with
                  | Some tl => if tl_id tl =? 0 then None else Some tl
                  | None => None
                  end;
                si_discard_status :=
                  match snd statusInfo with
                  | Some dl => if dl_id dl =? 0 then None else Some dl
                  | None => None
                  end |})
       end)
    "Failed to fetch session details".

(** [UPDATE sessions SET status = $1 WHERE id = $2
     RETURNING id, status, created_at]. *)
Definition update_session_status (status id : jsval) : M (list session) :=
  query UpdateSessionStatus [status; id] (fun d =>
    let? st := as_int status in
    let? i := as_id id in
    match st with
    | Some st =>
        let updated :=
          map (fun s => if int_eq (s_id s) i then with_status s st else s)
              (sessions d) in
        Some (filter (fun s => int_eq (s_id s) i) updated,
              with_sessions d updated)
    | None => None
    end).

(** PUT /api/sessions/:id/status.  [data] is the returned row: id, status,
    created_at. *)
Definition put_status (req : request)
  : world -> response (Z * Z * Z) * world :=
  catching
    (let id := get "id" (req_params req) in
     match get_member "status" (req_body req) with
     | Prim status =>
         if negb (truthy id) || jsval_eqb status JUndef
         then ret (Failure 400 "Session ID and status are required" None)
         else if negb (Number_isInteger status)
                 || num_lt status (JNum 0) || num_lt (JNum 4) status
         then ret (Failure 400 "Status must be an integer between 0 and 4" None)
         else
           result <- update_session_status status id ;;
           match result with
           | [] => ret (Failure 404 "Session not found" None)
           | s :: _ => ret (Success 200 (s_id s, s_status s, s_created_at s))
           end
     | Fraction _ | Object _ | Array _ =>
         (* defined, and [Number.isInteger] is false of it *)
         if negb (truthy id)
         then ret (Failure 400 "Session ID and status are required" None)
         else ret (Failure 400 "Status must be an integer between 0 and 4" None)
     end)
    "Failed to update session status".
End Handlers.

End Sessions.

(* ================================================================== *)
(** * routes/stock.js *)
(* ================================================================== *)

Module Stock.

(** [s.split(',')]. *)
Fixpoint split_commas (s : string) : list string :=
  match s with
  | EmptyString => [EmptyString]
  | String c t =>
      if Ascii.eqb c ","
      then EmptyString :: split_commas t
      else match split_commas t with
           | w :: ws => String c w :: ws
           | [] => [String c EmptyString]
           end
  end.

(** The [data] of the vehicle details: the row, with [other_photos] split
    into its URLs when it is a non-empty string. *)
Record vehicle_details := {
  vd_vehicle : vehicle;
  vd_other_photos : option string + list string }.

Section Handlers.
Context {E : engine}.

(** [SELECT ... FROM stock WHERE id = $1]. *)
Definition select_vehicle_details (id : jsval) : M (list vehicle) :=
  select SelectVehicleDetails [id] (fun d =>
    let? i := as_id id in
    Some (filter (fun v => int_eq (v_id v) i) (stock d))).

(** GET /api/stock/:id.  The route has no [requireCompanyAccess]; its
    statement selects by vehicle id alone. *)
Definition vehicle_by_id (req : request)
  : world -> response vehicle_details * world :=
  catching
    (let id := get "id" (req_params req) in
     if negb (truthy id)
     then ret (Failure 400 "Vehicle ID is required" None)
     else
       result <- select_vehicle_details id ;;
       match result with
       | [] => ret (Failure 404 "Vehicle not found" None)
       | vehicle :: _ =>
           ret (Success 200
             {| vd_vehicle := vehicle;
                vd_other_photos :=
                  match v_OTHER_PHOTOS vehicle with
                  | Some photos =>
                      if String.eqb photos "" then inl (Some photos)
                      else inr (filter (fun url => negb (String.eqb url ""))
                                       (map trim (split_commas photos)))
                  | None => inl None
                  end |})
       end)
    "Failed to fetch vehicle details".
End Handlers.

End Stock.

(* ================================================================== *)
(** * routes/companies.js *)
(* ================================================================== *)

Module Companies.

Definition with_companies (d : db) (l : list company) : db :=
  {| companies := l;
     contacts := contacts d;
     contact_company := contact_company d;
     sessions := sessions d;
     conversations := conversations d;
     leads := leads d;
     transferred_leads := transferred_leads d;
     discarded_leads := discarded_leads d;
     knowledge_vault := knowledge_vault d;
     stock := stock d;
     test_metrics := test_metrics d |}.

Section Handlers.
Context {E : engine}.

(** [SELECT ... FROM companies WHERE id = $1]. *)
Definition select_company (id : jsval) : M (list company) :=
  select SelectCompany [id] (fun d =>
    let? i := as_int id in
    Some (filter (fun co => int_eq (co_id co) i) (companies d))).

(** GET /api/companies/:id. *)
Definition company_by_id (req : request)
  : world -> response company * world :=
  catching
    (let id := get "id" (req_params req) in
     if negb (truthy id) || isNaN id
     then ret (Failure 400 "Valid company ID required" None)
     else
       result <- select_company id ;;
       match result with
       | [] => ret (Failure 404 "Company not found" None)
       | co :: _ => ret (Success 200 co)
       end)
    "Failed to fetch company".

(** [SELECT (SELECT COUNT( * ) FROM conversations WHERE company_id = $1),
            (SELECT COUNT( * ) FROM leads WHERE company_id = $1),
            (SELECT COUNT( * ) FROM sessions WHERE company_id = $1)]. *)
Definition count_company_records (id : jsval) : M (Z * Z * Z) :=
  select CountCompanyRecords [id] (fun d =>
    let? i := as_int id in
    Some (Sql.count_when (fun m => int_eq (c_company_id m) i) (conversations d),
          Sql.count_when (fun l => int_eq (l_company_id l) i) (leads d),
          Sql.count_when (fun s => int_eq (s_company_id s) i) (sessions d))).

(** [DELETE FROM companies WHERE id = $1 RETURNING id]. *)
Definition delete_company_row (id : jsval) : M (list Z) :=
  query DeleteCompany [id] (fun d =>
    let? i := as_int id in
    Some (map co_id (filter (fun co => int_eq (co_id co) i) (companies d)),
          with_companies d
            (filter (fun co => negb (int_eq (co_id co) i)) (companies d)))).

(** DELETE /api/companies/:id.  [data] is the message of the success
    response. *)
Definition delete_company (req : request)
  : world -> response string * world :=
  catching
    (let id := get "id" (req_params req) in
     if negb (truthy id) || isNaN id
     then ret (Failure 400 "Valid company ID required" None)
     else
       (* Check if company has associated data *)
       counts <- count_company_records id ;;
       let '(conversations_count, leads_count, sessions_count) := counts in
       let totalRecords := conversations_count + leads_count + sessions_count in
       if 0 <? totalRecords
       then ret (Failure 409 "Cannot delete company with associated data"
                   (Some (conversations_count, leads_count, sessions_count)))
       else
         result <- delete_company_row id ;;
         match result with
         | [] => ret (Failure 404 "Company not found" None)
         | _ :: _ => ret (Success 200 "Company deleted successfully")
         end)
    "Failed to delete company".
End Handlers.

End Companies.

(* ================================================================== *)
(** * routes/search.js *)
(* ================================================================== *)

Module Search.

(** [!searchQuery || searchQuery.trim().length < 2].  A truthy value that is
    not a string has no [trim]: the call throws. *)
Definition too_short (searchQuery : jsval) : M bool :=
  if negb (truthy searchQuery) then ret true
  else match searchQuery with
       | JStr s => ret (String.length (trim s) <? 2)%nat
       | _ => throw
       end.

(** [`%${searchQuery.trim()}%`], past the check above. *)
Definition search_term (searchQuery : jsval) : jsval :=
  match searchQuery with
  | JStr s => wildcard (JStr (trim s))
  | _ => JUndef
  end.

Definition short_message : string :=
  "Search query must be at least 2 characters long".

(** The results of a search: the hits, the [query] echoed, and [total]. *)
Definition results (A : Type) : Type := list A * jsval * Z.

Definition found {A} (hits : list A) (searchQuery : jsval) : results A :=
  (hits, searchQuery, Sql.count hits).

Record contact_hit := {
  ch_contact : contact;
  ch_session_count : Z;
  ch_lead_count : Z;
  ch_companies : list (Z * string) }.

Record conversation_hit := {
  cv_message : message;
  cv_session : session;
  cv_contact : option contact;
  cv_message_context : list message }.

Record lead_hit := {
  lh_lead : lead;
  lh_contact : option contact;
  lh_is_transferred : bool;
  lh_is_discarded : bool;
  lh_transfer : option transferred_lead;
  lh_discard : option discarded_lead }.

(** The three lists of the global search. *)
Record global_hits := {
  gh_contacts : list contact;
  gh_conversations : list (message * session * option contact);
  gh_leads : list lead }.

Section Handlers.
Context {E : engine}.

Definition limit_param {A} (ps : list jsval) (i : nat) (rows : list A)
  : option (list A) :=
  let? lim := as_limit (param ps i) in
  Some (match lim with Some n => Sql.take n rows | None => rows end).

Definition any_ilike (pat : option string) (cols : list (option string))
  : bool :=
  existsb (fun col => text_ilike col pat) cols.

(** The statement of the contacts search: contacts matching [$1] on name,
    email or phone, optionally linked to the company [$3],
    [ORDER BY c.created_at DESC LIMIT $2]. *)
Definition search_contacts_rows (companyFilter : string)
    (queryParams : list jsval) : M (list contact_hit) :=
  select (SearchContacts companyFilter) queryParams (fun d =>
    let pat := as_text (param queryParams 1) in
    let? linked :=
      if String.eqb companyFilter "" then Some (fun _ : contact => true)
      else match placeholders_in companyFilter with
           | [k] =>
               let? c := as_int (param queryParams k) in
               Some (fun ct : contact =>
                       existsb (fun cc => (cc_contact_id cc =? ct_id ct)
                                          && int_eq (cc_company_id cc) c)
                               (contact_company d))
           | _ => None
           end in
    limit_param queryParams 2
      (map (fun ct =>
              {| ch_contact := ct;
                 ch_session_count :=
                   Sql.count_when (fun s => s_contact_id s =? ct_id ct)
                                  (sessions d);
                 ch_lead_count :=
                   Sql.count_when (fun l => l_contact_id l =? ct_id ct)
                                  (leads d);
                 ch_companies :=
                   map (fun r : contact_company_link * company =>
                          (co_id (snd r), co_name (snd r)))
                       (filter (fun r : contact_company_link * company =>
                                  cc_contact_id (fst r) =? ct_id ct)
                          (Sql.inner_join
                             (fun cc comp => cc_company_id cc =? co_id comp)
                             (contact_company d) (companies d))) |})
         (Sql.order_by (Sql.desc ct_created_at)
            (Sql.distinct (fun a b => ct_id a =? ct_id b)
               (filter (fun ct =>
                          any_ilike pat
                            [ct_name ct; ct_email ct;
                             option_map string_of_Z (ct_phone_number ct)]
                          && linked ct)
                       (contacts d)))))).

(** GET /api/search/contacts. *)
Definition contacts (req : request)
  : world -> response (results contact_hit) * world :=
  catching
    (let q := req_query req in
     let searchQuery := get "q" q in
     let company_id := get "company_id" q in
     let limit := default_to (JNum 20) (get "limit" q) in
     short <- too_short searchQuery ;;
     if short then ret (Failure 400 short_message None)
     else
       let queryParams := [search_term searchQuery; parseInt limit] in
       let '(companyFilter, queryParams) :=
         if truthy company_id
         then ("AND EXISTS (SELECT 1 FROM contact_company cc WHERE cc.contact_id = c.id AND cc.company_id = $3)",
               (queryParams ++ [parseInt company_id])%list)
         else ("", queryParams) in
       result <- search_contacts_rows companyFilter queryParams ;;
       ret (Success 200 (found result searchQuery)))
    "Failed to search contacts".

(** The statement of the conversations search: the messages of the
    company's sessions whose content matches [$2], each with up to five
    messages of its session within five minutes of it,
    [ORDER BY c.created_at DESC LIMIT $3]. *)
Definition search_conversations_rows (statusFilter : string)
    (queryParams : list jsval) : M (list conversation_hit) :=
  select (SearchConversations statusFilter) queryParams (fun d =>
    let? c := as_int (param queryParams 1) in
    let pat := as_text (param queryParams 2) in
    let? status := status_condition statusFilter queryParams in
    limit_param queryParams 3
      (map (fun r : message * session * option contact =>
              let m := fst (fst r) in
              {| cv_message := m;
                 cv_session := snd (fst r);
                 cv_contact := snd r;
                 cv_message_context :=
                   firstn 5
                     (Sql.order_by (Sql.asc c_created_at)
                        (filter (fun x =>
                                   (c_session_id x =? c_session_id m)
                                   && (c_created_at m - minutes 5
                                       <=? c_created_at x)
                                   && (c_created_at x
                                       <=? c_created_at m + minutes 5))
                                (conversations d))) |})
         (Sql.order_by
            (Sql.desc (fun r : message * session * option contact =>
                         c_created_at (fst (fst r))))
            (Sql.distinct
               (fun a b : message * session * option contact =>
                  (c_session_id (fst (fst a)) =? c_session_id (fst (fst b)))
                  && String.eqb (c_content (fst (fst a)))
                                (c_content (fst (fst b)))
                  && (c_sender (fst (fst a)) =? c_sender (fst (fst b)))
                  && (c_created_at (fst (fst a))
                      =? c_created_at (fst (fst b))))
               (filter (fun r : message * session * option contact =>
                          int_eq (s_company_id (snd (fst r))) c
                          && text_ilike (Some (c_content (fst (fst r)))) pat
                          && status (Some (s_status (snd (fst r)))))
                  (Sql.left_join
                     (fun (r : message * session) ct =>
                        s_contact_id (snd r) =? ct_id ct)
                     (Sql.inner_join (fun m s => c_session_id m =? s_id s)
                                     (conversations d) (sessions d))
                     (Store.contacts d))))))).

(** GET /api/search/conversations (after [requireCompanyAccess]). *)
Definition conversations (req : request)
  : world -> response (results conversation_hit) * world :=
  catching
    (let q := req_query req in
     let searchQuery := get "q" q in
     let company_id := get "company_id" q in
     let limit := default_to (JNum 20) (get "limit" q) in
     let session_status := default_to JNull (get "session_status" q) in
     let companyId := or_else company_id (req_companyId req) in
     short <- too_short searchQuery ;;
     if short then ret (Failure 400 short_message None)
     else if negb (truthy companyId)
     then ret (Failure 400 "Company ID is required" None)
     else
       let queryParams :=
         [companyId; search_term searchQuery; parseInt limit] in
       let '(statusFilter, queryParams) :=
         if status_given session_status
         then ("AND s.status = $4",
               (queryParams ++ [parseInt session_status])%list)
         else ("", queryParams) in
       result <- search_conversations_rows statusFilter queryParams ;;
       ret (Success 200 (found result searchQuery)))
    "Failed to search conversations".

(** The meaning of the clause [AND l.lead_source = $i AND l.channel = $j]
    built from the filters present: each placeholder of the clause is
    compared with the column its filter names. *)
Definition lead_filters (lead_source channel : jsval) (ps : list jsval)
    (whereClause : string) (l : lead) : bool :=
  match placeholders_in whereClause with
  | [] => true
  | [i] =>
      if truthy lead_source
      then text_eq (l_lead_source l) (as_text (param ps i))
      else text_eq (l_channel l) (as_text (param ps i))
  | i :: j :: _ =>
      text_eq (l_lead_source l) (as_text (param ps i))
      && text_eq (l_channel l) (as_text (param ps j))
  end.

(** The statement of the leads search: the leads of the company matching
    [$2] on name, email, phone, location or contact name, with their
    transfer and discard records, [ORDER BY l.created_at DESC LIMIT $3]. *)
Definition search_leads_rows (lead_source channel : jsval)
    (whereClause : string) (queryParams : list jsval) : M (list lead_hit) :=
  select (SearchLeads whereClause) queryParams (fun d =>
    let? c := as_int (param queryParams 1) in
    let pat := as_text (param queryParams 2) in
    limit_param queryParams 3
      (map (fun r : lead * option contact * option transferred_lead
                    * option discarded_lead =>
              let '(l, ct, tl, dl) := r in
              let transferred :=
                match tl with Some t => negb (tl_id t =? 0) | None => false end in
              let discarded :=
                match dl with Some t => negb (dl_id t =? 0) | None => false end in
              {| lh_lead := l;
                 lh_contact := ct;
                 lh_is_transferred := transferred;
                 lh_is_discarded := discarded;
                 lh_transfer := if transferred then tl else None;
                 lh_discard := if discarded then dl else None |})
         (Sql.order_by
            (Sql.desc (fun r : lead * option contact * option transferred_lead
                               * option discarded_lead =>
                         l_created_at (fst (fst (fst r)))))
            (filter (fun r : lead * option contact * option transferred_lead
                             * option discarded_lead =>
                       let l := fst (fst (fst r)) in
                       int_eq (l_company_id l) c
                       && any_ilike pat
                            [l_name l; l_email l; l_phone_number l;
                             l_location l;
                             match snd (fst (fst r)) with
                             | Some ct => ct_name ct
                             | None => None
                             end]
                       && lead_filters lead_source channel queryParams
                                       whereClause l)
               (Sql.left_join
                  (fun r dl => l_id (fst (fst r)) =? dl_lead_id dl)
                  (Sql.left_join
                     (fun (r : lead * option contact) tl =>
                        l_id (fst r) =? tl_lead_id tl)
                     (Sql.left_join (fun l ct => l_contact_id l =? ct_id ct)
                                    (Store.leads d) (Store.contacts d))
                     (transferred_leads d))
                  (discarded_leads d)))))).

(** GET /api/search/leads (after [requireCompanyAccess]). *)
Definition leads (req : request)
  : world -> response (results lead_hit) * world :=
  catching
    (let q := req_query req in
     let searchQuery := get "q" q in
     let company_id := get "company_id" q in
     let limit := default_to (JNum 20) (get "limit" q) in
     let lead_source := default_to JNull (get "lead_source" q) in
     let channel := default_to JNull (get "channel" q) in
     let companyId := or_else company_id (req_companyId req) in
     short <- too_short searchQuery ;;
     if short then ret (Failure 400 short_message None)
     else if negb (truthy companyId)
     then ret (Failure 400 "Company ID is required" None)
     else
       let queryParams :=
         [companyId; search_term searchQuery; parseInt limit] in
       let paramIndex := 4 in
       let '(filters, queryParams, paramIndex) :=
         if truthy lead_source
         then ([("l.lead_source = " ++ dollar paramIndex)%string],
               (queryParams ++ [lead_source])%list, paramIndex + 1)
         else ([], queryParams, paramIndex) in
       let '(filters, queryParams) :=
         if truthy channel
         then ((filters ++ [("l.channel = " ++ dollar paramIndex)%string])%list,
               (queryParams ++ [channel])%list)
         else (filters, queryParams) in
       let whereClause :=
         match filters with
         | [] => ""
         | _ => ("AND " ++ String.concat " AND " filters)%string
         end in
       result <-
         search_leads_rows lead_source channel whereClause queryParams ;;
       ret (Success 200 (found result searchQuery)))
    "Failed to search leads".

(** [SELECT name FROM companies WHERE id = $1]. *)
Definition select_company_name (companyId : jsval) : M (list string) :=
  select SelectCompanyName [companyId] (fun d =>
    let? c := as_int companyId in
    Some (map co_name
            (filter (fun co => int_eq (co_id co) c) (companies d)))).

(** The statement of the stock search: the vehicles whose [EMPRESA] is the
    company's name and that match [$2] on one of eight columns,
    [ORDER BY created_at DESC LIMIT $3]. *)
Definition search_stock_rows (companyName searchTerm limit : jsval)
  : M (list vehicle) :=
  select SearchStock [companyName; searchTerm; limit] (fun d =>
    limit_param [companyName; searchTerm; limit] 3
      (Sql.order_by (Sql.desc v_created_at)
         (filter (fun v =>
                    text_eq (v_EMPRESA v) (as_text companyName)
                    && any_ilike (as_text searchTerm)
                         [v_MARCA v; v_MODELO v; v_VERSAO v; v_MATRICULA v;
                          v_VIN v; v_CATEGORIA v; v_TAGS v; v_LOCAL v])
                 (Store.stock d)))).

(** GET /api/search/stock (after [requireCompanyAccess]). *)
Definition stock (req : request)
  : world -> response (results vehicle) * world :=
  catching
    (let q := req_query req in
     let searchQuery := get "q" q in
     let company_id := get "company_id" q in
     let limit := default_to (JNum 20) (get "limit" q) in
     let companyId := or_else company_id (req_companyId req) in
     short <- too_short searchQuery ;;
     if short then ret (Failure 400 short_message None)
     else if negb (truthy companyId)
     then ret (Failure 400 "Company ID is required" None)
     else
       (* Get company name *)
       companyResult <- select_company_name companyId ;;
       match companyResult with
       | [] => ret (Failure 404 "Company not found" None)
       | companyName :: _ =>
           result <-
             search_stock_rows (JStr companyName) (search_term searchQuery)
                               (parseInt limit) ;;
           ret (Success 200 (found result searchQuery))
       end)
    "Failed to search stock".

(** The three statements of the global search, each [LIMIT 5]. *)
Definition global_contacts (companyId searchTerm : jsval) : M (list contact) :=
  select GlobalContacts [companyId; searchTerm] (fun d =>
    let? c := as_int companyId in
    Some (firstn 5
            (filter (fun ct =>
                       existsb (fun cc => (cc_contact_id cc =? ct_id ct)
                                          && int_eq (cc_company_id cc) c)
                               (contact_company d)
                       && any_ilike (as_text searchTerm)
                            [ct_name ct; ct_email ct;
                             option_map string_of_Z (ct_phone_number ct)])
                    (Store.contacts d)))).

Definition global_conversations (companyId searchTerm : jsval)
  : M (list (message * session * option contact)) :=
  select GlobalConversations [companyId; searchTerm] (fun d =>
    let? c := as_int companyId in
    Some (firstn 5
            (filter (fun r : message * session * option contact =>
                       int_eq (s_company_id (snd (fst r))) c
                       && text_ilike (Some (c_content (fst (fst r))))
                                     (as_text searchTerm))
               (Sql.left_join
                  (fun (r : message * session) ct =>
                     s_contact_id (snd r) =? ct_id ct)
                  (Sql.inner_join (fun m s => c_session_id m =? s_id s)
                                  (Store.conversations d) (sessions d))
                  (Store.contacts d))))).

Definition global_leads (companyId searchTerm : jsval) : M (list lead) :=
  select GlobalLeads [companyId; searchTerm] (fun d =>
    let? c := as_int companyId in
    Some (firstn 5
            (filter (fun l =>
                       int_eq (l_company_id l) c
                       && any_ilike (as_text searchTerm)
                            [l_name l; l_email l; l_phone_number l])
                    (Store.leads d)))).

(** GET /api/search/global (after [requireCompanyAccess]).  The three
    statements are independent reads, awaited together; they are sent in
    the order they are written. *)
Definition global (req : request)
  : world -> response (global_hits * jsval * Z) * world :=
  catching
    (let q := req_query req in
     let searchQuery := get "q" q in
     let company_id := get "company_id" q in
     let companyId := or_else company_id (req_companyId req) in
     short <- too_short searchQuery ;;
     if short then ret (Failure 400 short_message None)
     else if negb (truthy companyId)
     then ret (Failure 400 "Company ID is required" None)
     else
       let searchTerm := search_term searchQuery in
       contactsResult <- global_contacts companyId searchTerm ;;
       conversationsResult <- global_conversations companyId searchTerm ;;
       leadsResult <- global_leads companyId searchTerm ;;
       ret (Success 200
              ({| gh_contacts := contactsResult;
                  gh_conversations := conversationsResult;
                  gh_leads := leadsResult |},
               searchQuery,
               Sql.count contactsResult + Sql.count conversationsResult
               + Sql.count leadsResult)))
    "Failed to perform global search".
End Handlers.

End Search.

(* ================================================================== *)
(** * middleware/errorHandler.js *)
(* ================================================================== *)

Module ErrorHandler.

(** What the handler reads of the error [err]; a property that is absent is
    [undefined].  [err_details] is [err.details] when it is truthy. *)
Record error {D : Type} := {
  err_message : jsval;
  err_status : jsval;
  err_code : jsval;
  err_name : jsval;
  err_details : option D;
  err_stack : jsval }.
Arguments error D : clear implicits.

(** [err.details || []]. *)
Inductive details_value (D : Type) : Type :=
| Own (d : D)
| EmptyArray.
Arguments Own {D} d.
Arguments EmptyArray {D}.

(** [res.status(status).json({ success: false,
      error: { message, details?, stack? } })]; a key the spread leaves out
    is [None]. *)
Record reply {D : Type} := {
  status : jsval;
  message : jsval;
  details : option (details_value D);
  stack : option jsval }.
Arguments reply D : clear implicits.

(** [v === s] for a string [s]. *)
Definition equals (v : jsval) (s : string) : bool := jsval_eqb v (JStr s).

(** [errorHandler(err, req, res, next)], with the value of
    [process.env.NODE_ENV].  The local [error] is its message, its status
    and, for a validation error, its details. *)
Definition errorHandler {D : Type} (NODE_ENV : jsval) (err : error D)
  : reply D :=
  (* Default error *)
  let error : jsval * jsval * option (details_value D) :=
    (or_else (err_message err) (JStr "Internal Server Error"),
     or_else (err_status err) (JNum 500), None) in
  (* Database connection errors *)
  let error :=
    if equals (err_code err) "ECONNREFUSED" || equals (err_code err) "ENOTFOUND"
    then (JStr "Database connection failed", JNum 503, None)
    else error in
  (* PostgreSQL specific errors *)
  let error :=
    if truthy (err_code err) then
      if equals (err_code err) "23505"
      then (JStr "Resource already exists", JNum 409, None)
      else if equals (err_code err) "23503"
      then (JStr "Referenced resource not found", JNum 400, None)
      else if equals (err_code err) "23514"
      then (JStr "Invalid data provided", JNum 400, None)
      else if equals (err_code err) "42P01"
      then (JStr "Database schema error", JNum 500, None)
      else error
    else error in
  (* JWT errors *)
  let error :=
    if equals (err_name err) "JsonWebTokenError"
    then (JStr "Invalid token", JNum 401, None)
    else error in
  let error :=
    if equals (err_name err) "TokenExpiredError"
    then (JStr "Token expired", JNum 401, None)
    else error in
  (* Validation errors *)
  let error :=
    if equals (err_name err) "ValidationError"
    then (JStr "Validation failed", JNum 400,
          Some (match err_details err with
                | Some d => Own d
                | None => EmptyArray
                end))
    else error in
  (* Send error response *)
  let '(message, status, details) := error in
  {| status := status;
     message := message;
     details := details;
     stack := if equals NODE_ENV "development"
              then Some (err_stack err) else None |}.

End ErrorHandler.

(* ================================================================== *)
(** * middleware/auth.js: the token middlewares *)
(* ================================================================== *)

Module Token.

(** [s.split(' ')]. *)
Fixpoint split_spaces (s : string) : list string :=
  match s with
  | EmptyString => [EmptyString]
  | String c t =>
      if Ascii.eqb c " "
      then EmptyString :: split_spaces t
      else match split_spaces t with
           | w :: ws => String c w :: ws
           | [] => [String c EmptyString]
           end
  end.

(** [authHeader && authHeader.split(' ')[1]] for the header
    [req.headers['authorization']], a string or [undefined] ([None]); the
    result is a string or [undefined]. *)
Definition token_of (authHeader : option string) : option string :=
  match authHeader with
  | None => None
  | Some s => if String.eqb s "" then Some "" else nth_error (split_spaces s) 1
  end.

(** [jwt.verify(token, process.env.JWT_SECRET)]: the decoded payload, an
    object of claims, or an error thrown, by its [name]. *)
Inductive verdict : Type :=
| Decoded (payload : obj)
| Thrown (name : string).

(** [await supabase.auth.getUser(token)]: a user, no user (or an [error] in
    the answer), or a rejected promise. *)
Inductive lookup : Type :=
| User (user : obj)
| NoUser
| Rejected.

(** What the middlewares read and write of the request. *)
Record request := {
  authorization : option string;
  user : option obj }.

(** [next()], or the answer [res.status(code).json({ success: false,
    error: { message } })]. *)
Inductive outcome : Type :=
| Pass (req : request)
| Answer (code : Z) (message : string).

(** [{ id, email, ...decoded }]: the properties of [decoded] come last and
    win.  In a list read by [get] the first entry of a key is the one
    found. *)
Definition user_object (id email : jsval) (decoded : obj) : obj :=
  (decoded ++ [("id", id); ("email", email)])%list.

Section Middlewares.
Variable verify : string -> verdict.
Variable getUser : string -> lookup.

Definition authenticateToken (req : request) : outcome :=
  let authHeader := authorization req in
  let token := token_of authHeader in
  match token with
  | None => Answer 401 "Access token required"
  | Some token =>
      if String.eqb token "" then Answer 401 "Access token required"
      else
        (* Verify JWT token (our custom JWT) *)
        match verify token with
        | Decoded decoded =>
            (* Add user info to request from JWT payload *)
            Pass {| authorization := authorization req;
                    user := Some (user_object (get "sub" decoded)
                                              (get "email" decoded) decoded) |}
        | Thrown name =>
            if String.eqb name "JsonWebTokenError"
            then Answer 401 "Invalid token"
            else if String.eqb name "TokenExpiredError"
            then Answer 401 "Token expired"
            else Answer 500 "Authentication failed"
        end
  end.

(** Optional authentication middleware: whatever happens, [next()]. *)
Definition optionalAuth (req : request) : outcome :=
  let authHeader := authorization req in
  let token := token_of authHeader in
  match token with
  | None => Pass req
  | Some token =>
      if String.eqb token "" then Pass req
      else
        match verify token with
        | Decoded decoded =>
            match getUser token with
            | User user =>
                Pass {| authorization := authorization req;
                        user := Some (user_object (get "id" user)
                                                  (get "email" user) decoded) |}
            | NoUser => Pass req
            | Rejected => Pass req   (* Continue without authentication *)
            end
        | Thrown _ => Pass req       (* Continue without authentication *)
        end
  end.

(** [router.use(a)] followed by a route [router.get(path, b, handler)]: the
    request the handler is given, or the answer of the middleware that
    stops it. *)
Definition chain (a b : request -> outcome) (req : request) : outcome :=
  match a req with
  | Pass req' => b req'
  | Answer code message => Answer code message
  end.

End Middlewares.

End Token.

(* ================================================================== *)
(** * A reference engine and a sample database *)
(* ================================================================== *)

(** One engine to run the handlers on: integers (within the range of their
    type) and ids read from decimal text, LIKE
    patterns with [%] and [_] matched without regard to the case of ASCII
    letters, timestamps in seconds, and a calendar of thirty-day months. *)
Module Reference.

Definition read_int (s : string) : option Z :=
  let '(sign, digits) := strip_sign (trim s) in
  if negb (String.eqb digits "") && all_digits_of 10 digits
  then match parse_digits 10 digits None with
       | Some n => Some (sign * n)
       | None => None
       end
  else None.

Definition lower (c : ascii) : ascii :=
  let n := code c in
  if ((65 <=? n) && (n <=? 90))%N then ascii_of_N (n + 32) else c.

Fixpoint like (p : string) : string -> bool :=
  match p with
  | EmptyString => fun s => String.eqb s ""
  | String c p' =>
      if Ascii.eqb c "%"
      then fix skip (s : string) : bool :=
             like p' s || match s with
                          | String _ t => skip t
                          | EmptyString => false
                          end
      else fun s =>
             match s with
             | String d t =>
                 (Ascii.eqb c "_" || Ascii.eqb (lower c) (lower d)) && like p' t
             | EmptyString => false
             end
  end.

Definition read_within (range : Z -> bool) (s : string) : option Z :=
  match read_int s with
  | Some z => if range z then Some z else None
  | None => None
  end.

Definition pg : engine :=
  {| int4in := read_within int4_range;
     int8in := read_within int8_range;
     id_in := read_int;
     ilike := fun text pattern => like pattern text;
     current_date := 20000;
     date_of := fun ts => ts / 86400;
     month_of := fun ts => ts / (86400 * 30);
     month_of_date := fun d => d / 30;
     months_before := fun d n => (d - 30 * n) * 86400;
     minutes := fun n => 60 * n |}.

Definition mk_company (id : Z) (name : string) : company :=
  {| co_id := id; co_name := name; co_context := None; co_dealers := None;
     co_phone_number := None; co_phone_number_id := None; co_created_at := 0 |}.

Definition mk_contact (id : Z) (name : string) (created_at : Z) : contact :=
  {| ct_id := id; ct_name := Some name; ct_phone_number := None;
     ct_email := None; ct_created_at := created_at |}.

Definition mk_session (id company contact status created_at : Z) : session :=
  {| s_id := id; s_company_id := company; s_contact_id := contact;
     s_status := status; s_associated_leads := None;
     s_created_at := created_at |}.

Definition mk_message (id session company : Z) (content : string)
    (created_at : Z) : message :=
  {| c_id := id; c_session_id := session; c_company_id := company;
     c_content := content; c_sender := 0; c_wa_id := None;
     c_created_at := created_at |}.

Definition mk_lead (id company contact : Z) (name : string) (created_at : Z)
  : lead :=
  {| l_id := id; l_company_id := company; l_contact_id := contact;
     l_name := Some name; l_email := None; l_phone_number := None;
     l_location := None; l_lead_source := None; l_channel := None;
     l_status := None; l_created_at := created_at |}.

Definition mk_vehicle (id : Z) (empresa marca : string) : vehicle :=
  {| v_id := id; v_MARCA := Some marca; v_MODELO := None; v_VERSAO := None;
     v_MATRICULA := None; v_VIN := None; v_PRECO := None;
     v_QUILOMETROS := None; v_CATEGORIA := None; v_TAGS := None;
     v_EMPRESA := Some empresa; v_LOCAL := None; v_OTHER_PHOTOS := None;
     v_created_at := 0 |}.

Definition mk_test_metric (company month total : Z) : test_metric :=
  {| tm_company_id := company; tm_month := month;
     tm_totalConversations := total; tm_transferredLeads := 0;
     tm_totalLeads := 0; tm_qualificationPercentage := 0 |}.

(** Two tenants.  Company 1 has the contacts 10 and 11, three sessions and
    a lead; company 2 has the contact 12, one session, a lead and a vehicle.
    The two messages of session 100 have the same creation time. *)
Definition sample : db :=
  {| companies := [mk_company 1 "Alfa"; mk_company 2 "Beta";
                   mk_company 3 "Gama"];
     contacts := [mk_contact 10 "Ana" 5000; mk_contact 11 "Bruno" 50;
                  mk_contact 12 "Carla" 70];
     contact_company := [];
     sessions := [mk_session 100 1 10 0 1000; mk_session 101 1 10 1 2000;
                  mk_session 102 1 11 3 3000; mk_session 200 2 12 1 4000];
     conversations := [mk_message 1 100 1 "first" 1500;
                       mk_message 2 100 1 "second" 1500;
                       mk_message 3 102 1 "hello" 3100;
                       mk_message 4 200 2 "private" 4100];
     leads := [mk_lead 7 1 10 "Ana" 100; mk_lead 8 2 12 "Carla" 200];
     transferred_leads := [];
     discarded_leads := [];
     knowledge_vault := [];
     stock := [mk_vehicle 31 "Alfa" "Fiat"; mk_vehicle 32 "Beta" "Opel"];
     test_metrics := [mk_test_metric 1 3 30; mk_test_metric 1 1 10;
                      mk_test_metric 1 2 20] |}.

(** One tenant on a busy day: four sessions created today (day 20000 of
    the reference calendar), three yesterday, and one lead transferred
    today. *)
Definition busy : db :=
  let today := 20000 * 86400 in
  let yesterday := 19999 * 86400 in
  {| companies := [mk_company 1 "Alfa"];
     contacts := [mk_contact 10 "Ana" 0];
     contact_company := [];
     sessions := [mk_session 1 1 10 0 yesterday;
                  mk_session 2 1 10 1 (yesterday + 60);
                  mk_session 3 1 10 3 (yesterday + 120);
                  mk_session 4 1 10 0 today;
                  mk_session 5 1 10 0 (today + 60);
                  mk_session 6 1 10 1 (today + 120);
                  mk_session 7 1 10 2 (today + 180)];
     conversations := [];
     leads := [mk_lead 7 1 10 "Ana" 100];
     transferred_leads :=
       [{| tl_id := 1; tl_lead_id := 7; tl_session_id := 4;
           tl_contact_id := 10; tl_company_id := 1; tl_summary := None;
           tl_zoho_id := None; tl_created_at := today + 300 |}];
     discarded_leads := [];
     knowledge_vault := [];
     stock := [];
     test_metrics := [] |}.

Definition start (d : db) : world := {| database := d; sent := [] |}.

(** A request with the given path parameters, query string and body. *)
Definition request_of (params query : obj) (body : body) : request :=
  {| req_params := params; req_query := query; req_body := body;
     req_companyId := JUndef |}.

End Reference.

Import Reference.

(* ================================================================== *)
(** * Properties *)
(* ================================================================== *)

(** ** Running a handler: the equations of the monad *)

Section MonadFacts.
Context {A B : Type}.

Lemma bind_ret (a : A) (k : A -> M B) (w : world) :
  bind (ret a) k w = k a w.
Proof. reflexivity. Qed.

Lemma bind_throw (k : A -> M B) (w : world) :
  bind throw k w = (None, w).
Proof. reflexivity. Qed.

Lemma bind_ok (m : M A) (k : A -> M B) (w w' : world) (a : A) :
  m w = (Some a, w') -> bind m k w = k a w'.
Proof. unfold bind. intros ->. reflexivity. Qed.


Lemma catching_ok (m : M (response A)) (msg : string) (w w' : world)
    (r : response A) :
  m w = (Some r, w') -> catching m msg w = (r, w').
Proof. unfold catching. intros ->. reflexivity. Qed.

End MonadFacts.

(** The world after a statement was sent and left the tables as they were. *)
Definition logged (w : world) (st : statement) (ps : list jsval) : world :=
  {| database := database w; sent := (sent w ++ [(st, ps)])%list |}.

Lemma select_ok {A} (st : statement) (ps : list jsval)
    (run : db -> option A) (w : world) (a : A) :
  bound st ps = true -> run (database w) = Some a ->
  select st ps run w = (Some a, logged w st ps).
Proof.
  intros Hb Hr. unfold select, query. rewrite Hb, Hr. reflexivity.
Qed.

Lemma select_fail {A} (st : statement) (ps : list jsval)
    (run : db -> option A) (w : world) :
  bound st ps = false \/ run (database w) = None ->
  select st ps run w = (None, logged w st ps).
Proof.
  intros H. unfold select, query.
  destruct (bound st ps); [|reflexivity].
  destruct H as [H|H]; [discriminate|]. rewrite H. reflexivity.
Qed.


Lemma jsval_eqb_str (v : jsval) (s : string) :
  jsval_eqb v (JStr s) = true <-> v = JStr s.
Proof.
  destruct v; simpl; split; intros H; try discriminate; try congruence.
  - apply String.eqb_eq in H. congruence.
  - injection H as ->. apply String.eqb_refl.
Qed.

(* ------------------------------------------------------------------ *)
(** ** Numbers and their texts *)
(* ------------------------------------------------------------------ *)

Section Numbers.

(** The double nearest to an integer is an integer or an infinity. *)
Lemma number_of_Z_cases (z : Z) :
  (exists n, number_of_Z z = JNum n)
  \/ number_of_Z z = JInf \/ number_of_Z z = JNegInf.
Proof.
  unfold number_of_Z, infinite.
  destruct (Z.log2 (Z.abs z) - 52 <=? 0); [left; eauto|].
  match goal with |- context [if ?c then _ else JNum ?m] =>
    destruct c; [|left; eauto] end.
  destruct (z <? 0); auto.
Qed.

(** An integer below 2^53 is a double. *)
Lemma number_of_Z_small (z : Z) :
  Z.abs z < 2 ^ 53 -> number_of_Z z = JNum z.
Proof.
  intros H. unfold number_of_Z.
  assert (Hl : Z.log2 (Z.abs z) - 52 <= 0).
  { destruct (Z.eq_dec (Z.abs z) 0) as [-> | Hz]; [simpl; lia|].
    assert (Z.log2 (Z.abs z) < 53); [|lia].
    apply Z.log2_lt_pow2; lia. }
  apply Z.leb_le in Hl. rewrite Hl. reflexivity.
Qed.

Lemma number_of_Z_not_NaN (z : Z) : isNaN (number_of_Z z) = false.
Proof.
  destruct (number_of_Z_cases z) as [(n & ->) | [-> | ->]]; reflexivity.
Qed.

(** The number [parseInt] returns for a text, in terms of what it reads. *)
Definition parsed (s : string) : jsval := parseInt (JStr s).

Lemma parsed_isNaN (s : string) :
  isNaN (parsed s)
  = match parseInt_text s with Some _ => false | None => true end.
Proof.
  unfold parsed, parseInt. cbn [ToString].
  destruct (parseInt_text s) as [[negative n]|]; [|reflexivity].
  apply number_of_Z_not_NaN.
Qed.

Ltac digit_step :=
  cbn [NilEmpty.string_of_uint parse_digits];
  match goal with
  | |- context [digit_val 10 ?c] =>
      let v := eval vm_compute in (digit_val 10 c) in
      change (digit_val 10 c) with v
  end;
  cbv iota.

Lemma digits_acc (d : Decimal.uint) (a : Z) :
  0 < a ->
  parse_digits 10 (NilEmpty.string_of_uint d) (Some a)
  = Some (Z.pos (Pos.of_uint_acc d (Z.to_pos a))).
Proof.
  revert a. induction d; intros a Ha;
    [ simpl; rewrite Z2Pos.id by lia; reflexivity | .. ];
    digit_step; rewrite IHd by lia; cbn [Pos.of_uint_acc]; do 3 f_equal;
    apply Pos2Z.inj;
    rewrite Z2Pos.id by lia;
    rewrite ?Pos2Z.inj_add, Pos2Z.inj_mul, Z2Pos.id by lia; lia.
Qed.

Lemma digits_value (d : Decimal.uint) :
  parse_digits 10 (NilEmpty.string_of_uint d) (Some 0)
  = Some (Z.of_N (Pos.of_uint d)).
Proof.
  induction d; [reflexivity | ..]; digit_step;
    [ exact IHd | rewrite digits_acc by lia; reflexivity .. ].
Qed.

Lemma digits_value_start (d : Decimal.uint) :
  d <> Decimal.Nil ->
  parse_digits 10 (NilEmpty.string_of_uint d) None
  = Some (Z.of_N (Pos.of_uint d)).
Proof.
  intros Hd. destruct d; [congruence | ..]; digit_step;
    [ exact (digits_value d) | rewrite digits_acc by lia; reflexivity .. ].
Qed.

Lemma parseInt_text_digits (d : Decimal.uint) :
  d <> Decimal.Nil ->
  parseInt_text (NilEmpty.string_of_uint d)
  = Some (false, Z.of_N (Pos.of_uint d)).
Proof.
  intros Hd. unfold parseInt_text.
  assert (H : strip_sign (trimStart (NilEmpty.string_of_uint d))
              = (1, NilEmpty.string_of_uint d)).
  { destruct d; try congruence; reflexivity. }
  rewrite H.
  assert (H' : strip_hex_prefix (NilEmpty.string_of_uint d)
               = (10, NilEmpty.string_of_uint d)).
  { destruct d; try congruence; try reflexivity.
    destruct d; reflexivity. }
  rewrite H'. rewrite (digits_value_start d Hd). reflexivity.
Qed.

Lemma parseInt_text_minus (d : Decimal.uint) :
  d <> Decimal.Nil ->
  parseInt_text (String "-" (NilEmpty.string_of_uint d))
  = Some (true, Z.of_N (Pos.of_uint d)).
Proof.
  intros Hd. pose proof (parseInt_text_digits d Hd) as Hp.
  unfold parseInt_text in *.
  cbn [trimStart]. change (is_ws "-") with false. cbv iota.
  cbn [strip_sign].
  assert (H1 : strip_sign (trimStart (NilEmpty.string_of_uint d))
               = (1, NilEmpty.string_of_uint d)).
  { destruct d; [congruence | reflexivity ..]. }
  rewrite H1 in Hp.
  destruct (strip_hex_prefix _) as [radix s2].
  destruct (parse_digits radix s2 None); [|discriminate].
  injection Hp as ->. reflexivity.
Qed.

Lemma to_uint_not_nil (p : positive) : Pos.to_uint p <> Decimal.Nil.
Proof.
  intros H. pose proof (DecimalPos.Unsigned.of_to p) as Hp.
  rewrite H in Hp. discriminate.
Qed.

Lemma string_of_uint_not_nil (d : Decimal.uint) :
  d <> Decimal.Nil -> NilZero.string_of_uint d = NilEmpty.string_of_uint d.
Proof. intros H. destruct d; [congruence | reflexivity ..]. Qed.

(** [parseInt] reads the decimal text of an integer back. *)
Lemma parseInt_text_decimal (z : Z) :
  parseInt_text (string_of_Z z) = Some (z <? 0, Z.abs z).
Proof.
  unfold string_of_Z. destruct z as [|p|p]; cbn [Z.to_int NilZero.string_of_int].
  - reflexivity.
  - rewrite string_of_uint_not_nil by apply to_uint_not_nil.
    rewrite parseInt_text_digits by apply to_uint_not_nil.
    rewrite DecimalPos.Unsigned.of_to. reflexivity.
  - rewrite string_of_uint_not_nil by apply to_uint_not_nil.
    rewrite parseInt_text_minus by apply to_uint_not_nil.
    rewrite DecimalPos.Unsigned.of_to. reflexivity.
Qed.

Lemma parsed_decimal (z : Z) :
  Z.abs z < 2 ^ 53 -> parsed (string_of_Z z) = JNum z.
Proof.
  intros Hz. unfold parsed, parseInt. cbn [ToString].
  rewrite parseInt_text_decimal.
  replace (if z <? 0 then - Z.abs z else Z.abs z) with z
    by (destruct (Z.ltb_spec z 0); lia).
  apply number_of_Z_small. exact Hz.
Qed.

Lemma all_digits_uint (d : Decimal.uint) :
  all_digits_of 10 (NilEmpty.string_of_uint d) = true.
Proof.
  induction d; [reflexivity | ..];
    cbn [NilEmpty.string_of_uint all_digits_of];
    match goal with
    | |- context [digit_val 10 ?c] =>
        let v := eval vm_compute in (digit_val 10 c) in
        change (digit_val 10 c) with v
    end; exact IHd.
Qed.

Lemma digits_only_uint (d : Decimal.uint) :
  d <> Decimal.Nil ->
  digits_only (NilEmpty.string_of_uint d) = Some (Z.of_N (Pos.of_uint d)).
Proof.
  intros Hd. unfold digits_only. rewrite all_digits_uint.
  rewrite (digits_value_start d Hd).
  destruct d; [congruence | reflexivity ..].
Qed.

(** The engine reads the decimal text of an integer back. *)
Lemma integer_of_text_decimal (z : Z) :
  integer_of_text (string_of_Z z) = Some z.
Proof.
  unfold string_of_Z. destruct z as [|p|p]; cbn [Z.to_int NilZero.string_of_int].
  - reflexivity.
  - rewrite string_of_uint_not_nil by apply to_uint_not_nil.
    assert (H : integer_of_text (NilEmpty.string_of_uint (Pos.to_uint p))
                = digits_only (NilEmpty.string_of_uint (Pos.to_uint p))).
    { pose proof (to_uint_not_nil p) as Hn.
      destruct (Pos.to_uint p); [congruence | reflexivity ..]. }
    rewrite H, digits_only_uint by apply to_uint_not_nil.
    rewrite DecimalPos.Unsigned.of_to. reflexivity.
  - rewrite string_of_uint_not_nil by apply to_uint_not_nil.
    cbn [integer_of_text].
    rewrite digits_only_uint by apply to_uint_not_nil.
    rewrite DecimalPos.Unsigned.of_to. reflexivity.
Qed.

Lemma number_param_num (range : Z -> bool) (z : Z) :
  Z.abs z < 2 ^ 53 -> range z = true ->
  number_param range (JNum z) = Some z.
Proof.
  intros Hz Hr. unfold number_param. cbn [ToString].
  apply Z.ltb_lt in Hz. rewrite Hz, integer_of_text_decimal, Hr.
  reflexivity.
Qed.

(** The engine reads the numbers within the range of their type. *)
Lemma as_int_num {E : engine} (z : Z) :
  - 2 ^ 31 <= z < 2 ^ 31 -> as_int (JNum z) = Some (Some z).
Proof.
  intros H. unfold as_int. rewrite number_param_num; [reflexivity | lia |].
  unfold int4_range.
  destruct (Z.leb_spec (- 2 ^ 31) z); [|lia].
  destruct (Z.ltb_spec z (2 ^ 31)); [reflexivity | lia].
Qed.

Lemma as_limit_num {E : engine} (z : Z) :
  0 <= z < 2 ^ 53 -> as_limit (JNum z) = Some (Some z).
Proof.
  intros H. unfold as_limit. rewrite number_param_num; [| lia |].
  - destruct (Z.ltb_spec z 0); [lia | reflexivity].
  - unfold int8_range.
    destruct (Z.leb_spec (- 2 ^ 63) z); [|lia].
    destruct (Z.ltb_spec z (2 ^ 63)); [reflexivity | lia].
Qed.

End Numbers.

(** [number_of_Z] agrees with the rounding of the Standard Library's
    binary64 on integers of every size: below and at 2^53, at the ties
    above it, at the largest double and at the first integers that round to
    an infinity. *)
Example number_of_Z_rounds :
  forallb (fun z => jsval_eqb (number_of_Z z) (number (double_of_Z z))
                    && jsval_eqb (number_of_Z (- z)) (number (double_of_Z (- z))))
    [0; 1; 20; 2 ^ 53 - 1; 2 ^ 53; 2 ^ 53 + 1; 2 ^ 53 + 2; 2 ^ 53 + 3;
     2 ^ 54 + 2; 2 ^ 54 + 6; 2 ^ 60 + 2 ^ 7; 2 ^ 60 + 2 ^ 7 + 1;
     10 ^ 19; 10 ^ 20; 10 ^ 21; 10 ^ 23; 10 ^ 100 + 1; 123456789 ^ 20;
     2 ^ 1024 - 2 ^ 971; 2 ^ 1024 - 2 ^ 970 - 1; 2 ^ 1024 - 2 ^ 970;
     2 ^ 1024; 10 ^ 400]
  = true
  /\ number_of_Z (2 ^ 53 + 1) = JNum (2 ^ 53)
  /\ number_of_Z (2 ^ 53 + 3) = JNum (2 ^ 53 + 4)
  /\ number_of_Z (2 ^ 1024 - 2 ^ 970 - 1) = JNum (2 ^ 1024 - 2 ^ 971)
  /\ number_of_Z (10 ^ 400) = JInf
  /\ number_of_Z (- 10 ^ 400) = JNegInf.
Proof. repeat split; vm_compute; reflexivity. Qed.

(** The texts of numbers: plain decimals below 1e21, the shortest digits
    that read back as the double, and the exponent form from 1e21 on; what
    [parseInt] makes of them. *)
Example number_texts :
  ToString (JNum 20) = "20"
  /\ ToString (JNum (- 7)) = "-7"
  /\ ToString (JNum (2 ^ 53)) = "9007199254740992"
  /\ ToString (JNum (2 ^ 60)) = "1152921504606847000"
  /\ ToString (JNum (10 ^ 20)) = "100000000000000000000"
  /\ ToString (JNum (10 ^ 21)) = "1e+21"
  /\ ToString (JNum (2 ^ 70)) = "1.1805916207174113e+21"
  /\ ToString (JNum (- 2 ^ 70)) = "-1.1805916207174113e+21"
  /\ Number_toString (double_of_Z 20) = "20"
  /\ Number_toString (fdiv (double_of_Z 1) (double_of_Z 3))
     = "0.3333333333333333"
  /\ Number_toString (fdiv (double_of_Z 1) (double_of_Z 3000000))
     = "3.3333333333333335e-7"
  /\ Number_toString (double_of_Z (2 ^ 1024 - 2 ^ 971))
     = "1.7976931348623157e+308"
  /\ parseInt (JNum (10 ^ 21)) = JNum 1
  /\ parseInt (JStr "9007199254740993") = JNum 9007199254740992
  /\ parseInt (JStr "  -12px") = JNum (- 12)
  /\ parseInt (JStr "0x1F") = JNum 31
  /\ parseInt (JStr "1e3") = JNum 1
  /\ parseInt (JStr "-0") = JNum 0
  /\ parseInt_double (JStr "-0") = S754_zero true
  /\ parseInt (JStr "") = JNaN
  /\ parseInt (JStr "Infinity") = JNaN
  /\ parseInt (JStr (string_of_Z (10 ^ 400))) = JInf
  /\ parseInt (JStr (string_of_Z (- 10 ^ 400))) = JNegInf.
Proof. repeat split; vm_compute; reflexivity. Qed.

(* ------------------------------------------------------------------ *)
(** ** Tenant Guard *)
(* ------------------------------------------------------------------ *)

Section TenantGuard.

(** An identifier the first test of the guard takes for a missing one. *)
Definition missing (id : json) : Prop :=
  json_truthy id = false \/ id = Prim (JStr "null")
  \/ id = Prim (JStr "undefined").

Lemma json_is_eq (j : json) (s : string) :
  json_is j s = true <-> j = Prim (JStr s).
Proof.
  destruct j as [v| | |]; simpl; split; intros H; try discriminate.
  - apply jsval_eqb_str in H. congruence.
  - injection H as ->. apply jsval_eqb_str. reflexivity.
Qed.

Lemma missing_test (id : json) :
  negb (json_truthy id) || json_is id "null" || json_is id "undefined" = true
  <-> missing id.
Proof.
  unfold missing. rewrite !orb_true_iff, negb_true_iff, !json_is_eq. tauto.
Qed.

Lemma missing_dec (id : json) : missing id \/ ~ missing id.
Proof.
  destruct (negb (json_truthy id) || json_is id "null"
            || json_is id "undefined") eqn:E.
  - left. apply missing_test. exact E.
  - right. intros H. apply missing_test in H. congruence.
Qed.

Lemma decimal_text_present (z : Z) : ~ missing (Prim (JStr (string_of_Z z))).
Proof.
  pose proof (parseInt_text_decimal z) as Hp.
  intros [H | [H | H]].
  - simpl in H. apply negb_false_iff, String.eqb_eq in H.
    rewrite H in Hp. discriminate.
  - injection H as H. rewrite H in Hp. discriminate.
  - injection H as H. rewrite H in Hp. discriminate.
Qed.

(** The guard rejects with the first 400 exactly when its first test fires. *)
Lemma guard_missing (req : request) :
  missing (Auth.candidate req) ->
  Auth.requireCompanyAccess req = Auth.Reject 400 "Valid Company ID required".
Proof.
  intros H. apply missing_test in H.
  unfold Auth.requireCompanyAccess, Auth.checkCompanyAccess.
  rewrite H. reflexivity.
Qed.

Lemma guard_present (req : request) :
  ~ missing (Auth.candidate req) ->
  Auth.requireCompanyAccess req =
    match json_text (Auth.candidate req) with
    | None => Auth.Reject 500 "Company access validation failed"
    | Some s =>
        match parseInt_text s with
        | None => Auth.Reject 400 "Company ID must be a valid number"
        | Some _ => Auth.Next (with_companyId req (parsed s))
        end
    end.
Proof.
  intros Hm. unfold Auth.requireCompanyAccess, Auth.checkCompanyAccess.
  destruct (negb (json_truthy (Auth.candidate req))
            || json_is (Auth.candidate req) "null"
            || json_is (Auth.candidate req) "undefined") eqn:E.
  { apply missing_test in E. contradiction. }
  unfold parseInt_json.
  destruct (json_text (Auth.candidate req)) as [s|]; [|reflexivity].
  fold (parsed s). rewrite parsed_isNaN.
  destruct (parseInt_text s); reflexivity.
Qed.

(** What the guard lets through is the request itself, with a number
    attached. *)
Lemma guard_cases (req : request) :
  (exists code message,
     Auth.requireCompanyAccess req = Auth.Reject code message)
  \/ (exists v, Auth.requireCompanyAccess req
                = Auth.Next (with_companyId req v)).
Proof.
  destruct (missing_dec (Auth.candidate req)) as [Hm | Hm].
  - left. rewrite (guard_missing req Hm). eauto.
  - rewrite (guard_present req Hm).
    destruct (json_text (Auth.candidate req)) as [s|]; [|left; eauto].
    destruct (parseInt_text s); [right | left]; eauto.
Qed.

(** C6, as amended.  The Tenant Guard on the candidate identifier (path,
    then query, then body).  An identifier that is absent (more generally,
    falsy) or is the text "null" or "undefined" is rejected with the 400 of
    a missing tenant.  Of the others, one whose conversion to text throws is
    answered by the catch-all of the guard, a 500; one in whose text
    [parseInt] finds no integer is rejected with the 400 of an invalid
    tenant; one in whose text it finds the integer [n], with or without a
    minus sign, is let through with the double nearest to the signed integer
    attached to the request.  That double is the integer itself when it is
    below 2^53 (so the decimal text of such an integer attaches that
    integer), and is an integer or an infinity in every case.  The guard has
    no outcome besides these four. *)
Theorem tenant_guard_outcomes (req : request) :
  let id := Auth.candidate req in
  let attached (negative : bool) (n : Z) :=
    number_of_Z (if negative then - n else n) in
  json_truthy (Prim JUndef) = false
  /\ (missing id ->
      Auth.requireCompanyAccess req
      = Auth.Reject 400 "Valid Company ID required")
  /\ (~ missing id -> json_text id = None ->
      Auth.requireCompanyAccess req
      = Auth.Reject 500 "Company access validation failed")
  /\ (forall s, ~ missing id -> json_text id = Some s ->
      parseInt_text s = None ->
      Auth.requireCompanyAccess req
      = Auth.Reject 400 "Company ID must be a valid number")
  /\ (forall s negative n, ~ missing id -> json_text id = Some s ->
      parseInt_text s = Some (negative, n) ->
      Auth.requireCompanyAccess req
      = Auth.Next (with_companyId req (attached negative n)))
  /\ (forall negative n,
        (Z.abs n < 2 ^ 53 ->
         attached negative n = JNum (if negative then - n else n))
        /\ ((exists m, attached negative n = JNum m)
            \/ attached negative n = JInf \/ attached negative n = JNegInf))
  /\ (forall z, Z.abs z < 2 ^ 53 -> id = Prim (JStr (string_of_Z z)) ->
      Auth.requireCompanyAccess req = Auth.Next (with_companyId req (JNum z)))
  /\ (Auth.requireCompanyAccess req
      = Auth.Reject 400 "Valid Company ID required"
      \/ Auth.requireCompanyAccess req
         = Auth.Reject 500 "Company access validation failed"
      \/ Auth.requireCompanyAccess req
         = Auth.Reject 400 "Company ID must be a valid number"
      \/ exists s negative n,
           json_text id = Some s /\ parseInt_text s = Some (negative, n)
           /\ Auth.requireCompanyAccess req
              = Auth.Next (with_companyId req (attached negative n))).
Proof.
  intros id attached.
  assert (Hread : forall s negative n,
            parseInt_text s = Some (negative, n) ->
            parsed s = attached negative n).
  { intros s negative n Hp. unfold parsed, parseInt. cbn [ToString].
    rewrite Hp. reflexivity. }
  split; [reflexivity|].
  split; [apply guard_missing|].
  split.
  { intros Hm Ht. rewrite (guard_present req Hm). fold id. rewrite Ht.
    reflexivity. }
  split.
  { intros s Hm Ht Hp. rewrite (guard_present req Hm). fold id.
    rewrite Ht, Hp. reflexivity. }
  split.
  { intros s negative n Hm Ht Hp. rewrite (guard_present req Hm). fold id.
    rewrite Ht, Hp, (Hread _ _ _ Hp). reflexivity. }
  split.
  { intros negative n. split; [|apply number_of_Z_cases].
    intros Hn. unfold attached.
    apply number_of_Z_small. destruct negative; lia. }
  split.
  { intros z Hz Hid. rewrite (guard_present req).
    - fold id. rewrite Hid. cbn [json_text ToString].
      rewrite parseInt_text_decimal, parsed_decimal by exact Hz. reflexivity.
    - fold id. rewrite Hid. apply decimal_text_present. }
  destruct (missing_dec id) as [Hm | Hm].
  - left. now apply guard_missing.
  - right. rewrite (guard_present req Hm). fold id.
    destruct (json_text id) as [s|]; [|now left].
    right. destruct (parseInt_text s) as [[negative n]|] eqn:Hp; [|now left].
    right. exists s, negative, n. rewrite (Hread _ _ _ Hp).
    split; [reflexivity|]. split; [exact Hp | reflexivity].
Qed.

End TenantGuard.

(** C6, counterexample: a body whose [company_id] is the object
    [{toString: null}], with no identifier in the path or the query.  The
    object is truthy and is neither of the two texts, [parseInt] throws on
    it, and the guard answers 500: neither of the two 400s, and the request
    is not let through. *)
Lemma guard_answers_500 :
  let req :=
    request_of [] [] [("company_id", Object [("toString", Prim JNull)])] in
  Auth.requireCompanyAccess req
  = Auth.Reject 500 "Company access validation failed"
  /\ Auth.requireCompanyAccess req
     <> Auth.Reject 400 "Valid Company ID required"
  /\ Auth.requireCompanyAccess req
     <> Auth.Reject 400 "Company ID must be a valid number"
  /\ (forall n, Auth.requireCompanyAccess req
                <> Auth.Next (with_companyId req n)).
Proof.
  intros req.
  assert (H : Auth.requireCompanyAccess req
              = Auth.Reject 500 "Company access validation failed")
    by reflexivity.
  split; [exact H|]. rewrite H.
  repeat split; intros; discriminate.
Qed.

(** The same object as the only element of an array, and an object without
    a [toString] member, for comparison: the first is answered 500 as well,
    the second is read as the text [[object Object]] and rejected as not a
    number; the bodies [{company_id: [7]}], [{company_id: 7}] and
    [{company_id: 7.9}] go through with 7 attached.  An identifier of more
    digits than a double holds is attached as the nearest double
    (9007199254740993 as 9007199254740992), one beyond the range of the
    doubles as Infinity, and the number 1e21 of a body, whose text is
    [1e+21], as 1. *)
Example guard_on_body_values :
  let attached (req : request) :=
    match Auth.requireCompanyAccess req with
    | Auth.Next req' => Some (req_companyId req')
    | Auth.Reject _ _ => None
    end in
  Auth.requireCompanyAccess
    (request_of [] []
       [("company_id", Array [Object [("toString", Prim JNull)]])])
  = Auth.Reject 500 "Company access validation failed"
  /\ Auth.requireCompanyAccess
       (request_of [] [] [("company_id", Object [("id", Prim (JNum 7))])])
     = Auth.Reject 400 "Company ID must be a valid number"
  /\ attached (request_of [] [] [("company_id", Array [Prim (JNum 7)])])
     = Some (JNum 7)
  /\ attached (request_of [] [] [("company_id", Prim (JNum 7))])
     = Some (JNum 7)
  /\ attached (request_of [] [] [("company_id", Fraction "7.9")])
     = Some (JNum 7)
  /\ attached (request_of [] [("company_id", JStr "9007199254740993")] [])
     = Some (JNum 9007199254740992)
  /\ attached (request_of [] [("company_id", JStr (string_of_Z (10 ^ 400)))] [])
     = Some JInf
  /\ attached (request_of [] [] [("company_id", Prim (JNum (10 ^ 21)))])
     = Some (JNum 1)
  /\ Auth.requireCompanyAccess
       (request_of [] [] [("company_id", Prim (JNum 0))])
     = Auth.Reject 400 "Valid Company ID required"
  /\ Auth.requireCompanyAccess
       (request_of [] [("company_id", JStr "Infinity")] [])
     = Auth.Reject 400 "Company ID must be a valid number".
Proof. repeat split; vm_compute; reflexivity. Qed.

(* ------------------------------------------------------------------ *)
(** ** Growth figures of the realtime metrics *)
(* ------------------------------------------------------------------ *)

(** The rows the realtime statement counts for tenant [c]: the company
    with each of its sessions (or none), and with each of its transferred
    leads (or none). *)
Definition realtime_relation (d : db) (c : Z)
  : list (company * option session * option transferred_lead) :=
  filter (fun r => co_id (fst (fst r)) =? c)
    (Sql.left_join
       (fun (r : company * option session) tl =>
          co_id (fst r) =? tl_company_id tl)
       (Sql.left_join (fun comp s => co_id comp =? s_company_id s)
          (companies d) (sessions d))
       (transferred_leads d)).

(** [COUNT(CASE WHEN <p on the session> THEN 1 END)] and the same on the
    transferred lead, over these rows. *)
Definition sessions_counted (p : session -> bool)
    (rows : list (company * option session * option transferred_lead)) : Z :=
  Sql.count_when
    (fun r => match snd (fst r) with Some s => p s | None => false end) rows.

Definition transfers_counted (p : transferred_lead -> bool)
    (rows : list (company * option session * option transferred_lead)) : Z :=
  Sql.count_when
    (fun r => match snd r with Some tl => p tl | None => false end) rows.

Section Growth.
Context {E : engine}.

(** C3.  The realtime metrics of tenant [c].  The handler sends its one
    statement and answers with the counts of today and of yesterday, for
    conversations (sessions) and for transfers, as the statement counts
    them, and with a growth figure for each pair: the growth of the pair,
    [Math.round(x * 100) / 100] of it.  The growth of a pair of counts is
    [(today - yesterday) / yesterday * 100] when yesterday is positive, else
    100 when today is positive, else 0; the arithmetic is that of doubles.
    With today 120 and yesterday 100 the figure is 20, with 5 and 0 it is
    100, with 0 and 0 it is 0; with 1 and 3 it is -66.67, and with 183 and
    160, where the doubles give 14.374999999999998, it is 14.37. *)
Theorem growth_policy (req : request) (w : world) (c : Z) :
  let companyId :=
    or_else (get "company_id" (req_query req)) (req_companyId req) in
  let rows := realtime_relation (database w) c in
  let on_day (day ts : Z) := date_of ts =? day in
  let conversations (day : Z) :=
    sessions_counted (fun s => on_day day (s_created_at s)) rows in
  let transfers (day : Z) :=
    transfers_counted (fun tl => on_day day (tl_created_at tl)) rows in
  let percent (today yesterday : Z) :=
    fmul (fdiv (fsub (double_of_Z today) (double_of_Z yesterday))
               (double_of_Z yesterday))
         (double_of_Z 100) in
  truthy companyId = true ->
  as_int companyId = Some (Some c) ->
  (exists data,
     Metrics.realtime req w
     = (Success 200 data, logged w SelectRealtimeMetrics [companyId])
     /\ Metrics.today_conversations data
        = number_of_Z (conversations current_date)
     /\ Metrics.yesterday_conversations data
        = number_of_Z (conversations (current_date - 1))
     /\ Metrics.today_transfers data = number_of_Z (transfers current_date)
     /\ Metrics.yesterday_transfers data
        = number_of_Z (transfers (current_date - 1))
     /\ Metrics.growth_conversations data
        = Metrics.round2
            (Metrics.growth (conversations current_date)
                            (conversations (current_date - 1)))
     /\ Metrics.growth_transfers data
        = Metrics.round2
            (Metrics.growth (transfers current_date)
                            (transfers (current_date - 1))))
  /\ (forall today yesterday,
        (0 < yesterday ->
         Metrics.growth today yesterday = percent today yesterday)
        /\ (yesterday <= 0 -> 0 < today ->
            Metrics.growth today yesterday = double_of_Z 100)
        /\ (yesterday <= 0 -> today <= 0 ->
            Metrics.growth today yesterday = double_of_Z 0))
  /\ Metrics.round2 (Metrics.growth 120 100) = double_of_Z 20
  /\ Metrics.round2 (Metrics.growth 5 0) = double_of_Z 100
  /\ Metrics.round2 (Metrics.growth 0 0) = double_of_Z 0
  /\ Number_toString (Metrics.round2 (Metrics.growth 120 100)) = "20"
  /\ Number_toString (Metrics.growth 1 3) = "-66.66666666666666"
  /\ Number_toString (Metrics.round2 (Metrics.growth 1 3)) = "-66.67"
  /\ Number_toString (Metrics.growth 183 160) = "14.374999999999998"
  /\ Number_toString (Metrics.round2 (Metrics.growth 183 160)) = "14.37".
Proof.
  intros companyId rows on_day conversations transfers percent Ht Hc.
  split.
  { eexists. split.
    - unfold Metrics.realtime. fold companyId. rewrite Ht.
      simpl negb. cbv iota.
      apply catching_ok. erewrite bind_ok.
      2:{ unfold Metrics.select_realtime. apply select_ok; [reflexivity|].
          rewrite Hc. reflexivity. }
      reflexivity.
    - repeat split. }
  split.
  { intros today yesterday. unfold Metrics.growth. repeat split.
    - intros H. apply Z.ltb_lt in H. rewrite H. reflexivity.
    - intros Hy Hd.
      destruct (0 <? yesterday) eqn:Ey; [apply Z.ltb_lt in Ey; lia|].
      apply Z.ltb_lt in Hd. rewrite Hd. reflexivity.
    - intros Hy Hd.
      destruct (0 <? yesterday) eqn:Ey; [apply Z.ltb_lt in Ey; lia|].
      destruct (0 <? today) eqn:Ed; [apply Z.ltb_lt in Ed; lia|].
      reflexivity. }
  repeat split; vm_compute; reflexivity.
Qed.

End Growth.

(** C3, witness: the busy day of the reference tenant. *)
Lemma growth_policy_witness :
  let req := request_of [] [("company_id", JStr "1")] [] in
  let w := start busy in
  exists data,
    Metrics.realtime (E:=pg) req w
    = (Success 200 data, logged w SelectRealtimeMetrics [JStr "1"])
    /\ Metrics.today_conversations data = JNum 4
    /\ Metrics.yesterday_conversations data = JNum 3
    /\ Metrics.today_transfers data = JNum 7
    /\ Metrics.yesterday_transfers data = JNum 0
    /\ Number_toString (Metrics.growth_conversations data) = "33.33"
    /\ Number_toString (Metrics.growth_transfers data) = "100".
Proof.
  intros req w.
  destruct (growth_policy (E:=pg) req w 1 eq_refl eq_refl)
    as ((data & Hrun & H1 & H2 & H3 & H4 & H5 & H6) & _).
  exists data. split; [exact Hrun|].
  rewrite H1, H2, H3, H4, H5, H6.
  repeat split; vm_compute; reflexivity.
Defined.

(* ------------------------------------------------------------------ *)
(** ** Search terms shorter than two characters *)
(* ------------------------------------------------------------------ *)

Section ShortSearch.
Context {E : engine}.

Lemma too_short_rejects (s : string) (w : world) :
  (String.length (trim s) < 2)%nat ->
  Search.too_short (JStr s) w = (Some true, w).
Proof.
  intros H. unfold Search.too_short.
  destruct (truthy (JStr s)); simpl; [|reflexivity].
  apply Nat.ltb_lt in H. rewrite H. reflexivity.
Qed.

Definition rejected_as_short {A} (r : response A * world) (w : world) : Prop :=
  r = (Failure 400 Search.short_message None, w).

Definition rejected_unsent {A} (r : response A * world) (w : world) : Prop :=
  exists code message, r = (Failure code message None, w).

(** C4, as amended.  For every search string [q] whose trimmed length is
    below 2, each of the five handlers under /api/search answers 400 with
    the search-too-short message and leaves the world as it was: no statement
    is sent.  The four routes behind the Tenant Guard answer with an error
    and send nothing, whether the guard or the handler is the one that
    rejects. *)
Theorem short_search_rejected (req : request) (w : world) (s : string) :
  get "q" (req_query req) = JStr s ->
  (String.length (trim s) < 2)%nat ->
  rejected_as_short (Search.contacts req w) w
  /\ rejected_as_short (Search.conversations req w) w
  /\ rejected_as_short (Search.leads req w) w
  /\ rejected_as_short (Search.stock req w) w
  /\ rejected_as_short (Search.global req w) w
  /\ rejected_unsent (Auth.guarded Search.conversations req w) w
  /\ rejected_unsent (Auth.guarded Search.leads req w) w
  /\ rejected_unsent (Auth.guarded Search.stock req w) w
  /\ rejected_unsent (Auth.guarded Search.global req w) w.
Proof.
  intros Hq Hs.
  assert (Hh : forall r : request, req_query r = req_query req ->
             rejected_as_short (Search.contacts r w) w
             /\ rejected_as_short (Search.conversations r w) w
             /\ rejected_as_short (Search.leads r w) w
             /\ rejected_as_short (Search.stock r w) w
             /\ rejected_as_short (Search.global r w) w).
  { intros r Hr. unfold rejected_as_short.
    unfold Search.contacts, Search.conversations, Search.leads, Search.stock,
      Search.global.
    rewrite Hr, Hq.
    repeat split; apply catching_ok;
      rewrite (bind_ok _ _ _ _ _ (too_short_rejects s w Hs)); reflexivity. }
  destruct (Hh req eq_refl) as (H1 & H2 & H3 & H4 & H5).
  repeat (split; [assumption|]).
  unfold rejected_unsent, Auth.guarded.
  destruct (guard_cases req) as [(code & m & ->) | (n & ->)].
  - repeat split; eexists; eexists; reflexivity.
  - destruct (Hh (with_companyId req n) eq_refl) as (_ & G2 & G3 & G4 & G5).
    repeat split; eexists; eexists; [apply G2 | apply G3 | apply G4 | apply G5].
Qed.

End ShortSearch.

(** C4, witness: the query [q= a ] (one letter between blanks) sent to the
    five handlers over the sample database. *)
Lemma short_search_rejected_witness :
  let req := request_of [] [("company_id", JStr "1"); ("q", JStr " a ")] [] in
  let w := start sample in
  rejected_as_short (Search.contacts (E:=pg) req w) w
  /\ rejected_as_short (Search.conversations (E:=pg) req w) w
  /\ rejected_as_short (Search.leads (E:=pg) req w) w
  /\ rejected_as_short (Search.stock (E:=pg) req w) w
  /\ rejected_as_short (Search.global (E:=pg) req w) w
  /\ rejected_unsent (Auth.guarded (Search.conversations (E:=pg)) req w) w
  /\ rejected_unsent (Auth.guarded (Search.leads (E:=pg)) req w) w
  /\ rejected_unsent (Auth.guarded (Search.stock (E:=pg)) req w) w
  /\ rejected_unsent (Auth.guarded (Search.global (E:=pg)) req w) w.
Proof.
  intros req w.
  apply (short_search_rejected (E:=pg) req w " a ").
  - reflexivity.
  - vm_compute. lia.
Defined.

(** C4, counterexample: the conversations listing takes the one-letter
    search [a].  It builds the ILIKE fragment and sends the page statement
    and the count statement with the pattern as a parameter; the answer is
    not a 400. *)
Lemma listing_takes_short_search :
  let req := request_of [] [("company_id", JStr "1"); ("search", JStr "a")] [] in
  let r := Auth.guarded (Conversations.list_conversations (E:=pg)) req
             (start sample) in
  (String.length (trim "a") < 2)%nat
  /\ fst r = Failure 500 "Failed to fetch conversations" None
  /\ sent (snd r)
     = [(SelectConversationsPage
           "AND (ct.name ILIKE $4 OR ct.phone_number::text ILIKE $4 OR ct.email ILIKE $4)"
           "",
         [JStr "1"; JNum 20; JNum 0; JStr "%a%"]);
        (SelectConversationsCount
           "AND (ct.name ILIKE $2 OR ct.phone_number::text ILIKE $4 OR ct.email ILIKE $4)"
           "",
         [JStr "1"; JStr "%a%"])].
Proof.
  split; [vm_compute; lia|].
  split; vm_compute; reflexivity.
Qed.

(* ------------------------------------------------------------------ *)
(** ** Facts about the relational operators *)
(* ------------------------------------------------------------------ *)

Section JoinFacts.
Context {A B : Type}.

Lemma in_left_join (on : A -> B -> bool) (l : list A) (r : list B)
    (a : A) (b : option B) :
  In (a, b) (Sql.left_join on l r) ->
  In a l /\ match b with
            | Some y => In y r /\ on a y = true
            | None => filter (on a) r = []
            end.
Proof.
  unfold Sql.left_join. rewrite in_flat_map.
  intros (x & Hx & Hin).
  destruct (filter (on x) r) as [|y ys] eqn:Ef.
  - destruct Hin as [Heq|[]]. injection Heq as <- <-. split; assumption.
  - apply in_map_iff in Hin. destruct Hin as (z & Heq & Hz).
    injection Heq as <- <-. split; [assumption|].
    rewrite <- Ef in Hz. apply filter_In in Hz. exact Hz.
Qed.

Lemma left_join_covers (on : A -> B -> bool) (l : list A) (r : list B) (a : A) :
  In a l -> exists b, In (a, b) (Sql.left_join on l r).
Proof.
  intros Ha. unfold Sql.left_join.
  destruct (filter (on a) r) as [|y ys] eqn:Ef.
  - exists None. apply in_flat_map. exists a. split; [assumption|].
    rewrite Ef. now left.
  - exists (Some y). apply in_flat_map. exists a. split; [assumption|].
    rewrite Ef. now left.
Qed.

Lemma in_inner_join (on : A -> B -> bool) (l : list A) (r : list B)
    (a : A) (b : B) :
  In (a, b) (Sql.inner_join on l r) <-> In a l /\ In b r /\ on a b = true.
Proof.
  unfold Sql.inner_join. rewrite in_flat_map. split.
  - intros (x & Hx & Hin). apply in_map_iff in Hin.
    destruct Hin as (y & Heq & Hy). injection Heq as <- <-.
    apply filter_In in Hy. tauto.
  - intros (Ha & Hb & Hon). exists a. split; [assumption|].
    apply in_map. apply filter_In. tauto.
Qed.
End JoinFacts.

Lemma filter_nonempty {A} (p : A -> bool) (l : list A) (a : A) :
  In a l -> p a = true -> filter p l <> [].
Proof.
  intros Hin Hp Hnil.
  assert (H : In a (filter p l)) by (apply filter_In; tauto).
  rewrite Hnil in H. destruct H.
Qed.

(* ------------------------------------------------------------------ *)
(** ** Handlers that only read *)
(* ------------------------------------------------------------------ *)


Definition reads_only {A} (h : world -> response A * world) : Prop :=
  forall w, database (snd (h w)) = database w.

Section ReadOnly.
Context {A B : Type}.






Lemma reads_only_guarded (h : request -> world -> response A * world)
    (req : request) :
  (forall r, reads_only (h r)) -> reads_only (Auth.guarded h req).
Proof.
  intros Hh w. unfold Auth.guarded.
  destruct (Auth.requireCompanyAccess req); [reflexivity | apply Hh].
Qed.
End ReadOnly.



Section ReadingHandlers.
Context {E : engine}.




End ReadingHandlers.




(* ------------------------------------------------------------------ *)
(** ** Session status *)
(* ------------------------------------------------------------------ *)

(** A status the update accepts: an integer from 0 to 4. *)
Definition valid_status (j : json) : Prop :=
  exists z, j = Prim (JNum z) /\ 0 <= z <= 4.

(** The sessions after the status of session [i] was set to [z]. *)
Definition sessions_with_status (i z : Z) (l : list session) : list session :=
  map (fun s => if s_id s =? i then Sessions.with_status s z else s) l.

Section SessionStatus.
Context {E : engine}.


Lemma valid_status_defined (v : jsval) :
  valid_status (Prim v) -> jsval_eqb v JUndef = false.
Proof. intros (z & Hv & _). injection Hv as ->. reflexivity. Qed.

(** An update that is let through. *)
Lemma update_runs (id : jsval) (i z : Z) (w : world) :
  0 <= z <= 4 ->
  as_id id = Some (Some i) ->
  Sessions.update_session_status (JNum z) id w
  = (Some (filter (fun s => s_id s =? i)
                  (sessions_with_status i z (sessions (database w)))),
     {| database :=
          Sessions.with_sessions (database w)
            (sessions_with_status i z (sessions (database w)));
        sent := (sent w ++ [(UpdateSessionStatus, [JNum z; id])])%list |}).
Proof.
  intros Hz Hi. unfold Sessions.update_session_status, query.
  change (bound UpdateSessionStatus [JNum z; id]) with true. cbv iota.
  rewrite as_int_num by lia. rewrite Hi. reflexivity.
Qed.




End SessionStatus.


(** The same update with [{status: 7}] is answered 400 and changes nothing;
    so it is with the text ["3"], with 2.5 and with an array. *)
Example status_seven_rejected :
  let put (status : json) :=
    Sessions.put_status (E:=pg)
      (request_of [("id", JStr "100")] [] [("status", status)]) (start sample) in
  let rejected :=
    (Failure 400 "Status must be an integer between 0 and 4" None,
     start sample) in
  put (Prim (JNum 7)) = rejected
  /\ put (Prim (JStr "3")) = rejected
  /\ put (Fraction "2.5") = rejected
  /\ put (Array [Prim (JNum 3)]) = rejected.
Proof. repeat split. Qed.

(* ------------------------------------------------------------------ *)
(** ** Deleting a tenant *)
(* ------------------------------------------------------------------ *)

(** The dependent rows of tenant [i], by type: messages, leads, sessions. *)
Definition dependents (d : db) (i : Z) : Z * Z * Z :=
  (Sql.count_when (fun m => c_company_id m =? i) (conversations d),
   Sql.count_when (fun l => l_company_id l =? i) (leads d),
   Sql.count_when (fun s => s_company_id s =? i) (sessions d)).

Definition total_dependents (d : db) (i : Z) : Z :=
  let '(c, l, s) := dependents d i in c + l + s.

Section TenantDeletion.
Context {E : engine}.

Lemma count_when_nonneg {A} (p : A -> bool) (l : list A) : 0 <= Sql.count_when p l.
Proof. unfold Sql.count_when, Sql.count. lia. Qed.

Lemma count_when_positive {A} (p : A -> bool) (l : list A) (a : A) :
  In a l -> p a = true -> 0 < Sql.count_when p l.
Proof.
  intros Hin Hp. unfold Sql.count_when, Sql.count.
  pose proof (filter_nonempty p l a Hin Hp) as H.
  destruct (filter p l); [congruence | simpl; lia].
Qed.

Lemma count_records_runs (id : jsval) (i : Z) (w : world) :
  as_int id = Some (Some i) ->
  Companies.count_company_records id w
  = (Some (dependents (database w) i), logged w CountCompanyRecords [id]).
Proof.
  intros Hi. unfold Companies.count_company_records.
  apply select_ok; [reflexivity|]. rewrite Hi. reflexivity.
Qed.

Lemma filter_filter_neg {A} (p : A -> bool) (l : list A) :
  filter p (filter (fun x => negb (p x)) l) = [].
Proof.
  induction l as [|x l IH]; [reflexivity|]. simpl.
  destruct (p x) eqn:Ep; simpl; [exact IH|]. rewrite Ep. exact IH.
Qed.

Lemma count_when_positive_iff {A} (p : A -> bool) (l : list A) :
  0 < Sql.count_when p l <-> exists a, In a l /\ p a = true.
Proof.
  split.
  - unfold Sql.count_when, Sql.count.
    destruct (filter p l) as [|a l'] eqn:Ef; [simpl; lia|]. intros _.
    assert (H : In a (filter p l)) by (rewrite Ef; now left).
    apply filter_In in H. exists a. exact H.
  - intros (a & Hin & Hp). exact (count_when_positive p l a Hin Hp).
Qed.

(** C9.  Deleting the tenant [i] named by a well-formed path id.  (1) With at
    least one dependent row (a message, a lead or a session of the tenant)
    the answer is 409 and carries the count of each dependent type, their sum
    being positive; only the count statement is sent and the tables are
    unchanged, so the tenant stays.  A single dependent row of any of the
    three types is enough, and the count reported for a type is nonzero
    exactly when the tenant has a row of that type.  (2) With no dependent
    row and the tenant present, the answer is a success, the tenant's row is
    gone while every other table and company row stays, and a following read
    of the tenant by id answers 404. *)
Theorem tenant_deletion_spec (req : request) (w : world) (i : Z) :
  let id := get "id" (req_params req) in
  let d := database w in
  truthy id = true -> isNaN id = false -> as_int id = Some (Some i) ->
  (0 < total_dependents d i ->
   Companies.delete_company req w
   = (Failure 409 "Cannot delete company with associated data"
        (Some (dependents d i)),
      logged w CountCompanyRecords [id]))
  /\ ((exists m, In m (conversations d) /\ c_company_id m = i)
      \/ (exists l, In l (leads d) /\ l_company_id l = i)
      \/ (exists s, In s (sessions d) /\ s_company_id s = i) ->
      0 < total_dependents d i)
  /\ (forall c l s, dependents d i = (c, l, s) ->
      (0 < c <-> exists m, In m (conversations d) /\ c_company_id m = i)
      /\ (0 < l <-> exists x, In x (leads d) /\ l_company_id x = i)
      /\ (0 < s <-> exists x, In x (sessions d) /\ s_company_id x = i))
  /\ (total_dependents d i = 0 ->
      (exists co, In co (companies d) /\ co_id co = i) ->
      exists w',
        Companies.delete_company req w
        = (Success 200 "Company deleted successfully", w')
        /\ database w'
           = Companies.with_companies d
               (filter (fun co => negb (co_id co =? i)) (companies d))
        /\ (forall co, In co (companies (database w')) -> co_id co <> i)
        /\ (forall req', get "id" (req_params req') = id ->
              exists w'',
                Companies.company_by_id req' w'
                = (Failure 404 "Company not found" None, w''))).
Proof.
  intros id d Ht Hn Hi.
  pose proof (count_records_runs id i w Hi) as Hcount.
  fold d in Hcount.
  split.
  { intros Hpos. unfold Companies.delete_company. fold id.
    rewrite Ht, Hn. simpl. apply catching_ok.
    rewrite (bind_ok _ _ _ _ _ Hcount).
    unfold total_dependents in Hpos.
    destruct (dependents d i) as [[c l] s].
    apply Z.ltb_lt in Hpos. rewrite Hpos. reflexivity. }
  split.
  { unfold total_dependents, dependents.
    pose proof (count_when_nonneg (fun m => c_company_id m =? i) (conversations d)).
    pose proof (count_when_nonneg (fun l => l_company_id l =? i) (leads d)).
    pose proof (count_when_nonneg (fun s => s_company_id s =? i) (sessions d)).
    intros [(m & Hin & Hm) | [(l & Hin & Hl) | (s & Hin & Hs)]].
    - pose proof (count_when_positive (fun m => c_company_id m =? i) _ m Hin
                    (proj2 (Z.eqb_eq _ _) Hm)). lia.
    - pose proof (count_when_positive (fun l => l_company_id l =? i) _ l Hin
                    (proj2 (Z.eqb_eq _ _) Hl)). lia.
    - pose proof (count_when_positive (fun s => s_company_id s =? i) _ s Hin
                    (proj2 (Z.eqb_eq _ _) Hs)). lia. }
  split.
  { intros c l s Hd. unfold dependents in Hd. injection Hd as <- <- <-.
    rewrite !count_when_positive_iff.
    repeat split; intros (x & Hin & Hx); exists x; split; try assumption;
      apply Z.eqb_eq; assumption. }
  intros Hzero (co & Hco & Hcoid).
  set (w1 := logged w CountCompanyRecords [id]) in *.
  assert (Hdel :
    Companies.delete_company_row id w1
    = (Some (map co_id (filter (fun co => co_id co =? i) (companies d))),
       {| database :=
            Companies.with_companies d
              (filter (fun co => negb (co_id co =? i)) (companies d));
          sent := (sent w1 ++ [(DeleteCompany, [id])])%list |})).
  { unfold Companies.delete_company_row, query. simpl bound. cbv iota.
    simpl database. fold d. rewrite Hi. reflexivity. }
  eexists. split.
  { unfold Companies.delete_company. fold id.
    rewrite Ht, Hn. simpl. apply catching_ok.
    rewrite (bind_ok _ _ _ _ _ Hcount).
    unfold total_dependents in Hzero.
    destruct (dependents d i) as [[c l] s].
    replace (0 <? c + l + s) with false by (symmetry; apply Z.ltb_ge; lia).
    fold w1. rewrite (bind_ok _ _ _ _ _ Hdel).
    pose proof (filter_nonempty (fun co => co_id co =? i) _ co Hco
                  (proj2 (Z.eqb_eq _ _) Hcoid)) as Hne.
    destruct (filter (fun co => co_id co =? i) (companies d)); [congruence|].
    reflexivity. }
  simpl database. split; [reflexivity|].
  split.
  { intros co' Hin. simpl in Hin. apply filter_In in Hin.
    destruct Hin as [_ Hneq]. apply negb_true_iff, Z.eqb_neq in Hneq. exact Hneq. }
  intros req' Hreq'.
  eexists. unfold Companies.company_by_id. rewrite Hreq'.
  rewrite Ht, Hn. simpl. apply catching_ok.
  erewrite bind_ok.
  2:{ unfold Companies.select_company. apply select_ok; [reflexivity|].
      simpl database. rewrite Hi. simpl.
      rewrite (filter_filter_neg (fun co => co_id co =? i)). reflexivity. }
  reflexivity.
Qed.

End TenantDeletion.

(** C9, witness: over the sample, company 1 has dependents (three messages,
    one lead, three sessions) and company 3 has none. *)
Lemma tenant_deletion_witness :
  Companies.delete_company (E:=pg) (request_of [("id", JStr "1")] [] [])
    (start sample)
  = (Failure 409 "Cannot delete company with associated data" (Some (3, 1, 3)),
     logged (start sample) CountCompanyRecords [JStr "1"])
  /\ exists w',
       Companies.delete_company (E:=pg) (request_of [("id", JStr "3")] [] [])
         (start sample)
       = (Success 200 "Company deleted successfully", w')
       /\ exists w'',
            Companies.company_by_id (E:=pg) (request_of [("id", JStr "3")] [] []) w'
            = (Failure 404 "Company not found" None, w'').
Proof.
  split.
  - apply (tenant_deletion_spec (E:=pg) (request_of [("id", JStr "1")] [] [])
             (start sample) 1); try reflexivity.
  - destruct (tenant_deletion_spec (E:=pg) (request_of [("id", JStr "3")] [] [])
                (start sample) 3 eq_refl eq_refl eq_refl) as (_ & _ & _ & H).
    destruct H as (w' & H1 & _ & _ & H4).
    + reflexivity.
    + exists (mk_company 3 "Gama"). simpl. tauto.
    + exists w'. split; [exact H1|]. apply H4. reflexivity.
Defined.

(* ------------------------------------------------------------------ *)
(** ** Tenant isolation of the reads by id *)
(* ------------------------------------------------------------------ *)

(** The [data] of a success response. *)
Definition data_of {A} (r : response A) : option A :=
  match r with
  | Success _ data => Some data
  | Failure _ _ _ => None
  end.

(** The answer of a read by id is a function of the path parameters and of
    the tables: the tenant named in the query string or in the body, or
    attached by the guard, has no part in it. *)
Lemma detail_reads_ignore_tenant {E : engine} (req req' : request) (w : world) :
  req_params req = req_params req' ->
  Conversations.conversation_details req w
  = Conversations.conversation_details req' w
  /\ Sessions.session_by_id req w = Sessions.session_by_id req' w
  /\ Leads.lead_by_id req w = Leads.lead_by_id req' w
  /\ Stock.vehicle_by_id req w = Stock.vehicle_by_id req' w.
Proof.
  intros H.
  unfold Conversations.conversation_details, Sessions.session_by_id,
    Leads.lead_by_id, Stock.vehicle_by_id.
  rewrite H. repeat split; reflexivity.
Qed.

(** C1, on the code.  A caller whose request names tenant 1 reads, by id, the
    session 200, the lead 8 and the vehicle 32 of the sample, which belong to
    tenant 2 (company "Beta"): each of the four detail routes answers with
    the other tenant's row.  The statements they send carry the row id and
    nothing of the tenant. *)
Theorem detail_reads_cross_tenants :
  let w := start sample in
  let tenant_1 (params : obj) :=
    request_of params [("company_id", JStr "1")] [("company_id", Prim (JNum 1))] in
  let conversation :=
    Conversations.conversation_details (E:=pg)
      (tenant_1 [("sessionId", JStr "200")]) w in
  let session := Sessions.session_by_id (E:=pg) (tenant_1 [("id", JStr "200")]) w in
  let lead := Leads.lead_by_id (E:=pg) (tenant_1 [("id", JStr "8")]) w in
  let vehicle := Stock.vehicle_by_id (E:=pg) (tenant_1 [("id", JStr "32")]) w in
  Auth.candidate (tenant_1 []) = Prim (JStr "1")
  /\ option_map (fun d => s_company_id (Conversations.sd_session d))
       (data_of (fst conversation)) = Some 2
  /\ option_map (fun d => s_company_id (Sessions.si_session d))
       (data_of (fst session)) = Some 2
  /\ option_map (fun d => l_company_id (Leads.ld_lead d))
       (data_of (fst lead)) = Some 2
  /\ option_map (fun d => v_EMPRESA (Stock.vd_vehicle d))
       (data_of (fst vehicle)) = Some (Some "Beta")
  /\ sent (snd conversation) = [(SelectConversationDetails, [JStr "200"])]
  /\ sent (snd session)
     = [(SelectSessionDetails, [JStr "200"]); (SelectSessionLeads, [JStr "200"]);
        (SelectSessionTransferStatus, [JStr "200"])]
  /\ sent (snd lead) = [(SelectLeadDetails, [JStr "8"])]
  /\ sent (snd vehicle) = [(SelectVehicleDetails, [JStr "32"])].
Proof. repeat split; vm_compute; reflexivity. Qed.

(* ------------------------------------------------------------------ *)
(** ** Page and count statements of the listings *)
(* ------------------------------------------------------------------ *)

(** C2, on the code.  The conversations listing with the search [an] and no
    status: the page statement binds the pattern to [$4]; for the count
    statement the handler renumbers the first [$4] of the search fragment to
    [$2] and leaves the other two, and passes two parameters, so the count
    statement has placeholders without a parameter and the request ends in a
    500: no total is reported.  The leads listing with a search and no status
    does the same ([$3], [$4], [$4] over three parameters), and with no
    filter at all its count statement is given the page limit as a second
    parameter that no placeholder names. *)
Theorem count_statement_misaligned :
  let w := start sample in
  let searching :=
    request_of [] [("company_id", JStr "1"); ("search", JStr "an")] [] in
  let plain := request_of [] [("company_id", JStr "1")] [] in
  let c := Auth.guarded (Conversations.list_conversations (E:=pg)) searching w in
  let l := Auth.guarded (Leads.list_leads (E:=pg)) searching w in
  let p := Auth.guarded (Leads.list_leads (E:=pg)) plain w in
  fst c = Failure 500 "Failed to fetch conversations" None
  /\ sent (snd c)
     = [(SelectConversationsPage
           "AND (ct.name ILIKE $4 OR ct.phone_number::text ILIKE $4 OR ct.email ILIKE $4)"
           "",
         [JStr "1"; JNum 20; JNum 0; JStr "%an%"]);
        (SelectConversationsCount
           "AND (ct.name ILIKE $2 OR ct.phone_number::text ILIKE $4 OR ct.email ILIKE $4)"
           "",
         [JStr "1"; JStr "%an%"])]
  /\ placeholders
       (SelectConversationsCount
          "AND (ct.name ILIKE $2 OR ct.phone_number::text ILIKE $4 OR ct.email ILIKE $4)"
          "")
     = [1; 2; 4; 4]%nat
  /\ fst l = Failure 500 "Failed to fetch leads" None
  /\ sent (snd l)
     = [(SelectLeadsPage ""
           "AND (l.name ILIKE $4 OR l.email ILIKE $4 OR l.phone_number ILIKE $4)",
         [JStr "1"; JNum 20; JNum 0; JStr "%an%"]);
        (SelectLeadsCount ""
           "AND (l.name ILIKE $3 OR l.email ILIKE $4 OR l.phone_number ILIKE $4)",
         [JStr "1"; JNum 20; JStr "%an%"])]
  /\ sent (snd p)
     = [(SelectLeadsPage "" "", [JStr "1"; JNum 20; JNum 0]);
        (SelectLeadsCount "" "", [JStr "1"; JNum 20])].
Proof. repeat split; vm_compute; reflexivity. Qed.

(** The defect does not depend on the tables or on the engine: with a search
    and no status, the count statement of the conversations listing is never
    bound. *)
Lemma conversations_count_never_bound (search : string) (companyId : jsval) :
  bound
    (SelectConversationsCount
       (replace (dollar 4) "$2"
          ("AND (ct.name ILIKE " ++ dollar 4
           ++ " OR ct.phone_number::text ILIKE " ++ dollar 4
           ++ " OR ct.email ILIKE " ++ dollar 4 ++ ")")%string)
       (replace (dollar 5) (dollar 3) ""))
    [companyId; wildcard (JStr search)]
  = false.
Proof. reflexivity. Qed.

(* ------------------------------------------------------------------ *)
(** ** ORDER BY, LIMIT/OFFSET, DISTINCT ON and GROUP BY *)
(* ------------------------------------------------------------------ *)

Section OrderFacts.
Context {A : Type}.

Lemma insert_perm (leb : A -> A -> bool) (x : A) (l : list A) :
  Permutation (Sql.insert leb x l) (x :: l).
Proof.
  induction l as [|y l IH]; simpl; [reflexivity|].
  destruct (leb x y); [reflexivity|].
  rewrite IH. apply perm_swap.
Qed.

Lemma order_by_perm (leb : A -> A -> bool) (l : list A) :
  Permutation (Sql.order_by leb l) l.
Proof.
  induction l as [|x l IH]; simpl; [reflexivity|].
  rewrite insert_perm. now apply perm_skip.
Qed.

Lemma in_order_by (leb : A -> A -> bool) (l : list A) (x : A) :
  In x (Sql.order_by leb l) <-> In x l.
Proof.
  split; apply Permutation_in;
    [apply order_by_perm | symmetry; apply order_by_perm].
Qed.

Lemma order_by_nil (leb : A -> A -> bool) (l : list A) :
  Sql.order_by leb l = [] -> l = [].
Proof.
  intros H. apply Permutation_nil. rewrite <- H. apply order_by_perm.
Qed.

(** Rows in descending order of a key. *)
Definition descending (key : A -> Z) (l : list A) : Prop :=
  StronglySorted (fun x y => key y <= key x) l.

Lemma insert_descending (key : A -> Z) (x : A) (l : list A) :
  descending key l -> descending key (Sql.insert (Sql.desc key) x l).
Proof.
  unfold descending. induction l as [|y l IH]; intros Hs; simpl.
  - constructor; constructor.
  - apply StronglySorted_inv in Hs. destruct Hs as [Hl Hy].
    unfold Sql.desc at 1. destruct (key y <=? key x) eqn:E.
    + apply Z.leb_le in E. constructor.
      * constructor; assumption.
      * constructor; [exact E|].
        rewrite Forall_forall in *. intros z Hz. specialize (Hy z Hz). lia.
    + apply Z.leb_gt in E. constructor.
      * apply IH. exact Hl.
      * rewrite Forall_forall in *. intros z Hz.
        apply (Permutation_in _ (insert_perm (Sql.desc key) x l)) in Hz.
        destruct Hz as [<-|Hz]; [lia | apply Hy, Hz].
Qed.

Lemma order_by_descending (key : A -> Z) (l : list A) :
  descending key (Sql.order_by (Sql.desc key) l).
Proof.
  induction l as [|x l IH]; simpl.
  - constructor.
  - apply insert_descending. exact IH.
Qed.

(** The first row in descending order of a key is a row with the greatest
    key. *)
Lemma first_row_desc (key : A -> Z) (l : list A) :
  match Sql.first_row (Sql.order_by (Sql.desc key) l) with
  | Some m => In m l /\ forall y, In y l -> key y <= key m
  | None => l = []
  end.
Proof.
  pose proof (order_by_descending key l) as Hs.
  pose proof (in_order_by (Sql.desc key) l) as Hin.
  destruct (Sql.order_by (Sql.desc key) l) as [|m rest] eqn:E; simpl.
  - apply (order_by_nil (Sql.desc key)). exact E.
  - split; [apply Hin; now left|].
    intros y Hy. apply Hin in Hy. destruct Hy as [<-|Hy]; [lia|].
    apply StronglySorted_inv in Hs. destruct Hs as [_ Hall].
    rewrite Forall_forall in Hall. apply Hall, Hy.
Qed.

Lemma take_firstn (n : Z) (l : list A) :
  Sql.take n l = firstn (Z.to_nat n) l.
Proof.
  unfold Sql.take, Sql.count.
  destruct (Z.le_ge_cases n (Z.of_nat (List.length l))) as [H | H].
  - rewrite Z.min_l by exact H. reflexivity.
  - rewrite Z.min_r by lia. rewrite Nat2Z.id, firstn_all.
    symmetry. apply firstn_all2. lia.
Qed.

Lemma skip_skipn (n : Z) (l : list A) :
  Sql.skip n l = skipn (Z.to_nat n) l.
Proof.
  unfold Sql.skip, Sql.count.
  destruct (Z.le_ge_cases n (Z.of_nat (List.length l))) as [H | H].
  - rewrite Z.min_l by exact H. reflexivity.
  - rewrite Z.min_r by lia. rewrite Nat2Z.id, skipn_all.
    symmetry. apply skipn_all2. lia.
Qed.

Lemma in_firstn (n : nat) (l : list A) (x : A) : In x (firstn n l) -> In x l.
Proof.
  intros H. rewrite <- (firstn_skipn n l). apply in_or_app. now left.
Qed.

Lemma in_skipn (n : nat) (l : list A) (x : A) : In x (skipn n l) -> In x l.
Proof.
  intros H. rewrite <- (firstn_skipn n l). apply in_or_app. now right.
Qed.

Lemma in_limit_offset (lim off : nat) (l : list A) (x : A) :
  In x (firstn lim (skipn off l)) -> In x l.
Proof. intros H. eapply in_skipn, in_firstn, H. Qed.

Lemma StronglySorted_app_l (R : A -> A -> Prop) (l1 l2 : list A) :
  StronglySorted R (l1 ++ l2) -> StronglySorted R l1.
Proof.
  induction l1 as [|x l1 IH]; simpl; intros H; [constructor|].
  apply StronglySorted_inv in H. destruct H as [H1 H2].
  constructor; [apply IH, H1|].
  rewrite Forall_forall in *. intros y Hy. apply H2, in_or_app. now left.
Qed.

Lemma StronglySorted_app_r (R : A -> A -> Prop) (l1 l2 : list A) :
  StronglySorted R (l1 ++ l2) -> StronglySorted R l2.
Proof.
  induction l1 as [|x l1 IH]; simpl; intros H; [exact H|].
  apply StronglySorted_inv in H. apply IH, H.
Qed.

Lemma limit_offset_sorted (R : A -> A -> Prop) (lim off : nat) (l : list A) :
  StronglySorted R l -> StronglySorted R (firstn lim (skipn off l)).
Proof.
  intros H. rewrite <- (firstn_skipn off l) in H.
  apply StronglySorted_app_r in H.
  rewrite <- (firstn_skipn lim (skipn off l)) in H.
  apply StronglySorted_app_l in H. exact H.
Qed.

Lemma limit_offset_nodup {K} (key : A -> K) (lim off : nat) (l : list A) :
  NoDup (map key l) -> NoDup (map key (firstn lim (skipn off l))).
Proof.
  intros H. rewrite <- (firstn_skipn off l), map_app in H.
  apply NoDup_app_remove_l in H.
  rewrite <- (firstn_skipn lim (skipn off l)), map_app in H.
  apply NoDup_app_remove_r in H. exact H.
Qed.

(** DISTINCT ON keeps rows of the relation, one per key. *)
Lemma in_distinct_on_from (key : A -> Z) (l : list A) (seen : list Z) (x : A) :
  In x (Sql.distinct_on_from seen key l) ->
  In x l /\ ~ In (key x) seen.
Proof.
  revert seen. induction l as [|y l IH]; intros seen; simpl; [tauto|].
  destruct (existsb (Z.eqb (key y)) seen) eqn:E.
  - intros H. apply IH in H. tauto.
  - intros [<-|H].
    + split; [now left|]. intros Hin.
      assert (existsb (Z.eqb (key y)) seen = true).
      { apply existsb_exists. exists (key y). split; [exact Hin|apply Z.eqb_refl]. }
      congruence.
    + apply IH in H. destruct H as [H1 H2]. split; [now right|].
      intros Hin. apply H2. now right.
Qed.

Lemma distinct_on_from_nodup (key : A -> Z) (l : list A) (seen : list Z) :
  NoDup (map key (Sql.distinct_on_from seen key l)).
Proof.
  revert seen. induction l as [|y l IH]; intros seen; simpl; [constructor|].
  destruct (existsb (Z.eqb (key y)) seen); [apply IH|].
  simpl. constructor; [|apply IH].
  intros Hin. apply in_map_iff in Hin. destruct Hin as (z & Hz & Hin).
  apply in_distinct_on_from in Hin. destruct Hin as [_ Hn].
  apply Hn. rewrite Hz. now left.
Qed.

Lemma in_distinct_on (key : A -> Z) (l : list A) (x : A) :
  In x (Sql.distinct_on key l) -> In x l.
Proof. intros H. apply in_distinct_on_from in H. tauto. Qed.

Lemma distinct_on_nodup (key : A -> Z) (l : list A) :
  NoDup (map key (Sql.distinct_on key l)).
Proof. apply distinct_on_from_nodup. Qed.

(** DISTINCT ON keeps a row for every key of the relation. *)
Lemma distinct_on_from_covers (key : A -> Z) (l : list A) (seen : list Z) (x : A) :
  In x l -> ~ In (key x) seen ->
  exists y, In y (Sql.distinct_on_from seen key l) /\ key y = key x.
Proof.
  revert seen. induction l as [|z l IH]; intros seen; simpl; [tauto|].
  intros Hin Hseen.
  destruct (existsb (Z.eqb (key z)) seen) eqn:E.
  - destruct Hin as [<-|Hin].
    + apply existsb_exists in E. destruct E as (k & Hk & Ek).
      apply Z.eqb_eq in Ek. subst k. contradiction.
    + apply IH; assumption.
  - destruct (Z.eq_dec (key z) (key x)) as [Heq|Hneq].
    + exists z. split; [now left | exact Heq].
    + destruct Hin as [<-|Hin]; [congruence|].
      destruct (IH (key z :: seen) Hin) as (y & Hy & Hky).
      * intros [H|H]; [congruence | contradiction].
      * exists y. split; [now right | exact Hky].
Qed.

Lemma distinct_on_covers (key : A -> Z) (l : list A) (x : A) :
  In x l -> exists y, In y (Sql.distinct_on key l) /\ key y = key x.
Proof. intros H. apply distinct_on_from_covers; [exact H | intros []]. Qed.

End OrderFacts.

(* ------------------------------------------------------------------ *)
(** ** Historical metrics and the test_metrics table *)
(* ------------------------------------------------------------------ *)

(** The rows of [test_metrics] of a tenant, by month. *)
Definition tenant_test_rows (d : db) (c : Z) : list test_metric :=
  Sql.order_by (Sql.asc tm_month)
    (filter (fun t => tm_company_id t =? c) (test_metrics d)).

Section Historical.
Context {E : engine}.

Lemma months_back_nonzero (v : jsval) (n : Z) :
  or_else (parseInt v) (JNum 6) = JNum n -> n <> 0.
Proof.
  unfold or_else. destruct (truthy (parseInt v)) eqn:Et; intros H.
  - rewrite H in Et. simpl in Et. apply negb_true_iff, Z.eqb_neq in Et.
    exact Et.
  - injection H as <-. lia.
Qed.

Lemma firstn_nonempty {A} (k : nat) (l : list A) :
  (0 < k)%nat -> l <> [] -> firstn k l <> [].
Proof.
  destruct k; [lia|]. destruct l; [congruence|]. simpl. discriminate.
Qed.

(** C10.  The historical-metrics handler, for a tenant [c] and a requested
    number of months [n], from 1 to 1200 (a century: the dates the
    aggregation reaches back to stay well within the engine's calendar, and
    [n] within the range of the LIMIT and of the integer it is read as):
    when [test_metrics] holds rows of the tenant, the answer is those rows
    by month, up to [n] of them, and the only statement sent is the one over
    [test_metrics]; the monthly aggregation over sessions and transferred
    leads is sent, and its rows answered, only when the tenant has no row in
    [test_metrics]. *)
Theorem historical_shadowed_by_test_metrics
    (req : request) (w : world) (c n : Z) :
  let companyId :=
    or_else (get "company_id" (req_query req)) (req_companyId req) in
  let months := default_to (JNum 6) (get "months" (req_query req)) in
  let rows := tenant_test_rows (database w) c in
  let first := logged w SelectTestMetrics [companyId; JNum n] in
  truthy companyId = true ->
  as_int companyId = Some (Some c) ->
  or_else (parseInt months) (JNum 6) = JNum n ->
  0 <= n <= 1200 ->
  (rows <> [] ->
   firstn (Z.to_nat n) rows <> []
   /\ Metrics.historical req w
      = (Success 200 (Metrics.TestRows (firstn (Z.to_nat n) rows)), first))
  /\ (rows = [] ->
      exists computed,
        Metrics.historical req w
        = (Success 200 (Metrics.ComputedRows computed),
           logged first SelectHistoricalMetrics [companyId; JNum n])
        /\ List.length computed = Z.to_nat n).
Proof.
  intros companyId months rows first Ht Hc Hn Hpos.
  pose proof (months_back_nonzero _ _ Hn) as Hnz.
  assert (Htest :
    Metrics.select_test_metrics companyId (JNum n) w
    = (Some (firstn (Z.to_nat n) rows), first)).
  { unfold Metrics.select_test_metrics. apply select_ok; [reflexivity|].
    rewrite Hc, as_limit_num by lia. rewrite take_firstn. reflexivity. }
  unfold Metrics.historical. fold companyId. fold months.
  rewrite Ht, Hn. simpl negb. cbv iota.
  split.
  - intros Hrows.
    assert (Hne : firstn (Z.to_nat n) rows <> []).
    { apply firstn_nonempty; [lia | exact Hrows]. }
    split; [exact Hne|].
    apply catching_ok. rewrite (bind_ok _ _ _ _ _ Htest).
    destruct (firstn (Z.to_nat n) rows) eqn:Ef; [congruence|]. reflexivity.
  - intros Hrows.
    assert (Hhist : exists computed,
      Metrics.select_historical companyId (JNum n) first
      = (Some computed, logged first SelectHistoricalMetrics [companyId; JNum n])
      /\ List.length computed = Z.to_nat n).
    { unfold Metrics.select_historical. eexists. split.
      - apply select_ok; [reflexivity|].
        unfold first. simpl database. rewrite Hc, as_int_num by lia.
        reflexivity.
      - rewrite length_map.
        rewrite (Permutation_length (order_by_perm _ _)).
        rewrite length_map, length_seq. reflexivity. }
    destruct Hhist as (computed & Hhist & Hlen).
    exists computed. split; [|exact Hlen].
    apply catching_ok. rewrite (bind_ok _ _ _ _ _ Htest).
    rewrite Hrows. rewrite firstn_nil. simpl.
    rewrite (bind_ok _ _ _ _ _ Hhist). reflexivity.
Qed.

End Historical.

(** C10, witness: company 1 of the sample has three rows in [test_metrics];
    two months are asked for. *)
Lemma historical_shadowed_witness :
  let req := request_of [] [("company_id", JStr "1"); ("months", JStr "2")] [] in
  let w := start sample in
  let rows := tenant_test_rows sample 1 in
  let first := logged w SelectTestMetrics [JStr "1"; JNum 2] in
  (rows <> [] ->
   firstn 2 rows <> []
   /\ Metrics.historical (E:=pg) req w
      = (Success 200 (Metrics.TestRows (firstn 2 rows)), first))
  /\ (rows = [] ->
      exists computed,
        Metrics.historical (E:=pg) req w
        = (Success 200 (Metrics.ComputedRows computed),
           logged first SelectHistoricalMetrics [JStr "1"; JNum 2])
        /\ List.length computed = 2%nat).
Proof.
  intros req w rows first.
  apply (historical_shadowed_by_test_metrics (E:=pg) req w 1 2).
  - reflexivity.
  - reflexivity.
  - reflexivity.
  - lia.
Defined.


(* ------------------------------------------------------------------ *)
(** ** Requests of the listings *)
(* ------------------------------------------------------------------ *)

(** A listing request for tenant [c] with no search, with the status filter
    [st] (none, or an integer the query string spells, within the range of
    the engine's integers), page size [limit] and page number [page].  The
    page size, the page number less one and the offset are safe integers
    (below 2^53), so that the arithmetic of the handler is exact and the
    engine takes the LIMIT and the OFFSET; neither of the two is
    negative. *)
Definition listing_request {E : engine} (req : request) (c : Z)
    (st : option Z) (limit page : Z) : Prop :=
  let q := req_query req in
  let companyId := or_else (get "company_id" q) (req_companyId req) in
  let status := default_to JNull (get "status" q) in
  truthy companyId = true
  /\ as_int companyId = Some (Some c)
  /\ truthy (default_to (JStr "") (get "search" q)) = false
  /\ match st with
     | None => status = JNull
     | Some z => jsval_eqb status JNull = false /\ isNaN status = false
                 /\ parseInt status = JNum z
                 /\ - 2 ^ 31 <= z < 2 ^ 31
     end
  /\ parseInt (default_to (JNum 20) (get "limit" q)) = JNum limit
  /\ parseInt (default_to (JNum 1) (get "page" q)) = JNum page
  /\ 0 <= limit < 2 ^ 53
  /\ Z.abs (page - 1) < 2 ^ 53
  /\ 0 <= (page - 1) * limit < 2 ^ 53.

(** [LIMIT limit OFFSET (page - 1) * limit]. *)
Definition page_of {A} (limit page : Z) (rows : list A) : list A :=
  firstn (Z.to_nat limit) (skipn (Z.to_nat ((page - 1) * limit)) rows).

(** The status filter of a listing, on a session. *)
Definition status_passes (st : option Z) (s : session) : bool :=
  match st with Some z => s_status s =? z | None => true end.

Section ListingFacts.
Context {E : engine}.

Lemma limit_offset_params_runs {A} (companyId : jsval) (limit page : Z)
    (rest : list jsval) (rows : list A) :
  0 <= limit < 2 ^ 53 -> 0 <= (page - 1) * limit < 2 ^ 53 ->
  limit_offset_params
    (companyId :: JNum limit :: JNum ((page - 1) * limit) :: rest) 2 3 rows
  = Some (page_of limit page rows).
Proof.
  intros Hl Ho. unfold limit_offset_params, param.
  cbn [Nat.sub nth]. rewrite !as_limit_num by lia.
  rewrite take_firstn, skip_skipn. reflexivity.
Qed.

(** The status fragment, over a status the engine reads. *)
Lemma status_condition_num (fragment : string) (ps : list jsval)
    (k : nat) (z : Z) :
  String.eqb fragment "" = false ->
  placeholders_in fragment = [k] ->
  param ps k = JNum z ->
  - 2 ^ 31 <= z < 2 ^ 31 ->
  status_condition fragment ps
  = Some (fun status => match status with
                        | Some st => int_eq st (Some z)
                        | None => false
                        end).
Proof.
  intros Hf Hp Hk Hz. unfold status_condition.
  rewrite Hf, Hp, Hk, as_int_num by exact Hz. reflexivity.
Qed.

(** The offset of a page, when the numbers are safe integers. *)
Lemma offset_of_parsed (page limit : jsval) (p l : Z) :
  parseInt page = JNum p -> parseInt limit = JNum l ->
  Z.abs (p - 1) < 2 ^ 53 -> Z.abs ((p - 1) * l) < 2 ^ 53 ->
  offset_of page limit = JNum ((p - 1) * l).
Proof.
  intros Hp Hl H1 H2. unfold offset_of. rewrite Hp, Hl.
  cbn [num_sub]. rewrite number_of_Z_small by exact H1.
  cbn [num_mul]. apply number_of_Z_small. exact H2.
Qed.

End ListingFacts.

(* ------------------------------------------------------------------ *)
(** ** Latest-message enrichment of the conversations listing *)
(* ------------------------------------------------------------------ *)

(** The messages of a session, in storage order. *)
Definition messages_of (d : db) (sid : Z) : list message :=
  filter (fun m => c_session_id m =? sid) (conversations d).

(** What the listing must say of a session's messages: their number, and
    for the latest message one of the messages with the greatest creation
    time (none, and the placeholder text, for a session without
    messages). *)
Definition enriched (d : db) (item : Conversations.conversation) : Prop :=
  let msgs := messages_of d (Conversations.session_id item) in
  Conversations.total_messages item = Z.of_nat (List.length msgs)
  /\ match msgs with
     | [] => Conversations.last_message_time item = None
             /\ Conversations.last_message_sender item = None
             /\ Conversations.last_message item = "No messages"
     | _ :: _ =>
         exists m,
           In m msgs
           /\ (forall m', In m' msgs -> c_created_at m' <= c_created_at m)
           /\ Conversations.last_message_time item = Some (c_created_at m)
           /\ Conversations.last_message_sender item = Some (c_sender m)
           /\ Conversations.last_message item
              = Conversations.text_or "No messages" (Some (c_content m))
     end.

Section Enrichment.
Context {E : engine}.

(** The rows of the page statement before LIMIT/OFFSET, for a condition
    [keep] on the joined rows. *)
Definition conversation_relation (d : db)
    (keep : Conversations.conversation_row -> bool)
  : list Conversations.conversation_row :=
  Sql.distinct_on (fun r => s_id (Conversations.cr_session r))
    (Sql.order_by
       (fun x y =>
          (s_id (Conversations.cr_session x) <? s_id (Conversations.cr_session y))
          || ((s_id (Conversations.cr_session x)
               =? s_id (Conversations.cr_session y))
              && Sql.desc_nulls_last
                   (fun r => option_map c_created_at (Conversations.cr_last_msg r))
                   x y))
       (filter keep
          (map (fun r : session * option contact =>
                  let sid := s_id (fst r) in
                  {| Conversations.cr_session := fst r;
                     Conversations.cr_contact := snd r;
                     Conversations.cr_last_msg :=
                       Sql.first_row (Conversations.messages_latest_first d sid);
                     Conversations.cr_total_messages :=
                       Sql.count (filter (fun m => c_session_id m =? sid)
                                         (conversations d)) |})
             (Sql.left_join (fun s ct => s_contact_id s =? ct_id ct)
                (sessions d) (contacts d))))).

Lemma relation_row_enriched (d : db) keep (r : Conversations.conversation_row) :
  In r (conversation_relation d keep) ->
  keep r = true
  /\ In (Conversations.cr_session r) (sessions d)
  /\ enriched d (Conversations.format_conversation r).
Proof.
  intros H. unfold conversation_relation in H.
  apply in_distinct_on in H. apply in_order_by in H.
  apply filter_In in H. destruct H as [H Hkeep].
  apply in_map_iff in H. destruct H as ([s ct] & <- & Hin).
  apply in_left_join in Hin. destruct Hin as [Hs _].
  split; [exact Hkeep|]. split; [exact Hs|].
  unfold enriched, messages_of. simpl.
  split; [reflexivity|].
  unfold Conversations.messages_latest_first.
  pose proof (first_row_desc c_created_at
                (filter (fun c => c_session_id c =? s_id s) (conversations d))) as Hf.
  destruct (Sql.first_row _) as [m|].
  - destruct Hf as [Hm Hmax].
    destruct (filter _ (conversations d)) as [|m0 ms] eqn:Ef; [destruct Hm|].
    exists m. simpl. repeat split; assumption.
  - rewrite Hf. simpl. repeat split.
Qed.

Lemma relation_nodup (d : db) keep :
  NoDup (map (fun r => s_id (Conversations.cr_session r))
             (conversation_relation d keep)).
Proof. apply distinct_on_nodup. Qed.

Lemma relation_covers (d : db) keep (s : session) :
  In s (sessions d) ->
  (forall r, Conversations.cr_session r = s -> keep r = true) ->
  exists r, In r (conversation_relation d keep)
            /\ s_id (Conversations.cr_session r) = s_id s.
Proof.
  intros Hs Hkeep.
  destruct (left_join_covers (fun s ct => s_contact_id s =? ct_id ct)
              (sessions d) (contacts d) s Hs) as (ct & Hct).
  unfold conversation_relation.
  match goal with
  | |- context [Sql.distinct_on ?k (Sql.order_by ?cmp (filter keep (map ?f ?l)))] =>
      destruct (distinct_on_covers k (Sql.order_by cmp (filter keep (map f l)))
                  (f (s, ct))) as (y & Hy & Hky)
  end.
  - apply in_order_by. apply filter_In. split.
    + apply in_map_iff. exists (s, ct). split; [reflexivity | exact Hct].
    + apply Hkeep. reflexivity.
  - exists y. split; [exact Hy | exact Hky].
Qed.
End Enrichment.

Section EnrichedListing.
Context {E : engine}.

(** The condition of the page statement on a joined row, for tenant [c], no
    search and the status test [stf]. *)
Definition kept_conversation (c : Z) (stf : option Z -> bool)
    (r : Conversations.conversation_row) : bool :=
  int_eq (s_company_id (Conversations.cr_session r)) (Some c)
  && Conversations.contact_matches (fun _ _ _ => true) (Conversations.cr_contact r)
  && stf (Some (s_status (Conversations.cr_session r))).

Lemma conversations_listing_runs (companyId : jsval) (c limit page : Z)
    (sf sf' : string) (rest rest' : list jsval)
    (stf stf' : option Z -> bool) (pg lm : jsval) (w : world) :
  let psp := companyId :: JNum limit :: JNum ((page - 1) * limit) :: rest in
  let psc := companyId :: rest' in
  as_int companyId = Some (Some c) ->
  0 <= limit < 2 ^ 53 -> 0 <= (page - 1) * limit < 2 ^ 53 ->
  bound (SelectConversationsPage "" sf) psp = true ->
  bound (SelectConversationsCount "" sf') psc = true ->
  status_condition sf psp = Some stf ->
  status_condition sf' psc = Some stf' ->
  exists total w',
    bind (Conversations.select_conversations_page "" sf psp)
      (fun rows =>
         bind (Conversations.select_conversations_count "" sf' psc)
           (fun total =>
              ret (Success 200 (map Conversations.format_conversation rows,
                                paginate pg lm total)))) w
    = (Some (Success 200
               (map Conversations.format_conversation
                  (page_of limit page
                     (conversation_relation (database w)
                        (kept_conversation c stf))),
                paginate pg lm total)), w')
    /\ database w' = database w.
Proof.
  intros psp psc Hc Hl Ho Hbp Hbc Hsp Hsc.
  eexists. eexists. split.
  - erewrite bind_ok.
    2:{ unfold Conversations.select_conversations_page.
        apply select_ok; [exact Hbp|].
        change (param psp 1) with companyId. rewrite Hc, Hsp.
        change (search_condition "" psp) with (Some (fun _ _ _ : option string => true)).
        cbv iota beta.
        unfold psp. rewrite limit_offset_params_runs by assumption.
        reflexivity. }
    erewrite bind_ok.
    2:{ unfold Conversations.select_conversations_count.
        apply select_ok; [exact Hbc|].
        change (param psc 1) with companyId. simpl database. rewrite Hc, Hsc.
        change (search_condition "" psc) with (Some (fun _ _ _ : option string => true)).
        cbv iota beta. reflexivity. }
    reflexivity.
  - reflexivity.
Qed.

Lemma kept_conversation_sound (c : Z) (st : option Z) (stf : option Z -> bool)
    (r : Conversations.conversation_row) :
  (forall s, stf (Some (s_status s)) = status_passes st s) ->
  kept_conversation c stf r = true ->
  s_company_id (Conversations.cr_session r) = c
  /\ status_passes st (Conversations.cr_session r) = true.
Proof.
  intros Hstf H. unfold kept_conversation in H.
  apply andb_true_iff in H. destruct H as [H H3].
  apply andb_true_iff in H. destruct H as [H1 _].
  simpl in H1. apply Z.eqb_eq in H1. rewrite Hstf in H3. tauto.
Qed.

Lemma kept_conversation_complete (c : Z) (st : option Z) (stf : option Z -> bool)
    (r : Conversations.conversation_row) :
  (forall s, stf (Some (s_status s)) = status_passes st s) ->
  s_company_id (Conversations.cr_session r) = c ->
  status_passes st (Conversations.cr_session r) = true ->
  kept_conversation c stf r = true.
Proof.
  intros Hstf Hc Hs. unfold kept_conversation.
  rewrite Hstf, Hs. simpl. rewrite (proj2 (Z.eqb_eq _ _) Hc).
  destruct (Conversations.cr_contact r); reflexivity.
Qed.

(** C8, as amended.  The conversations listing for tenant [c], with no
    search, any status filter, page size [limit] and page number [page],
    answers with a success and leaves the tables as they are.  Its items are
    the page cut out of a relation [full] that has a row for every session
    of the tenant that passes the status filter; no two items have the same
    session id.  Each item is a session of the tenant, and is enriched: its
    message count is the number of messages with that session id, and its
    last message (time, sender, content) is taken from one message of the
    session whose creation time is the greatest; a session without messages
    has no last-message time and the text "No messages".  Which message is
    attached among several with the same greatest creation time is not
    fixed by the statement, which orders by creation time alone. *)
Theorem latest_message_enrichment
    (req : request) (w : world) (c : Z) (st : option Z) (limit page : Z) :
  listing_request req c st limit page ->
  exists full items pagination w',
    Conversations.list_conversations req w
    = (Success 200 (items, pagination), w')
    /\ database w' = database w
    /\ items = map Conversations.format_conversation (page_of limit page full)
    /\ NoDup (map Conversations.session_id items)
    /\ (forall s, In s (sessions (database w)) ->
                  s_company_id s = c -> status_passes st s = true ->
                  exists r, In r full
                            /\ s_id (Conversations.cr_session r) = s_id s)
    /\ (forall item, In item items ->
          enriched (database w) item
          /\ exists s, In s (sessions (database w))
                       /\ s_id s = Conversations.session_id item
                       /\ s_company_id s = c
                       /\ status_passes st s = true
                       /\ Conversations.status item = s_status s).
Proof.
  intros (Ht & Hc & Hsearch & Hst & Hl & Hp & Hl0 & Hp0 & Ho0).
  pose proof Hl as Hlim.
  assert (Hoff : offset_of (default_to (JNum 1) (get "page" (req_query req)))
                   (default_to (JNum 20) (get "limit" (req_query req)))
                 = JNum ((page - 1) * limit))
    by (apply offset_of_parsed; [assumption | assumption | lia | lia]).
  assert (Hrun : exists stf total w',
    Conversations.list_conversations req w
    = (Success 200
         (map Conversations.format_conversation
            (page_of limit page
               (conversation_relation (database w) (kept_conversation c stf))),
          paginate (default_to (JNum 1) (get "page" (req_query req)))
                   (default_to (JNum 20) (get "limit" (req_query req))) total),
       w')
    /\ database w' = database w
    /\ forall s, stf (Some (s_status s)) = status_passes st s).
  { unfold Conversations.list_conversations. cbv zeta.
    rewrite Ht, Hsearch, Hoff, Hlim. simpl negb. cbv iota.
    destruct st as [z|].
    - destruct Hst as (Hnn & Hnan & Hpz & Hzr).
      unfold status_given. rewrite Hnn, Hnan. simpl andb. cbv iota.
      simpl negb. cbv iota.
      rewrite Hpz.
      edestruct (conversations_listing_runs
                   (or_else (get "company_id" (req_query req)) (req_companyId req))
                   c limit page "AND s.status = $4" "AND s.status = $2"
                   [JNum z] [JNum z]) as (total & w' & Hrun & Hdb);
        try eassumption; try reflexivity;
        try (eapply status_condition_num;
             [reflexivity | reflexivity | reflexivity | exact Hzr]).
      eexists. exists total, w'. split; [|split; [exact Hdb|]].
      + apply catching_ok. exact Hrun.
      + intros s. reflexivity.
    - unfold status_given. rewrite Hst. simpl andb. cbv iota.
      simpl negb. cbv iota.
      edestruct (conversations_listing_runs
                   (or_else (get "company_id" (req_query req)) (req_companyId req))
                   c limit page "" "" [] []) as (total & w' & Hrun & Hdb);
        try eassumption; try reflexivity.
      eexists. exists total, w'. split; [|split; [exact Hdb|]].
      + apply catching_ok. exact Hrun.
      + intros s. reflexivity. }
  destruct Hrun as (stf & total & w' & Hrun & Hdb & Hstf).
  eexists. eexists. eexists. exists w'.
  split; [exact Hrun|]. split; [exact Hdb|]. split; [reflexivity|].
  split.
  { rewrite map_map.
    apply (limit_offset_nodup
             (fun r => Conversations.session_id (Conversations.format_conversation r))).
    apply relation_nodup. }
  split.
  { intros s Hs Hsc Hsp. apply relation_covers; [exact Hs|].
    intros r Hr. apply (kept_conversation_complete c st); [exact Hstf| |];
      rewrite Hr; assumption. }
  intros item Hitem. apply in_map_iff in Hitem.
  destruct Hitem as (r & <- & Hr). apply in_limit_offset in Hr.
  apply relation_row_enriched in Hr. destruct Hr as (Hk & Hs & He).
  split; [exact He|].
  destruct (kept_conversation_sound c st stf r Hstf Hk) as [H1 H2].
  exists (Conversations.cr_session r). repeat split; assumption.
Qed.
End EnrichedListing.

(** C8, witness: the first page (20 items) of tenant 1 of the sample. *)
Lemma latest_message_enrichment_witness :
  let req := request_of [] [("company_id", JStr "1")] [] in
  let w := start sample in
  exists full items pagination w',
    Conversations.list_conversations (E:=pg) req w
    = (Success 200 (items, pagination), w')
    /\ database w' = database w
    /\ items = map Conversations.format_conversation (page_of 20 1 full)
    /\ NoDup (map Conversations.session_id items)
    /\ (forall s, In s (sessions (database w)) ->
                  s_company_id s = 1 -> status_passes None s = true ->
                  exists r, In r full
                            /\ s_id (Conversations.cr_session r) = s_id s)
    /\ (forall item, In item items ->
          enriched (database w) item
          /\ exists s, In s (sessions (database w))
                       /\ s_id s = Conversations.session_id item
                       /\ s_company_id s = 1
                       /\ status_passes None s = true
                       /\ Conversations.status item = s_status s).
Proof.
  intros req w.
  apply (latest_message_enrichment (E:=pg) req w 1 None 20 1).
  unfold listing_request. simpl.
  repeat split; try reflexivity; lia.
Defined.

(** The latest message of a session in the words of the specification: the
    greatest creation time, and among equals the highest message id. *)
Definition last_message_by_time_then_id (d : db) (sid : Z) : option message :=
  Sql.first_row
    (Sql.order_by
       (fun x y =>
          (c_created_at y <? c_created_at x)
          || ((c_created_at y =? c_created_at x) && (c_id y <=? c_id x)))
       (messages_of d sid)).

(** C8, counterexample: session 100 of the sample has the messages 1
    ("first") and 2 ("second") with the same creation time.  Breaking the tie
    by the highest id gives message 2; the listing attaches message 1, the
    one the engine meets first. *)
Lemma latest_message_tie_not_by_id :
  let req := request_of [] [("company_id", JStr "1")] [] in
  let r := Auth.guarded (Conversations.list_conversations (E:=pg)) req
             (start sample) in
  option_map (fun m => (c_id m, c_content m))
    (last_message_by_time_then_id sample 100) = Some (2, "second")
  /\ option_map
       (fun d => map (fun item => (Conversations.session_id item,
                                   Conversations.last_message item)) (fst d))
       (data_of (fst r))
     = Some [(100, "first"); (101, "No messages"); (102, "hello")].
Proof. split; vm_compute; reflexivity. Qed.

(* ------------------------------------------------------------------ *)
(** ** Contact rollups *)
(* ------------------------------------------------------------------ *)

Section GroupFacts.
Context {A : Type}.

Lemma in_group_by (key : A -> Z) (l : list A) (g : A * list A) :
  In g (Sql.group_by key l) ->
  In (fst g) l /\ snd g = filter (fun y => key y =? key (fst g)) l.
Proof.
  unfold Sql.group_by. rewrite in_map_iff.
  intros (x & <- & Hx). apply in_distinct_on in Hx. split; [exact Hx | reflexivity].
Qed.

Lemma group_by_covers (key : A -> Z) (l : list A) (x : A) :
  In x l -> exists g, In g (Sql.group_by key l) /\ key (fst g) = key x.
Proof.
  intros Hx. destruct (distinct_on_covers key l x Hx) as (y & Hy & Hky).
  exists (y, filter (fun z => key z =? key y) l). split; [|exact Hky].
  unfold Sql.group_by. apply in_map_iff. exists y. split; [reflexivity | exact Hy].
Qed.
End GroupFacts.

(** With unique contact ids, the rows of a contact in the join of contacts
    and sessions are its sessions, each once. *)
Lemma joined_rows_of_contact (on : contact -> session -> bool)
    (keep : contact * session -> bool) (S : list session)
    (l : list contact) (ct : contact) :
  NoDup (map ct_id l) -> In ct l ->
  filter (fun y : contact * session => ct_id (fst y) =? ct_id ct)
    (filter keep (Sql.inner_join on l S))
  = map (pair ct) (filter (fun s => on ct s && keep (ct, s)) S).
Proof.
  unfold Sql.inner_join.
  assert (Hsame : filter (fun y : contact * session => ct_id (fst y) =? ct_id ct)
                    (filter keep (map (pair ct) (filter (on ct) S)))
                  = map (pair ct) (filter (fun s => on ct s && keep (ct, s)) S)).
  { induction S as [|s S IH]; [reflexivity|].
    simpl. destruct (on ct s); simpl; [|exact IH].
    destruct (keep (ct, s)); simpl; [|exact IH].
    rewrite Z.eqb_refl. f_equal. exact IH. }
  assert (Hnone : forall l' : list contact,
            (forall a, In a l' -> ct_id a <> ct_id ct) ->
            filter (fun y : contact * session => ct_id (fst y) =? ct_id ct)
              (filter keep
                 (flat_map (fun a => map (pair a) (filter (on a) S)) l')) = []).
  { intros l' Hl'. induction l' as [|a l' IH]; [reflexivity|].
    simpl. rewrite !filter_app. rewrite IH by (intros; apply Hl'; now right).
    rewrite app_nil_r.
    assert (Ha : ct_id a <> ct_id ct) by (apply Hl'; now left).
    induction (filter (on a) S) as [|s ss IHs]; [reflexivity|].
    simpl. destruct (keep (a, s)); [|exact IHs].
    simpl. destruct (ct_id a =? ct_id ct) eqn:E; [apply Z.eqb_eq in E; contradiction|].
    exact IHs. }
  induction l as [|a l IH]; intros Hnd Hin; [destruct Hin|].
  simpl in Hnd. apply NoDup_cons_iff in Hnd. destruct Hnd as [Hna Hnd].
  simpl. rewrite !filter_app.
  destruct Hin as [->|Hin].
  - rewrite Hsame. rewrite Hnone; [apply app_nil_r|].
    intros a Ha Heq. apply Hna. rewrite <- Heq. apply in_map, Ha.
  - rewrite (IH Hnd Hin).
    assert (Ha : ct_id a <> ct_id ct).
    { intros Heq. apply Hna. rewrite Heq. apply in_map, Hin. }
    specialize (Hnone [a]). simpl in Hnone. rewrite app_nil_r in Hnone.
    rewrite Hnone; [reflexivity|].
    intros b [<-|[]]. exact Ha.
Qed.

Lemma unique_contact (l : list contact) (a b : contact) :
  NoDup (map ct_id l) -> In a l -> In b l -> ct_id a = ct_id b -> a = b.
Proof.
  induction l as [|x l IH]; simpl; [tauto|].
  intros Hnd Ha Hb Heq. apply NoDup_cons_iff in Hnd. destruct Hnd as [Hx Hnd].
  destruct Ha as [->|Ha], Hb as [->|Hb]; try reflexivity.
  - exfalso. apply Hx. rewrite Heq. apply in_map, Hb.
  - exfalso. apply Hx. rewrite <- Heq. apply in_map, Ha.
  - apply IH; assumption.
Qed.

Lemma first_row_map {A B} (f : A -> B) (l : list A) :
  Sql.first_row (map f l) = option_map f (Sql.first_row l).
Proof. destruct l; reflexivity. Qed.

Lemma descending_map {A B} (f : A -> B) (key : B -> Z) (l : list A) :
  descending (fun x => key (f x)) l -> descending key (map f l).
Proof.
  unfold descending. induction l as [|x l IH]; simpl; intros H; [constructor|].
  apply StronglySorted_inv in H. destruct H as [H1 H2].
  constructor; [apply IH, H1|].
  rewrite Forall_forall in *. intros y Hy. apply in_map_iff in Hy.
  destruct Hy as (z & <- & Hz). apply H2, Hz.
Qed.

(** The sessions of a contact under a tenant, and the messages of those
    sessions, in storage order. *)
Definition tenant_sessions (d : db) (c cid : Z) : list session :=
  filter (fun s => (s_contact_id s =? cid) && (s_company_id s =? c)) (sessions d).

Definition tenant_messages (d : db) (c cid : Z) : list message :=
  filter (fun m => existsb (fun s => c_session_id m =? s_id s)
                           (tenant_sessions d c cid))
         (conversations d).

(** The status filter of the contacts listing, on a contact: one of its
    sessions under the tenant has the status. *)
Definition contact_status_passes (d : db) (c : Z) (st : option Z) (ct : contact)
  : bool :=
  match st with
  | None => true
  | Some z =>
      existsb (fun s2 => (s_contact_id s2 =? ct_id ct)
                         && int_eq (s_company_id s2) (Some c)
                         && int_eq (s_status s2) (Some z))
              (sessions d)
  end.

(** The sort key of an item: the time of its latest message, or the
    creation time of the contact when it has no message. *)
Definition item_sort_key (item : Conversations.contact_item) : Z :=
  match Conversations.ci_last_message_time item with
  | Some t => t
  | None => Conversations.ci_contact_created_at item
  end.

(** What the contacts listing must say of a contact: the number of its
    sessions under the tenant (at least one), the status of one of those
    with the greatest creation time, and for the latest message one of the
    messages of those sessions with the greatest creation time. *)
Definition rolled_up (d : db) (c : Z) (item : Conversations.contact_item)
  : Prop :=
  let ss := tenant_sessions d c (Conversations.ci_contact_id item) in
  let ms := tenant_messages d c (Conversations.ci_contact_id item) in
  ss <> []
  /\ Conversations.ci_session_count item = Z.of_nat (List.length ss)
  /\ (exists s, In s ss
                /\ (forall s', In s' ss -> s_created_at s' <= s_created_at s)
                /\ Conversations.ci_latest_status item = Some (s_status s))
  /\ match ms with
     | [] => Conversations.ci_last_message_time item = None
             /\ Conversations.ci_last_message_sender item = None
             /\ Conversations.ci_last_message item = "No messages"
     | _ :: _ =>
         exists m,
           In m ms
           /\ (forall m', In m' ms -> c_created_at m' <= c_created_at m)
           /\ Conversations.ci_last_message_time item = Some (c_created_at m)
           /\ Conversations.ci_last_message_sender item = Some (c_sender m)
           /\ Conversations.ci_last_message item
              = Conversations.text_or "No messages" (Some (c_content m))
     end.

Section Rollups.
Context {E : engine}.

(** The rows of the page statement of the contacts listing before
    LIMIT/OFFSET, for a condition [keep] on the joined rows. *)
Definition contact_relation (d : db) (c : option Z)
    (keep : contact * session -> bool) : list Conversations.contact_row :=
  Sql.order_by (Sql.desc Conversations.contact_sort_key)
    (map (fun g : (contact * session) * list (contact * session) =>
            let ct := fst (fst g) in
            let group := map snd (snd g) in
            {| Conversations.ctr_contact := ct;
               Conversations.ctr_session_count := Sql.count group;
               Conversations.ctr_last_session_time :=
                 Sql.max_of (map s_created_at group);
               Conversations.ctr_active_sessions :=
                 Sql.count_when
                   (fun s => existsb (Z.eqb (s_status s)) [1; 2]) group;
               Conversations.ctr_latest_status :=
                 option_map s_status
                   (Sql.first_row
                      (Conversations.contact_sessions_latest_first d c ct));
               Conversations.ctr_last_message :=
                 option_map c_content
                   (Sql.first_row
                      (Conversations.contact_messages_latest_first d c ct));
               Conversations.ctr_last_message_time :=
                 option_map c_created_at
                   (Sql.first_row
                      (Conversations.contact_messages_latest_first d c ct));
               Conversations.ctr_last_message_sender :=
                 option_map c_sender
                   (Sql.first_row
                      (Conversations.contact_messages_latest_first d c ct))
            |})
       (Sql.group_by (fun r : contact * session => ct_id (fst r))
          (filter keep
             (Sql.inner_join (fun ct s => s_contact_id s =? ct_id ct)
                (contacts d) (sessions d))))).

(** The condition of the page statement on a joined row, for tenant [c], no
    search and the contact test [P]. *)
Definition kept_contact (c : Z) (P : contact -> bool) (r : contact * session)
  : bool :=
  int_eq (s_company_id (snd r)) (Some c)
  && Conversations.contact_matches (fun _ _ _ => true) (Some (fst r))
  && P (fst r).

Lemma kept_contact_iff (c : Z) (P : contact -> bool) (ct : contact) (s : session) :
  kept_contact c P (ct, s) = (s_company_id s =? c) && P ct.
Proof. unfold kept_contact. simpl. rewrite andb_true_r. reflexivity. Qed.

(** The joined messages of a contact's sessions under the tenant are the
    tenant messages of the contact. *)
Lemma joined_messages (d : db) (c : Z) (ct : contact) (m : message) :
  (exists s3,
     In (m, s3)
        (filter (fun r : message * session =>
                   (s_contact_id (snd r) =? ct_id ct)
                   && int_eq (s_company_id (snd r)) (Some c))
           (Sql.inner_join (fun m s3 => c_session_id m =? s_id s3)
              (conversations d) (sessions d))))
  <-> In m (tenant_messages d c (ct_id ct)).
Proof.
  unfold tenant_messages, tenant_sessions. split.
  - intros (s3 & H). apply filter_In in H. destruct H as [H Hc].
    apply in_inner_join in H. destruct H as (Hm & Hs & Hon).
    apply filter_In. split; [exact Hm|].
    apply existsb_exists. exists s3. split; [|exact Hon].
    apply filter_In. split; [exact Hs | exact Hc].
  - intros H. apply filter_In in H. destruct H as [Hm Hex].
    apply existsb_exists in Hex. destruct Hex as (s3 & Hs3 & Hon).
    apply filter_In in Hs3. destruct Hs3 as [Hs3 Hc].
    exists s3. apply filter_In. split; [|exact Hc].
    apply in_inner_join. tauto.
Qed.

Lemma relation_row_rolled_up (d : db) (c : Z) (P : contact -> bool)
    (r : Conversations.contact_row) :
  NoDup (map ct_id (contacts d)) ->
  In r (contact_relation d (Some c) (kept_contact c P)) ->
  In (Conversations.ctr_contact r) (contacts d)
  /\ P (Conversations.ctr_contact r) = true
  /\ rolled_up d c (Conversations.format_contact r).
Proof.
  intros Hnd Hr. unfold contact_relation in Hr.
  apply in_order_by in Hr. apply in_map_iff in Hr.
  destruct Hr as ([[ct s0] rows] & <- & Hg).
  apply in_group_by in Hg. simpl fst in Hg. simpl snd in Hg.
  destruct Hg as [Hrep Hrows].
  apply filter_In in Hrep. destruct Hrep as [Hjoin Hkeep].
  apply in_inner_join in Hjoin. destruct Hjoin as (Hct & Hs0 & Hon).
  rewrite kept_contact_iff in Hkeep. apply andb_true_iff in Hkeep.
  destruct Hkeep as [Hco HP].
  rewrite (joined_rows_of_contact _ _ _ _ ct Hnd Hct) in Hrows.
  assert (Hss : map snd rows = tenant_sessions d c (ct_id ct)).
  { rewrite Hrows, map_map. simpl. rewrite map_id. unfold tenant_sessions.
    apply filter_ext. intros s. rewrite kept_contact_iff, HP, andb_true_r.
    reflexivity. }
  assert (Hs0in : In s0 (tenant_sessions d c (ct_id ct))).
  { apply filter_In. split; [exact Hs0|]. rewrite Hon, Hco. reflexivity. }
  simpl. split; [exact Hct|]. split; [exact HP|].
  unfold rolled_up. simpl.
  split. { intros Hnil. rewrite Hnil in Hs0in. destruct Hs0in. }
  split. { rewrite Hss. reflexivity. }
  split.
  { unfold Conversations.contact_sessions_latest_first.
    match goal with
    | |- context [Sql.order_by (Sql.desc s_created_at) ?L] =>
        change L with (tenant_sessions d c (ct_id ct))
    end.
    pose proof (first_row_desc s_created_at (tenant_sessions d c (ct_id ct))) as Hf.
    destruct (Sql.first_row _) as [s|].
    - destruct Hf as [Hin Hmax]. exists s. repeat split; assumption.
    - rewrite Hf in Hs0in. destruct Hs0in. }
  unfold Conversations.contact_messages_latest_first.
  rewrite first_row_map.
  match goal with
  | |- context [Sql.first_row (Sql.order_by (Sql.desc ?k) ?J)] =>
      pose proof (first_row_desc k J) as Hf;
      pose proof (joined_messages d c ct) as Hjm;
      destruct (Sql.first_row (Sql.order_by (Sql.desc k) J)) as [[m s3]|]
  end.
  - destruct Hf as [Hin Hmax].
    assert (Hm : In m (tenant_messages d c (ct_id ct))).
    { apply Hjm. exists s3. exact Hin. }
    destruct (tenant_messages d c (ct_id ct)) as [|m0 ms] eqn:Ems; [destruct Hm|].
    exists m. simpl. split; [exact Hm|]. split; [|repeat split].
    intros m' Hm'. apply Hjm in Hm'. destruct Hm' as (s' & Hm').
    apply (Hmax (m', s') Hm').
  - destruct (tenant_messages d c (ct_id ct)) as [|m0 ms] eqn:Ems.
    + simpl. repeat split.
    + exfalso. assert (Hm0 : In m0 (m0 :: ms)) by now left.
      apply Hjm in Hm0. destruct Hm0 as (s' & Hm0).
      rewrite Hf in Hm0. destruct Hm0.
Qed.

Lemma relation_covers_contacts (d : db) (c : Z) (P : contact -> bool)
    (ct : contact) (s : session) :
  NoDup (map ct_id (contacts d)) ->
  In ct (contacts d) -> In s (sessions d) ->
  s_contact_id s = ct_id ct -> s_company_id s = c -> P ct = true ->
  exists r, In r (contact_relation d (Some c) (kept_contact c P))
            /\ Conversations.ctr_contact r = ct.
Proof.
  intros Hnd Hct Hs Hon Hco HP.
  assert (Hkept : In (ct, s)
            (filter (kept_contact c P)
               (Sql.inner_join (fun ct s => s_contact_id s =? ct_id ct)
                  (contacts d) (sessions d)))).
  { apply filter_In. split.
    - apply in_inner_join. repeat split; try assumption. apply Z.eqb_eq, Hon.
    - rewrite kept_contact_iff, HP, (proj2 (Z.eqb_eq _ _) Hco). reflexivity. }
  destruct (group_by_covers (fun r : contact * session => ct_id (fst r)) _ _ Hkept)
    as ([[ct' s'] rows] & Hg & Hkey).
  simpl in Hkey.
  assert (Hct' : In ct' (contacts d)).
  { apply in_group_by in Hg. destruct Hg as [Hg _]. simpl in Hg.
    apply filter_In in Hg. destruct Hg as [Hg _].
    apply in_inner_join in Hg. tauto. }
  assert (ct' = ct) by (apply (unique_contact (contacts d)); assumption).
  subst ct'.
  eexists. split.
  - unfold contact_relation. apply in_order_by. apply in_map_iff.
    exists (ct, s', rows). split; [reflexivity | exact Hg].
  - reflexivity.
Qed.

Lemma contact_relation_descending (d : db) (c : option Z) keep :
  descending Conversations.contact_sort_key (contact_relation d c keep).
Proof. apply order_by_descending. Qed.

End Rollups.

Section RollupListing.
Context {E : engine}.

Lemma contacts_listing_runs (companyId : jsval) (c limit page : Z)
    (sf sf' : string) (rest rest' : list jsval)
    (P P' : db -> contact -> bool) (pg lm : jsval) (w : world) :
  let psp := companyId :: JNum limit :: JNum ((page - 1) * limit) :: rest in
  let psc := companyId :: rest' in
  as_int companyId = Some (Some c) ->
  0 <= limit < 2 ^ 53 -> 0 <= (page - 1) * limit < 2 ^ 53 ->
  bound (SelectContactsPage "" sf) psp = true ->
  bound (SelectContactsCount "" sf') psc = true ->
  Conversations.exists_status_condition sf psp = Some P ->
  Conversations.exists_status_condition sf' psc = Some P' ->
  exists total w',
    bind (Conversations.select_contacts_page "" sf psp)
      (fun rows =>
         bind (Conversations.select_contacts_count "" sf' psc)
           (fun total =>
              ret (Success 200 (map Conversations.format_contact rows,
                                paginate pg lm total)))) w
    = (Some (Success 200
               (map Conversations.format_contact
                  (page_of limit page
                     (contact_relation (database w) (Some c)
                        (kept_contact c (P (database w))))),
                paginate pg lm total)), w')
    /\ database w' = database w.
Proof.
  intros psp psc Hc Hl Ho Hbp Hbc Hsp Hsc.
  eexists. eexists. split.
  - erewrite bind_ok.
    2:{ unfold Conversations.select_contacts_page.
        apply select_ok; [exact Hbp|].
        change (param psp 1) with companyId. rewrite Hc, Hsp.
        change (search_condition "" psp) with (Some (fun _ _ _ : option string => true)).
        cbv iota beta.
        unfold psp. rewrite limit_offset_params_runs by assumption.
        reflexivity. }
    erewrite bind_ok.
    2:{ unfold Conversations.select_contacts_count.
        apply select_ok; [exact Hbc|].
        change (param psc 1) with companyId. simpl database. rewrite Hc, Hsc.
        change (search_condition "" psc) with (Some (fun _ _ _ : option string => true)).
        cbv iota beta. reflexivity. }
    reflexivity.
  - reflexivity.
Qed.

(** C7, as amended.  The contacts listing for tenant [c], with no search,
    any status filter, page size [limit] and page number [page], over a
    contacts table with unique ids, answers with a success and leaves the
    tables as they are.  Its items are the page cut out of a relation [full]
    that has a row for every contact with at least one session under the
    tenant (and passing the status filter).  Each item is rolled up: it
    reports the number of the contact's sessions under the tenant, the status
    of one of those sessions with the greatest creation time, and the time,
    sender and content of one message of those sessions with the greatest
    creation time (no time and the text "No messages" when there is none).
    The items are in descending order of the time of the latest message,
    or of the contact's creation time for a contact without messages.  The
    active-session count of an item is not part of this statement. *)
Theorem contact_rollups
    (req : request) (w : world) (c : Z) (st : option Z) (limit page : Z) :
  listing_request req c st limit page ->
  NoDup (map ct_id (contacts (database w))) ->
  exists full items pagination w',
    Conversations.list_contacts req w = (Success 200 (items, pagination), w')
    /\ database w' = database w
    /\ items = map Conversations.format_contact (page_of limit page full)
    /\ descending item_sort_key items
    /\ (forall ct s,
          In ct (contacts (database w)) -> In s (sessions (database w)) ->
          s_contact_id s = ct_id ct -> s_company_id s = c ->
          contact_status_passes (database w) c st ct = true ->
          exists r, In r full /\ Conversations.ctr_contact r = ct)
    /\ (forall item, In item items ->
          rolled_up (database w) c item
          /\ exists ct, In ct (contacts (database w))
                        /\ ct_id ct = Conversations.ci_contact_id item
                        /\ contact_status_passes (database w) c st ct = true).
Proof.
  intros (Ht & Hc & Hsearch & Hst & Hl & Hp & Hl0 & Hp0 & Ho0) Hnd.
  pose proof Hl as Hlim.
  assert (Hoff : offset_of (default_to (JNum 1) (get "page" (req_query req)))
                   (default_to (JNum 20) (get "limit" (req_query req)))
                 = JNum ((page - 1) * limit))
    by (apply offset_of_parsed; [assumption | assumption | lia | lia]).
  assert (Hrun : exists total w',
    Conversations.list_contacts req w
    = (Success 200
         (map Conversations.format_contact
            (page_of limit page
               (contact_relation (database w) (Some c)
                  (kept_contact c (contact_status_passes (database w) c st)))),
          paginate (default_to (JNum 1) (get "page" (req_query req)))
                   (default_to (JNum 20) (get "limit" (req_query req))) total),
       w')
    /\ database w' = database w).
  { unfold Conversations.list_contacts. cbv zeta.
    rewrite Ht, Hsearch, Hoff, Hlim. simpl negb. cbv iota.
    destruct st as [z|].
    - destruct Hst as (Hnn & Hnan & Hpz & Hzr).
      unfold status_given. rewrite Hnn, Hnan. simpl andb. cbv iota.
      simpl negb. cbv iota.
      rewrite Hpz.
      edestruct (contacts_listing_runs
                   (or_else (get "company_id" (req_query req)) (req_companyId req))
                   c limit page
                   "AND EXISTS (SELECT 1 FROM sessions s2 WHERE s2.contact_id = ct.id AND s2.company_id = $1 AND s2.status = $4)"
                   "AND EXISTS (SELECT 1 FROM sessions s2 WHERE s2.contact_id = ct.id AND s2.company_id = $1 AND s2.status = $2)"
                   [JNum z] [JNum z]
                   (fun d ct => contact_status_passes d c (Some z) ct)
                   (fun d ct => contact_status_passes d c (Some z) ct))
        as (total & w' & Hrun & Hdb);
        try eassumption; try reflexivity.
      + unfold Conversations.exists_status_condition.
        simpl String.eqb. cbv iota. simpl placeholders_in. cbv iota.
        unfold param. simpl nth. rewrite Hc, as_int_num by exact Hzr.
        reflexivity.
      + unfold Conversations.exists_status_condition.
        simpl String.eqb. cbv iota. simpl placeholders_in. cbv iota.
        unfold param. simpl nth. rewrite Hc, as_int_num by exact Hzr.
        reflexivity.
      + exists total, w'. split; [|exact Hdb].
        apply catching_ok. exact Hrun.
    - unfold status_given. rewrite Hst. simpl andb. cbv iota.
      simpl negb. cbv iota.
      edestruct (contacts_listing_runs
                   (or_else (get "company_id" (req_query req)) (req_companyId req))
                   c limit page "" "" [] []
                   (fun d ct => contact_status_passes d c None ct)
                   (fun d ct => contact_status_passes d c None ct))
        as (total & w' & Hrun & Hdb);
        try eassumption; try reflexivity.
      exists total, w'. split; [|exact Hdb].
      apply catching_ok. exact Hrun. }
  destruct Hrun as (total & w' & Hrun & Hdb).
  eexists. eexists. eexists. exists w'.
  split; [exact Hrun|]. split; [exact Hdb|]. split; [reflexivity|].
  split.
  { apply descending_map. apply limit_offset_sorted.
    apply contact_relation_descending. }
  split.
  { intros ct s Hct Hs Hon Hco HP.
    apply (relation_covers_contacts _ _ _ ct s); assumption. }
  intros item Hitem. apply in_map_iff in Hitem.
  destruct Hitem as (r & <- & Hr). apply in_limit_offset in Hr.
  apply relation_row_rolled_up in Hr; [|exact Hnd].
  destruct Hr as (Hct & HP & Hroll).
  split; [exact Hroll|].
  exists (Conversations.ctr_contact r). repeat split; assumption.
Qed.

End RollupListing.

(** C7, witness: the first page (20 items) of tenant 1 of the sample. *)
Lemma contact_rollups_witness :
  let req := request_of [] [("company_id", JStr "1")] [] in
  let w := start sample in
  exists full items pagination w',
    Conversations.list_contacts (E:=pg) req w
    = (Success 200 (items, pagination), w')
    /\ database w' = database w
    /\ items = map Conversations.format_contact (page_of 20 1 full)
    /\ descending item_sort_key items
    /\ (forall ct s,
          In ct (contacts (database w)) -> In s (sessions (database w)) ->
          s_contact_id s = ct_id ct -> s_company_id s = 1 ->
          contact_status_passes (database w) 1 None ct = true ->
          exists r, In r full /\ Conversations.ctr_contact r = ct)
    /\ (forall item, In item items ->
          rolled_up (database w) 1 item
          /\ exists ct, In ct (contacts (database w))
                        /\ ct_id ct = Conversations.ci_contact_id item
                        /\ contact_status_passes (database w) 1 None ct = true).
Proof.
  intros req w.
  apply (contact_rollups (E:=pg) req w 1 None 20 1).
  - unfold listing_request. simpl.
    repeat split; try reflexivity; lia.
  - simpl. repeat (constructor; [simpl; lia|]). constructor.
Defined.

(** The sort key in the words of the specification: the most recent of the
    latest message time and the contact's creation time. *)
Definition most_recent_activity (item : Conversations.contact_item) : Z :=
  match Conversations.ci_last_message_time item with
  | Some t => Z.max t (Conversations.ci_contact_created_at item)
  | None => Conversations.ci_contact_created_at item
  end.

(** The active sessions of a contact in the words of the specification:
    its sessions under the tenant with status 0, 1 or 2. *)
Definition active_sessions_by_status (d : db) (c cid : Z) : Z :=
  Sql.count_when (fun s => existsb (Z.eqb (s_status s)) [0; 1; 2])
                 (tenant_sessions d c cid).

(** C7, counterexample: in the sample, contact 10 was created at 5000 and
    its latest message is of 1500; contact 11 was created at 50 and its
    latest message is of 3100.  By the most recent of the two times contact
    10 (5000) comes before contact 11 (3100); the listing puts contact 11
    first.  Contact 10 has two sessions with a status in 0, 1, 2 under
    tenant 1 (statuses 0 and 1); the listing reports one active session. *)
Lemma contacts_not_sorted_by_most_recent :
  let req := request_of [] [("company_id", JStr "1")] [] in
  let r := Auth.guarded (Conversations.list_contacts (E:=pg)) req
             (start sample) in
  option_map
    (fun d => map (fun item => (Conversations.ci_contact_id item,
                                most_recent_activity item,
                                Conversations.ci_active_sessions item))
                  (fst d))
    (data_of (fst r))
  = Some [(11, 3100, 0); (10, 5000, 1)]
  /\ active_sessions_by_status sample 1 10 = 2.
Proof. split; vm_compute; reflexivity. Qed.

(* ================================================================== *)
(** * Further properties of the handlers and the middlewares *)
(* ================================================================== *)

(* ------------------------------------------------------------------ *)
(** ** The realtime counts over two joins *)
(* ------------------------------------------------------------------ *)

Lemma flat_map_ext_members {A B} (f g : A -> list B) (l : list A) :
  (forall a, In a l -> f a = g a) -> flat_map f l = flat_map g l.
Proof.
  induction l as [|a l IH]; intros H; [reflexivity|].
  simpl. rewrite (H a (or_introl eq_refl)), IH; [reflexivity|].
  intros x Hx. apply H. now right.
Qed.

Section FanOut.
Context {A B C : Type}.

(** The rows a LEFT JOIN pairs a row with: its partners, or one NULL. *)
Definition partners (l : list B) : list (option B) :=
  match l with [] => [None] | _ => map Some l end.

Lemma partners_length (l : list B) :
  Z.of_nat (List.length (partners l)) = Z.max 1 (Sql.count l).
Proof.
  unfold partners, Sql.count. destruct l; [reflexivity|].
  rewrite length_map. simpl List.length. lia.
Qed.

Lemma partners_count (p : B -> bool) (l : list B) :
  Sql.count_when (fun o => match o with Some b => p b | None => false end)
                 (partners l)
  = Sql.count_when p l.
Proof.
  unfold partners, Sql.count_when, Sql.count. destruct l as [|b l]; [reflexivity|].
  f_equal. induction (b :: l) as [|x t IH]; [reflexivity|].
  simpl. destruct (p x); simpl; rewrite IH; reflexivity.
Qed.

Lemma left_join_partners (on : A -> B -> bool) (a : A) (r : list B) :
  Sql.left_join on [a] r = map (pair a) (partners (filter (on a) r)).
Proof.
  unfold Sql.left_join, partners. simpl. rewrite app_nil_r.
  destruct (filter (on a) r); [reflexivity|]. rewrite map_map. reflexivity.
Qed.

Lemma left_join_same_partners (on : A -> B -> bool) (l : list A) (r bs : list B) :
  (forall a, In a l -> filter (on a) r = bs) ->
  Sql.left_join on l r = flat_map (fun a => map (pair a) (partners bs)) l.
Proof.
  intros H. unfold Sql.left_join. apply flat_map_ext_members.
  intros a Ha. rewrite (H a Ha). unfold partners.
  destruct bs; [reflexivity|]. rewrite map_map. reflexivity.
Qed.

Lemma filter_pairs_left (p : A -> bool) (a : A) (bs : list B) :
  filter (fun r : A * B => p (fst r)) (map (pair a) bs)
  = if p a then map (pair a) bs else [].
Proof.
  induction bs as [|b bs IHb]; [destruct (p a); reflexivity|].
  simpl. rewrite IHb. destruct (p a); reflexivity.
Qed.

Lemma count_left_of_product (p : A -> bool) (l : list A) (bs : list B) :
  Sql.count_when (fun r : A * B => p (fst r))
                 (flat_map (fun a => map (pair a) bs) l)
  = Sql.count_when p l * Z.of_nat (List.length bs).
Proof.
  unfold Sql.count_when, Sql.count.
  induction l as [|a l IH]; [reflexivity|].
  cbn [flat_map]. rewrite filter_app, length_app, Nat2Z.inj_add, IH.
  rewrite filter_pairs_left. cbn [filter].
  destruct (p a); simpl List.length; rewrite ?length_map; lia.
Qed.

Lemma filter_pairs_right (q : B -> bool) (a : A) (bs : list B) :
  filter (fun r : A * B => q (snd r)) (map (pair a) bs)
  = map (pair a) (filter q bs).
Proof.
  induction bs as [|b bs IHb]; [reflexivity|].
  simpl. rewrite IHb. destruct (q b); reflexivity.
Qed.

Lemma count_right_of_product (q : B -> bool) (l : list A) (bs : list B) :
  Sql.count_when (fun r : A * B => q (snd r))
                 (flat_map (fun a => map (pair a) bs) l)
  = Z.of_nat (List.length l) * Sql.count_when q bs.
Proof.
  unfold Sql.count_when, Sql.count.
  induction l as [|a l IH]; [reflexivity|].
  cbn [flat_map]. rewrite filter_app, length_app, Nat2Z.inj_add, IH.
  rewrite filter_pairs_right, length_map. simpl List.length. lia.
Qed.

End FanOut.

Lemma filter_flat_map {A B} (p : B -> bool) (f : A -> list B) (l : list A) :
  filter p (flat_map f l) = flat_map (fun a => filter p (f a)) l.
Proof.
  induction l as [|a l IH]; [reflexivity|].
  simpl. rewrite filter_app, IH. reflexivity.
Qed.

Lemma flat_map_filter_left {A B} (p : A -> bool) (f : A -> list B) (l : list A) :
  flat_map f (filter p l)
  = flat_map (fun a => if p a then f a else []) l.
Proof.
  induction l as [|a l IH]; [reflexivity|].
  simpl. destruct (p a); simpl; rewrite IH; reflexivity.
Qed.

(** Selecting the rows of some left rows out of a LEFT JOIN is joining
    those left rows alone. *)
Lemma filter_left_join {A B} (p : A -> bool) (on : A -> B -> bool)
    (l : list A) (r : list B) :
  filter (fun x : A * option B => p (fst x)) (Sql.left_join on l r)
  = Sql.left_join on (filter p l) r.
Proof.
  unfold Sql.left_join. rewrite filter_flat_map, flat_map_filter_left.
  apply flat_map_ext. intros a.
  destruct (filter (on a) r) as [|b bs].
  - simpl. destruct (p a); reflexivity.
  - destruct (p a) eqn:Ep.
    + apply forallb_filter_id. apply forallb_forall.
      intros x Hx. apply in_map_iff in Hx. destruct Hx as (y & <- & _). exact Ep.
    + induction (b :: bs) as [|y t IH]; [reflexivity|].
      simpl. rewrite Ep. exact IH.
Qed.

Lemma count_when_map {A B} (f : A -> B) (p : B -> bool) (l : list A) :
  Sql.count_when p (map f l) = Sql.count_when (fun a => p (f a)) l.
Proof.
  unfold Sql.count_when, Sql.count. f_equal.
  induction l as [|a l IH]; [reflexivity|].
  simpl. destruct (p (f a)); simpl; rewrite IH; reflexivity.
Qed.

(** The sessions and the transferred leads of a tenant. *)
Definition sessions_of (d : db) (c : Z) : list session :=
  filter (fun s => s_company_id s =? c) (sessions d).

Definition transfers_of (d : db) (c : Z) : list transferred_lead :=
  filter (fun tl => tl_company_id tl =? c) (transferred_leads d).

Section RealtimeCounts.
Context {E : engine}.

Lemma realtime_rows (d : db) (c : Z) (comp : company) :
  filter (fun co => co_id co =? c) (companies d) = [comp] ->
  filter (fun r : company * option session * option transferred_lead =>
            int_eq (co_id (fst (fst r))) (Some c))
    (Sql.left_join
       (fun (r : company * option session) tl =>
          co_id (fst r) =? tl_company_id tl)
       (Sql.left_join (fun comp s => co_id comp =? s_company_id s)
          (companies d) (sessions d))
       (transferred_leads d))
  = flat_map (fun a => map (pair a) (partners (transfers_of d c)))
             (map (pair comp) (partners (sessions_of d c))).
Proof.
  intros Hone.
  assert (Hid : co_id comp = c).
  { assert (H : In comp (filter (fun co => co_id co =? c) (companies d)))
      by (rewrite Hone; now left).
    apply filter_In in H. destruct H as [_ H]. apply Z.eqb_eq. exact H. }
  rewrite (filter_left_join
             (fun r : company * option session => int_eq (co_id (fst r)) (Some c))).
  rewrite (filter_left_join (fun co : company => int_eq (co_id co) (Some c))).
  cbn [int_eq]. rewrite Hone. rewrite left_join_partners.
  replace (filter (fun s => co_id comp =? s_company_id s) (sessions d))
    with (sessions_of d c)
    by (unfold sessions_of; apply filter_ext; intros s; rewrite Hid; apply Z.eqb_sym).
  apply left_join_same_partners.
  intros a Ha. apply in_map_iff in Ha. destruct Ha as (o & <- & _).
  unfold transfers_of. apply filter_ext. intros tl. cbn [fst].
  rewrite Hid. apply Z.eqb_sym.
Qed.

(** X1.  GET /api/metrics/realtime counts over the product of two joins:
    for a tenant with one row in [companies], every count of sessions the
    answer carries (today, yesterday, this month, active) is the number of
    the tenant's sessions of that kind multiplied by the number of the
    tenant's transferred leads (by 1 when it has none), and every count of
    transfers is the number of the tenant's transferred leads of that kind
    multiplied by the number of its sessions (by 1 when it has none).  The
    statement joins [sessions] and [transferred_leads] to the company row
    side by side and counts rows with [COUNT(CASE ...)]. *)
Theorem realtime_counts_multiply (req : request) (w : world) (c : Z)
    (comp : company) :
  let d := database w in
  let companyId :=
    or_else (get "company_id" (req_query req)) (req_companyId req) in
  let S := sessions_of d c in
  let T := transfers_of d c in
  let per_session := Z.max 1 (Sql.count T) in
  let per_transfer := Z.max 1 (Sql.count S) in
  let on_day (day : Z) (ts : Z) := date_of ts =? day in
  let in_month (ts : Z) := month_of ts =? month_of_date current_date in
  truthy companyId = true ->
  as_int companyId = Some (Some c) ->
  filter (fun co => co_id co =? c) (companies d) = [comp] ->
  exists data,
    Metrics.realtime req w
    = (Success 200 data, logged w SelectRealtimeMetrics [companyId])
    /\ Metrics.today_conversations data
       = number_of_Z
           (Sql.count_when (fun s => on_day current_date (s_created_at s)) S
            * per_session)
    /\ Metrics.yesterday_conversations data
       = number_of_Z
           (Sql.count_when
              (fun s => on_day (current_date - 1) (s_created_at s)) S
            * per_session)
    /\ Metrics.thisMonth_conversations data
       = number_of_Z
           (Sql.count_when (fun s => in_month (s_created_at s)) S * per_session)
    /\ Metrics.activeSessions data
       = number_of_Z
           (Sql.count_when (fun s => existsb (Z.eqb (s_status s)) [0; 1; 2]) S
            * per_session)
    /\ Metrics.today_transfers data
       = number_of_Z
           (per_transfer
            * Sql.count_when
                (fun tl => on_day current_date (tl_created_at tl)) T)
    /\ Metrics.yesterday_transfers data
       = number_of_Z
           (per_transfer
            * Sql.count_when
                (fun tl => on_day (current_date - 1) (tl_created_at tl)) T)
    /\ Metrics.thisMonth_transfers data
       = number_of_Z
           (per_transfer
            * Sql.count_when (fun tl => in_month (tl_created_at tl)) T).
Proof.
  intros d companyId S T per_session per_transfer on_day in_month Ht Hc Hone.
  assert (Hs : forall p : session -> bool,
    Sql.count_when
      (fun r : company * option session * option transferred_lead =>
         match snd (fst r) with Some s => p s | None => false end)
      (flat_map (fun a => map (pair a) (partners T))
                (map (pair comp) (partners S)))
    = Sql.count_when p S * per_session).
  { intros p.
    rewrite (count_left_of_product
               (fun a : company * option session =>
                  match snd a with Some s => p s | None => false end)).
    rewrite count_when_map. cbn [snd].
    rewrite partners_count, partners_length. reflexivity. }
  assert (Htl : forall q : transferred_lead -> bool,
    Sql.count_when
      (fun r : company * option session * option transferred_lead =>
         match snd r with Some tl => q tl | None => false end)
      (flat_map (fun a => map (pair a) (partners T))
                (map (pair comp) (partners S)))
    = per_transfer * Sql.count_when q T).
  { intros q.
    rewrite (count_right_of_product
               (fun o : option transferred_lead =>
                  match o with Some tl => q tl | None => false end)).
    rewrite length_map, partners_count, partners_length. reflexivity. }
  eexists. split.
  { unfold Metrics.realtime. fold companyId. rewrite Ht. simpl negb. cbv iota.
    apply catching_ok. erewrite bind_ok.
    2:{ unfold Metrics.select_realtime. apply select_ok; [reflexivity|].
        fold d. rewrite Hc. cbv beta iota zeta.
        rewrite (realtime_rows d c comp Hone). fold S T.
        rewrite !Hs, !Htl. reflexivity. }
    reflexivity. }
  cbn [Metrics.realtime_format Metrics.today_conversations
       Metrics.yesterday_conversations Metrics.thisMonth_conversations
       Metrics.activeSessions Metrics.today_transfers
       Metrics.yesterday_transfers Metrics.thisMonth_transfers
       Metrics.conversations_today Metrics.conversations_yesterday
       Metrics.conversations_this_month Metrics.active_sessions
       Metrics.transfers_today Metrics.transfers_yesterday
       Metrics.transfers_this_month].
  repeat split.
Qed.

End RealtimeCounts.


(** X1, witness: the tenant of [busy] has seven sessions and one transferred
    lead.  Its sessions are counted once each (4 today, 3 yesterday, 6
    active); its one transfer is counted seven times. *)
Lemma realtime_counts_multiply_witness :
  let req := request_of [] [("company_id", JStr "1")] [] in
  exists data,
    Metrics.realtime (E:=pg) req (start busy)
    = (Success 200 data,
       logged (start busy) SelectRealtimeMetrics [JStr "1"])
    /\ Sql.count (sessions_of busy 1) = 7
    /\ Sql.count (transfers_of busy 1) = 1
    /\ Metrics.today_conversations data = JNum 4
    /\ Metrics.yesterday_conversations data = JNum 3
    /\ Metrics.activeSessions data = JNum 6
    /\ Metrics.today_transfers data = JNum 7
    /\ Metrics.thisMonth_transfers data = JNum 7.
Proof.
  intros req.
  destruct (realtime_counts_multiply (E:=pg) req (start busy) 1
              (mk_company 1 "Alfa") eq_refl eq_refl eq_refl)
    as (data & Hr & Ht & Hy & _ & Ha & Htt & _ & Hmt).
  exists data. split; [exact Hr|].
  split; [reflexivity|]. split; [reflexivity|].
  split; [rewrite Ht; reflexivity|]. split; [rewrite Hy; reflexivity|].
  split; [rewrite Ha; reflexivity|]. split; [rewrite Htt; reflexivity|].
  rewrite Hmt; reflexivity.
Defined.

(* ------------------------------------------------------------------ *)
(** ** The leads listing *)
(* ------------------------------------------------------------------ *)

Section LeadsListing.
Context {E : engine}.




End LeadsListing.

(** On the reference engine the page statement of a plain request runs, and
    the count statement that follows is the one rejected. *)
Example leads_listing_plain_request :
  let req := request_of [] [("company_id", JStr "1")] [] in
  Leads.list_leads (E:=pg) req (start sample)
  = (Failure 500 "Failed to fetch leads" None,
     {| database := sample;
        sent := [(SelectLeadsPage "" "", [JStr "1"; JNum 20; JNum 0]);
                 (SelectLeadsCount "" "", [JStr "1"; JNum 20])] |}).
Proof. vm_compute. reflexivity. Qed.

(* ------------------------------------------------------------------ *)
(** ** The pages of the conversations listing *)
(* ------------------------------------------------------------------ *)

Lemma same_members_same_length {A} (l l' : list A) :
  NoDup l -> NoDup l' -> (forall x, In x l <-> In x l') ->
  List.length l = List.length l'.
Proof.
  intros H H' Hin. apply Permutation_length.
  apply NoDup_Permutation; assumption.
Qed.

(** The test of a status filter on a (nullable) status. *)
Definition status_filter (st : option Z) (status : option Z) : bool :=
  match st with
  | None => true
  | Some z => match status with Some s => int_eq s (Some z) | None => false end
  end.

(** The sessions the conversations listing of tenant [c] ranges over, with
    no search and the status filter [st]: the relation its page statement
    cuts its pages from. *)
Definition tenant_conversations (d : db) (c : Z) (st : option Z)
  : list Conversations.conversation_row :=
  conversation_relation d (kept_conversation c (status_filter st)).

Section PagesOfConversations.
Context {E : engine}.

Lemma conversations_count_value (d : db) (c : Z) (stf : option Z -> bool) :
  Metrics.count_distinct
    (map (fun r : session * option contact * option message => s_id (fst (fst r)))
       (filter (fun r : session * option contact * option message =>
                  let s := fst (fst r) in
                  int_eq (s_company_id s) (Some c)
                  && Conversations.contact_matches (fun _ _ _ => true) (snd (fst r))
                  && stf (Some (s_status s)))
          (Sql.left_join
             (fun (r : session * option contact) m => s_id (fst r) =? c_session_id m)
             (Sql.left_join (fun s ct => s_contact_id s =? ct_id ct)
                (sessions d) (contacts d))
             (conversations d))))
  = Z.of_nat (List.length (conversation_relation d (kept_conversation c stf))).
Proof.
  unfold Metrics.count_distinct, Sql.count. f_equal.
  rewrite <- (length_map (fun r => s_id (Conversations.cr_session r))
                (conversation_relation d (kept_conversation c stf))).
  apply same_members_same_length.
  - apply NoDup_nodup.
  - apply distinct_on_nodup.
  - intros sid. rewrite nodup_In. rewrite !in_map_iff. split.
    + intros ([[s ct] m] & Hx & Hin). simpl in Hx.
      apply filter_In in Hin. destruct Hin as [Hin Hk]. simpl in Hk.
      apply in_left_join in Hin. destruct Hin as [Hin _].
      unfold conversation_relation.
      match goal with
      | |- context [Sql.distinct_on ?k (Sql.order_by ?cmp (filter ?keep (map ?f ?l)))] =>
          destruct (distinct_on_covers k (Sql.order_by cmp (filter keep (map f l)))
                      (f (s, ct))) as (y & Hy & Hky)
      end.
      * apply in_order_by. apply filter_In. split.
        -- apply in_map_iff. exists (s, ct). split; [reflexivity | exact Hin].
        -- exact Hk.
      * exists y. split; [|exact Hy]. rewrite Hky. exact Hx.
    + intros (r & Hx & Hin). unfold conversation_relation in Hin.
      apply in_distinct_on in Hin. apply in_order_by in Hin.
      apply filter_In in Hin. destruct Hin as [Hin Hk].
      apply in_map_iff in Hin. destruct Hin as ([s ct] & <- & Hin).
      destruct (left_join_covers
                  (fun (r : session * option contact) m => s_id (fst r) =? c_session_id m)
                  _ (conversations d) (s, ct) Hin) as (m & Hm).
      exists (s, ct, m). split; [exact Hx|].
      apply filter_In. split; [exact Hm | exact Hk].
Qed.

Lemma conversations_listing_total (companyId : jsval) (c limit page : Z)
    (sf sf' : string) (rest rest' : list jsval)
    (stf : option Z -> bool) (pg lm : jsval) (w : world) :
  let psp := companyId :: JNum limit :: JNum ((page - 1) * limit) :: rest in
  let psc := companyId :: rest' in
  let full := conversation_relation (database w) (kept_conversation c stf) in
  as_int companyId = Some (Some c) ->
  0 <= limit < 2 ^ 53 -> 0 <= (page - 1) * limit < 2 ^ 53 ->
  bound (SelectConversationsPage "" sf) psp = true ->
  bound (SelectConversationsCount "" sf') psc = true ->
  status_condition sf psp = Some stf ->
  status_condition sf' psc = Some stf ->
  bind (Conversations.select_conversations_page "" sf psp)
    (fun rows =>
       bind (Conversations.select_conversations_count "" sf' psc)
         (fun total =>
            ret (Success 200 (map Conversations.format_conversation rows,
                              paginate pg lm total)))) w
  = (Some (Success 200
             (map Conversations.format_conversation (page_of limit page full),
              paginate pg lm (Z.of_nat (List.length full)))),
     logged (logged w (SelectConversationsPage "" sf) psp)
            (SelectConversationsCount "" sf') psc).
Proof.
  intros psp psc full Hc Hl Ho Hbp Hbc Hsp Hsc.
  erewrite bind_ok.
  2:{ unfold Conversations.select_conversations_page.
      apply select_ok; [exact Hbp|].
      change (param psp 1) with companyId. rewrite Hc, Hsp.
      change (search_condition "" psp) with (Some (fun _ _ _ : option string => true)).
      cbv iota beta.
      unfold psp. rewrite limit_offset_params_runs by assumption.
      reflexivity. }
  erewrite bind_ok.
  2:{ unfold Conversations.select_conversations_count.
      apply select_ok; [exact Hbc|].
      change (param psc 1) with companyId. simpl database. rewrite Hc, Hsc.
      change (search_condition "" psc) with (Some (fun _ _ _ : option string => true)).
      cbv iota beta. rewrite conversations_count_value. reflexivity. }
  reflexivity.
Qed.

End PagesOfConversations.

Section Chunks.
Context {A : Type}.

Lemma chunks_cover (n k : nat) (l : list A) :
  (0 < n)%nat -> (List.length l <= k * n)%nat ->
  List.concat (map (fun p => firstn n (skipn ((p - 1) * n) l)) (seq 1 k)) = l.
Proof.
  intros Hn. revert l. induction k as [|k IH]; intros l Hl.
  - simpl in Hl. destruct l; [reflexivity | simpl in Hl; lia].
  - cbn [seq map List.concat]. rewrite <- seq_shift, map_map.
    replace ((1 - 1) * n)%nat with 0%nat by lia. cbn [skipn].
    transitivity (firstn n l ++ skipn n l)%list; [|apply firstn_skipn].
    f_equal.
    rewrite <- (IH (skipn n l)).
    2:{ rewrite length_skipn. simpl in Hl. lia. }
    f_equal. apply map_ext_in. intros p Hp. apply in_seq in Hp.
    rewrite skipn_skipn. f_equal. f_equal. nia.
Qed.

Lemma pages_cover (limit : Z) (l : list A) :
  0 < limit ->
  List.concat (map (fun p => page_of limit (Z.of_nat p) l)
              (seq 1 (Z.to_nat ((Z.of_nat (List.length l) + limit - 1) / limit))))
  = l.
Proof.
  intros Hl.
  rewrite <- (chunks_cover (Z.to_nat limit)
                (Z.to_nat ((Z.of_nat (List.length l) + limit - 1) / limit)) l) at 2.
  - f_equal. apply map_ext_in. intros p Hp. apply in_seq in Hp. unfold page_of.
    f_equal. f_equal. nia.
  - lia.
  - pose proof (Z.div_mod (Z.of_nat (List.length l) + limit - 1) limit ltac:(lia)).
    pose proof (Z.mod_pos_bound (Z.of_nat (List.length l) + limit - 1) limit ltac:(lia)).
    nia.
Qed.

End Chunks.

Section ConversationPages.
Context {E : engine}.

Lemma tenant_conversations_rows (d : db) (c : Z) (st : option Z)
    (r : Conversations.conversation_row) :
  In r (tenant_conversations d c st) ->
  In (Conversations.cr_session r) (sessions d)
  /\ s_company_id (Conversations.cr_session r) = c
  /\ status_passes st (Conversations.cr_session r) = true.
Proof.
  intros H. unfold tenant_conversations in H.
  apply relation_row_enriched in H. destruct H as (Hk & Hs & _).
  split; [exact Hs|].
  apply (kept_conversation_sound c st (status_filter st)); [|exact Hk].
  intros s. destruct st; reflexivity.
Qed.

Lemma tenant_conversations_count (d : db) (c : Z) (st : option Z) :
  List.length (tenant_conversations d c st)
  = List.length
      (nodup Z.eq_dec
         (map s_id (filter (fun s => (s_company_id s =? c) && status_passes st s)
                           (sessions d)))).
Proof.
  rewrite <- (length_map (fun r => s_id (Conversations.cr_session r))).
  apply same_members_same_length.
  - apply relation_nodup.
  - apply NoDup_nodup.
  - intros sid. rewrite nodup_In, !in_map_iff. split.
    + intros (r & Hid & Hr). apply tenant_conversations_rows in Hr.
      destruct Hr as (Hs & Hc & Hp).
      exists (Conversations.cr_session r). split; [exact Hid|].
      apply filter_In. split; [exact Hs|].
      rewrite Hp, (proj2 (Z.eqb_eq _ _) Hc). reflexivity.
    + intros (s & Hid & Hs). apply filter_In in Hs. destruct Hs as [Hs Hk].
      apply andb_true_iff in Hk. destruct Hk as [Hc Hp]. apply Z.eqb_eq in Hc.
      destruct (relation_covers d (kept_conversation c (status_filter st)) s Hs)
        as (r & Hr & Hrid).
      * intros r Hr. apply (kept_conversation_complete c st);
          [intros s'; destruct st; reflexivity | rewrite Hr; exact Hc
          | rewrite Hr; exact Hp].
      * exists r. split; [congruence | exact Hr].
Qed.

(** X3.  The pages of GET /api/conversations (no search filter) cut one
    relation: for a page size greater than 0, the request of page [p]
    answers the [p]-th chunk of the tenant's conversation rows and reports
    their number as the total; the total is the number of the tenant's
    sessions (with the requested status, if any); the chunks of the pages 1
    to ceil(total / limit), one after the other, are that relation, and no
    session occurs in it twice. *)
Theorem conversations_pages_partition (w : world) (c : Z) (st : option Z)
    (limit : Z) :
  0 < limit ->
  let full := tenant_conversations (database w) c st in
  let total := Z.of_nat (List.length full) in
  let pages := (total + limit - 1) / limit in
  (forall req page, listing_request req c st limit page ->
     exists pagination w',
       Conversations.list_conversations req w
       = (Success 200 (map Conversations.format_conversation
                         (page_of limit page full), pagination), w')
       /\ database w' = database w
       /\ pg_total pagination = total)
  /\ total
     = Sql.count
         (nodup Z.eq_dec
            (map s_id
               (filter (fun s => (s_company_id s =? c) && status_passes st s)
                       (sessions (database w)))))
  /\ List.concat (map (fun p => page_of limit (Z.of_nat p) full)
                      (seq 1 (Z.to_nat pages))) = full
  /\ NoDup (map (fun r => s_id (Conversations.cr_session r)) full).
Proof.
  intros Hlimit full total pages.
  split; [|split; [|split]].
  - intros req page (Ht & Hc & Hsearch & Hst & Hl & Hp & Hl0 & Hp0 & Ho0).
    pose proof Hl as Hlim.
    assert (Hoff : offset_of (default_to (JNum 1) (get "page" (req_query req)))
                     (default_to (JNum 20) (get "limit" (req_query req)))
                   = JNum ((page - 1) * limit))
      by (apply offset_of_parsed; [assumption | assumption | lia | lia]).
    unfold Conversations.list_conversations. cbv zeta.
    rewrite Ht, Hsearch, Hoff, Hlim. simpl negb. cbv iota.
    destruct st as [z|].
    + destruct Hst as (Hnn & Hnan & Hpz & Hzr).
      unfold status_given. rewrite Hnn, Hnan. simpl andb. cbv iota.
      simpl negb. cbv iota. rewrite Hpz.
      eexists. eexists. split.
      { apply catching_ok.
        apply (conversations_listing_total
                 (or_else (get "company_id" (req_query req)) (req_companyId req))
                 c limit page "AND s.status = $4" "AND s.status = $2"
                 [JNum z] [JNum z] (status_filter (Some z)));
          try assumption; try reflexivity;
          (eapply status_condition_num;
           [reflexivity | reflexivity | reflexivity | exact Hzr]). }
      split; reflexivity.
    + unfold status_given. rewrite Hst. simpl andb. cbv iota.
      simpl negb. cbv iota.
      eexists. eexists. split.
      { apply catching_ok.
        apply (conversations_listing_total
                 (or_else (get "company_id" (req_query req)) (req_companyId req))
                 c limit page "" "" [] [] (status_filter None));
          try assumption; reflexivity. }
      split; reflexivity.
  - unfold total, Sql.count. f_equal. apply tenant_conversations_count.
  - apply pages_cover. exact Hlimit.
  - apply relation_nodup.
Qed.

End ConversationPages.

(** X3, witness: tenant 1 of the sample, two rows to the page. *)
Lemma conversations_pages_partition_witness :
  let w := start sample in
  let full := tenant_conversations (database w) 1 None in
  let total := Z.of_nat (List.length full) in
  let pages := (total + 2 - 1) / 2 in
  (forall req page, listing_request (E:=pg) req 1 None 2 page ->
     exists pagination w',
       Conversations.list_conversations (E:=pg) req w
       = (Success 200 (map Conversations.format_conversation
                         (page_of 2 page full), pagination), w')
       /\ database w' = database w
       /\ pg_total pagination = total)
  /\ total
     = Sql.count
         (nodup Z.eq_dec
            (map s_id
               (filter (fun s => (s_company_id s =? 1) && status_passes None s)
                       (sessions (database w)))))
  /\ List.concat (map (fun p => page_of 2 (Z.of_nat p) full)
                      (seq 1 (Z.to_nat pages))) = full
  /\ NoDup (map (fun r => s_id (Conversations.cr_session r)) full).
Proof.
  intros w full total pages.
  apply (conversations_pages_partition (E:=pg) (start sample) 1 None 2). lia.
Defined.

(* ------------------------------------------------------------------ *)
(** ** Rows that are not there: status update and deletion *)
(* ------------------------------------------------------------------ *)

Lemma with_sessions_same (d : db) : Sessions.with_sessions d (sessions d) = d.
Proof. destruct d; reflexivity. Qed.

Lemma with_companies_same (d : db) : Companies.with_companies d (companies d) = d.
Proof. destruct d; reflexivity. Qed.

Lemma sessions_with_status_absent (i z : Z) (l : list session) :
  (forall s, In s l -> s_id s <> i) -> sessions_with_status i z l = l.
Proof.
  intros H. unfold sessions_with_status.
  rewrite <- (map_id l) at 2. apply map_ext_in. intros s Hs.
  destruct (s_id s =? i) eqn:Ei; [|reflexivity].
  apply Z.eqb_eq in Ei. destruct (H s Hs Ei).
Qed.

Lemma filter_none {A} (p : A -> bool) (l : list A) :
  (forall a, In a l -> p a = false) -> filter p l = [].
Proof.
  induction l as [|a l IH]; intros H; [reflexivity|].
  simpl. rewrite (H a (or_introl eq_refl)). apply IH.
  intros x Hx. apply H. now right.
Qed.

Section UnknownSession.
Context {E : engine}.

(** X4.  PUT /api/sessions/:id/status with a valid status (an integer from
    0 to 4) for an id no session has: the UPDATE is sent, returns no row,
    the answer is 404 'Session not found' and the tables are as they
    were. *)
Theorem status_update_unknown_session (req : request) (w : world) (i z : Z) :
  let id := get "id" (req_params req) in
  get_member "status" (req_body req) = Prim (JNum z) ->
  0 <= z <= 4 ->
  truthy id = true ->
  as_id id = Some (Some i) ->
  (forall s, In s (sessions (database w)) -> s_id s <> i) ->
  Sessions.put_status req w
  = (Failure 404 "Session not found" None,
     logged w UpdateSessionStatus [JNum z; id]).
Proof.
  intros id Hst Hz Ht Hi Hnone.
  unfold Sessions.put_status. fold id. rewrite Hst, Ht.
  simpl negb. simpl jsval_eqb. simpl orb. cbv iota.
  replace ((z <? 0) || (4 <? z)) with false
    by (symmetry; apply orb_false_iff; split; apply Z.ltb_ge; lia).
  apply catching_ok. rewrite (bind_ok _ _ _ _ _ (update_runs id i z w Hz Hi)).
  rewrite (sessions_with_status_absent i z _ Hnone).
  rewrite filter_none.
  2:{ intros s Hs. apply Z.eqb_neq. apply Hnone. exact Hs. }
  rewrite with_sessions_same. unfold logged. destruct w; reflexivity.
Qed.

End UnknownSession.

(** X4, witness: no session of the sample has the id 999. *)
Lemma status_update_unknown_session_witness :
  Sessions.put_status (E:=pg)
    (request_of [("id", JStr "999")] [] [("status", Prim (JNum 3))])
    (start sample)
  = (Failure 404 "Session not found" None,
     logged (start sample) UpdateSessionStatus [JNum 3; JStr "999"]).
Proof.
  apply (status_update_unknown_session (E:=pg)
           (request_of [("id", JStr "999")] [] [("status", Prim (JNum 3))])
           (start sample) 999 3); try reflexivity; try lia.
  intros s Hs. simpl in Hs.
  repeat (destruct Hs as [<- | Hs]; [discriminate|]). destruct Hs.
Defined.

Lemma filter_idempotent {A} (p : A -> bool) (l : list A) :
  filter p (filter p l) = filter p l.
Proof.
  induction l as [|a l IH]; [reflexivity|]. simpl.
  destruct (p a) eqn:Ep; simpl; rewrite ?Ep, IH; reflexivity.
Qed.

Section DeleteTwice.
Context {E : engine}.

Lemma delete_row_runs (id : jsval) (i : Z) (w : world) :
  as_int id = Some (Some i) ->
  Companies.delete_company_row id w
  = (Some (map co_id (filter (fun co => co_id co =? i) (companies (database w)))),
     {| database :=
          Companies.with_companies (database w)
            (filter (fun co => negb (co_id co =? i)) (companies (database w)));
        sent := (sent w ++ [(DeleteCompany, [id])])%list |}).
Proof.
  intros Hi. unfold Companies.delete_company_row, query.
  simpl bound. cbv iota. rewrite Hi. reflexivity.
Qed.

(** What a successful deletion implies, and what it leaves. *)
Lemma delete_company_success (req : request) (w w1 : world) (code : Z)
    (message : string) :
  Companies.delete_company req w = (Success code message, w1) ->
  let id := get "id" (req_params req) in
  exists i,
    truthy id = true /\ isNaN id = false /\ as_int id = Some (Some i)
    /\ total_dependents (database w) i = 0
    /\ database w1
       = Companies.with_companies (database w)
           (filter (fun co => negb (co_id co =? i)) (companies (database w))).
Proof.
  intros H id. unfold Companies.delete_company in H. fold id in H.
  destruct (negb (truthy id) || isNaN id) eqn:E1.
  { vm_compute in H. discriminate. }
  apply orb_false_iff in E1. destruct E1 as [Ht Hn].
  apply negb_false_iff in Ht.
  destruct (as_int id) as [[i|]|] eqn:Hi.
  - exists i. split; [exact Ht|]. split; [exact Hn|]. split; [reflexivity|].
    unfold catching in H.
    rewrite (bind_ok _ _ _ _ _ (count_records_runs id i w Hi)) in H.
    unfold total_dependents.
    destruct (dependents (database w) i) as [[c l] s] eqn:Hd.
    destruct (0 <? c + l + s) eqn:Hpos.
    { vm_compute in H. discriminate. }
    rewrite (bind_ok _ _ _ _ _ (delete_row_runs id i _ Hi)) in H.
    assert (Hnn : 0 <= c /\ 0 <= l /\ 0 <= s).
    { unfold dependents in Hd. injection Hd as <- <- <-.
      repeat split; apply count_when_nonneg. }
    apply Z.ltb_ge in Hpos. split; [lia|].
    destruct (map co_id _) in H; simpl in H; [discriminate|].
    apply (f_equal snd) in H. simpl in H. rewrite <- H. reflexivity.
  - exfalso. unfold as_int in Hi.
    destruct id as [| |b|z| | | |s]; try discriminate;
      try (destruct (number_param int4_range _); discriminate).
    destruct (int4in s); discriminate.
  - exfalso. unfold catching, bind, Companies.count_company_records in H.
    rewrite select_fail in H; [discriminate|]. right. rewrite Hi. reflexivity.
Qed.

(** X5.  DELETE /api/companies/:id is not repeatable: after a deletion that
    answered success, the same request answers 404 'Company not found' and
    leaves the tables as they are, and so does GET /api/companies/:id. *)
Theorem delete_company_twice (req : request) (w w1 : world) (code : Z)
    (message : string) :
  Companies.delete_company req w = (Success code message, w1) ->
  exists w2,
    Companies.delete_company req w1 = (Failure 404 "Company not found" None, w2)
    /\ database w2 = database w1
    /\ exists w3,
         Companies.company_by_id req w1
         = (Failure 404 "Company not found" None, w3).
Proof.
  intros H. destruct (delete_company_success req w w1 code message H)
    as (i & Ht & Hn & Hi & Hzero & Hdb).
  set (id := get "id" (req_params req)) in *.
  assert (Hgone : filter (fun co => co_id co =? i) (companies (database w1)) = []).
  { rewrite Hdb. simpl. apply filter_filter_neg. }
  assert (Hdep : dependents (database w1) i = dependents (database w) i).
  { rewrite Hdb. reflexivity. }
  eexists. split; [|split].
  - unfold Companies.delete_company. fold id. rewrite Ht, Hn. simpl.
    apply catching_ok.
    rewrite (bind_ok _ _ _ _ _ (count_records_runs id i w1 Hi)).
    rewrite Hdep. unfold total_dependents in Hzero.
    destruct (dependents (database w) i) as [[c l] s].
    replace (0 <? c + l + s) with false by (symmetry; apply Z.ltb_ge; lia).
    rewrite (bind_ok _ _ _ _ _ (delete_row_runs id i _ Hi)).
    change (database (logged w1 CountCompanyRecords [id])) with (database w1).
    rewrite Hgone. reflexivity.
  - simpl database.
    replace (filter (fun co => negb (co_id co =? i)) (companies (database w1)))
      with (companies (database w1)).
    + apply with_companies_same.
    + rewrite Hdb. simpl. symmetry. apply filter_idempotent.
  - eexists. unfold Companies.company_by_id. fold id. rewrite Ht, Hn. simpl.
    apply catching_ok. erewrite bind_ok.
    2:{ unfold Companies.select_company. apply select_ok; [reflexivity|].
        rewrite Hi. simpl int_eq. rewrite Hgone. reflexivity. }
    reflexivity.
Qed.

End DeleteTwice.


(** X5, witness: company 3 of the sample has no dependent row. *)
Lemma delete_company_twice_witness :
  let req := request_of [("id", JStr "3")] [] [] in
  let w1 := snd (Companies.delete_company (E:=pg) req (start sample)) in
  Companies.delete_company (E:=pg) req (start sample)
  = (Success 200 "Company deleted successfully", w1)
  /\ exists w2,
       Companies.delete_company (E:=pg) req w1
       = (Failure 404 "Company not found" None, w2)
       /\ database w2 = database w1
       /\ exists w3,
            Companies.company_by_id (E:=pg) req w1
            = (Failure 404 "Company not found" None, w3).
Proof.
  intros req w1. split; [reflexivity|].
  apply (delete_company_twice (E:=pg) req (start sample) w1 200
           "Company deleted successfully").
  reflexivity.
Defined.

(* ------------------------------------------------------------------ *)
(** ** The stock search and the global search *)
(* ------------------------------------------------------------------ *)

Section StockSearch.
Context {E : engine}.

Lemma too_short_passes (s : string) (w : world) :
  (2 <= String.length (trim s))%nat ->
  Search.too_short (JStr s) w = (Some false, w).
Proof.
  intros H. unfold Search.too_short.
  assert (Hne : s <> "").
  { intros ->. simpl in H. lia. }
  cbn [truthy]. apply String.eqb_neq in Hne. rewrite Hne. cbn [negb].
  replace (String.length (trim s) <? 2)%nat with false; [reflexivity|].
  symmetry. apply Nat.ltb_ge. exact H.
Qed.

(** The columns the stock search matches the term on. *)
Definition searched_columns (v : vehicle) : list (option string) :=
  [v_MARCA v; v_MODELO v; v_VERSAO v; v_MATRICULA v; v_VIN v; v_CATEGORIA v;
   v_TAGS v; v_LOCAL v].

(** X6.  GET /api/search/stock: for a search term of at least two
    characters after trimming, a company id of a row of [companies] and a
    limit [n] that is a safe integer, the answer is 200 with at most [n]
    vehicles, newest first, and the number of them as [total]; every
    vehicle answered is a row of [stock] whose EMPRESA is the NAME of the
    company and that matches the pattern [%term%] on one of the eight
    searched columns; and when fewer than [n] vehicles are answered, every
    such row is among them. *)
Theorem stock_search_scoped (req : request) (w : world) (s : string)
    (c : Z) (comp : company) (others : list company) (n : Z) :
  let q := req_query req in
  let companyId := or_else (get "company_id" q) (req_companyId req) in
  let pattern := ("%" ++ trim s ++ "%")%string in
  get "q" q = JStr s ->
  (2 <= String.length (trim s))%nat ->
  truthy companyId = true ->
  as_int companyId = Some (Some c) ->
  filter (fun co => co_id co =? c) (companies (database w)) = comp :: others ->
  parseInt (default_to (JNum 20) (get "limit" q)) = JNum n ->
  0 <= n < 2 ^ 53 ->
  exists hits w',
    Search.stock req w
    = (Success 200 (hits, JStr s, Z.of_nat (List.length hits)), w')
    /\ database w' = database w
    /\ (List.length hits <= Z.to_nat n)%nat
    /\ descending v_created_at hits
    /\ (forall v, In v hits ->
          In v (stock (database w))
          /\ v_EMPRESA v = Some (co_name comp)
          /\ exists col text, In col (searched_columns v)
                              /\ col = Some text
                              /\ ilike text pattern = true)
    /\ (forall v, In v (stock (database w)) ->
          v_EMPRESA v = Some (co_name comp) ->
          (exists text, In (Some text) (searched_columns v)
                        /\ ilike text pattern = true) ->
          (Z.of_nat (List.length hits) < n -> In v hits)).
Proof.
  intros q companyId pattern Hq Hs Ht Hc Hcomp Hlim Hn.
  set (matches := fun v : vehicle =>
         text_eq (v_EMPRESA v) (Some (co_name comp))
         && Search.any_ilike (Some pattern) (searched_columns v)).
  set (all := Sql.order_by (Sql.desc v_created_at)
                (filter matches (stock (database w)))).
  exists (firstn (Z.to_nat n) all). eexists.
  split; [|split; [|split; [|split; [|split]]]].
  - unfold Search.stock. fold q. rewrite Hq. fold companyId.
    apply catching_ok.
    rewrite (bind_ok _ _ _ _ _ (too_short_passes s w Hs)).
    rewrite Ht. cbn [negb]. cbv iota.
    erewrite bind_ok.
    2:{ unfold Search.select_company_name. apply select_ok; [reflexivity|].
        rewrite Hc. simpl int_eq. rewrite Hcomp. reflexivity. }
    cbn [map].
    erewrite bind_ok.
    2:{ unfold Search.search_stock_rows. apply select_ok; [reflexivity|].
        unfold Search.limit_param, param. cbn [nth Nat.sub].
        rewrite Hlim, as_limit_num by exact Hn. rewrite take_firstn.
        reflexivity. }
    reflexivity.
  - reflexivity.
  - rewrite length_firstn. lia.
  - unfold descending.
    apply (limit_offset_sorted _ (Z.to_nat n) 0 all).
    apply order_by_descending.
  - intros v Hv. apply in_firstn in Hv. apply in_order_by in Hv.
    apply filter_In in Hv. destruct Hv as [Hin Hm]. unfold matches in Hm.
    apply andb_true_iff in Hm. destruct Hm as [Hemp Hany].
    split; [exact Hin|]. split.
    + unfold text_eq in Hemp. destruct (v_EMPRESA v) as [e|]; [|discriminate].
      apply String.eqb_eq in Hemp. congruence.
    + unfold Search.any_ilike in Hany. apply existsb_exists in Hany.
      destruct Hany as (col & Hcol & Hlike).
      unfold text_ilike in Hlike. destruct col as [text|]; [|discriminate].
      exists (Some text), text. repeat split; assumption.
  - intros v Hin Hemp (text & Hcol & Hlike) Hfew.
    assert (Hall : In v all).
    { apply in_order_by. apply filter_In. split; [exact Hin|].
      unfold matches. rewrite Hemp. cbn [text_eq]. rewrite String.eqb_refl.
      cbn [andb]. unfold Search.any_ilike. apply existsb_exists.
      exists (Some text). split; [exact Hcol | exact Hlike]. }
    rewrite length_firstn in Hfew.
    rewrite firstn_all2; [exact Hall | lia].
Qed.

End StockSearch.


(** X6, witness: tenant 1 of the sample searches its stock for " fi ": the
    Fiat of company Alfa is answered, the Opel of company Beta is not. *)
Lemma stock_search_scoped_witness :
  let req := request_of [] [("company_id", JStr "1"); ("q", JStr " fi ")] [] in
  exists hits w',
    Search.stock (E:=pg) req (start sample)
    = (Success 200 (hits, JStr " fi ", Z.of_nat (List.length hits)), w')
    /\ database w' = sample
    /\ (List.length hits <= 20)%nat
    /\ In (mk_vehicle 31 "Alfa" "Fiat") hits
    /\ ~ In (mk_vehicle 32 "Beta" "Opel") hits.
Proof.
  intros req.
  destruct (stock_search_scoped (E:=pg) req (start sample) " fi " 1
              (mk_company 1 "Alfa") [] 20
              eq_refl ltac:(simpl; lia) eq_refl eq_refl eq_refl eq_refl
              ltac:(lia))
    as (hits & w' & Hr & Hdb & Hlen & _ & Hin & Hall).
  exists hits, w'. split; [exact Hr|]. split; [exact Hdb|].
  split; [exact Hlen|]. split.
  - apply Hall.
    + simpl. auto.
    + reflexivity.
    + exists "Fiat". split; [simpl; auto | reflexivity].
    + apply (f_equal fst) in Hr. vm_compute in Hr.
      injection Hr as Hr _. rewrite <- Hr. simpl. lia.
  - intros H. apply Hin in H. destruct H as (_ & H & _). discriminate.
Defined.

Section GlobalSearch.
Context {E : engine}.

(** X7.  GET /api/search/global: for a search term of at least two
    characters after trimming and a company id, the answer is 200 with at
    most five contacts, five messages and five leads, and [total] is the
    number of rows answered (at most 15), not the number of matches.  Every
    contact answered is linked to the company in [contact_company], every
    message belongs to a session of the company and matches the pattern,
    every lead is a lead of the company matching on name, email or phone.
    The tables are left as they were. *)
Theorem global_search_capped (req : request) (w : world) (s : string) (c : Z) :
  let q := req_query req in
  let companyId := or_else (get "company_id" q) (req_companyId req) in
  let pattern := ("%" ++ trim s ++ "%")%string in
  get "q" q = JStr s ->
  (2 <= String.length (trim s))%nat ->
  truthy companyId = true ->
  as_int companyId = Some (Some c) ->
  exists hits total w',
    Search.global req w = (Success 200 (hits, JStr s, total), w')
    /\ database w' = database w
    /\ (List.length (Search.gh_contacts hits) <= 5)%nat
    /\ (List.length (Search.gh_conversations hits) <= 5)%nat
    /\ (List.length (Search.gh_leads hits) <= 5)%nat
    /\ total = Z.of_nat (List.length (Search.gh_contacts hits)
                         + List.length (Search.gh_conversations hits)
                         + List.length (Search.gh_leads hits))
    /\ (forall ct, In ct (Search.gh_contacts hits) ->
          In ct (contacts (database w))
          /\ exists cc, In cc (contact_company (database w))
                        /\ cc_contact_id cc = ct_id ct
                        /\ cc_company_id cc = c)
    /\ (forall m s' ct, In (m, s', ct) (Search.gh_conversations hits) ->
          In m (conversations (database w)) /\ In s' (sessions (database w))
          /\ c_session_id m = s_id s' /\ s_company_id s' = c
          /\ ilike (c_content m) pattern = true)
    /\ (forall l, In l (Search.gh_leads hits) ->
          In l (leads (database w)) /\ l_company_id l = c
          /\ exists text, In (Some text) [l_name l; l_email l; l_phone_number l]
                          /\ ilike text pattern = true).
Proof.
  intros q companyId pattern Hq Hs Ht Hc.
  eexists. eexists. eexists.
  split.
  { unfold Search.global. fold q. rewrite Hq. fold companyId.
    apply catching_ok.
    rewrite (bind_ok _ _ _ _ _ (too_short_passes s w Hs)).
    rewrite Ht. cbn [negb]. cbv iota.
    erewrite bind_ok.
    2:{ unfold Search.global_contacts. apply select_ok; [reflexivity|].
        rewrite Hc. reflexivity. }
    erewrite bind_ok.
    2:{ unfold Search.global_conversations. apply select_ok; [reflexivity|].
        cbn [database logged]. rewrite Hc. reflexivity. }
    erewrite bind_ok.
    2:{ unfold Search.global_leads. apply select_ok; [reflexivity|].
        cbn [database logged]. rewrite Hc. reflexivity. }
    reflexivity. }
  cbn [Search.gh_contacts Search.gh_conversations Search.gh_leads database logged].
  split; [reflexivity|].
  split; [apply firstn_le_length|].
  split; [apply firstn_le_length|].
  split; [apply firstn_le_length|].
  split; [unfold Sql.count; lia|].
  split; [|split].
  - intros ct Hct. apply in_firstn in Hct. apply filter_In in Hct.
    destruct Hct as [Hin Hk]. split; [exact Hin|].
    apply andb_true_iff in Hk. destruct Hk as [Hex _].
    apply existsb_exists in Hex. destruct Hex as (cc & Hcc & Hk).
    apply andb_true_iff in Hk. destruct Hk as [H1 H2].
    exists cc. split; [exact Hcc|]. split; apply Z.eqb_eq; assumption.
  - intros m s' ct Hm. apply in_firstn in Hm. apply filter_In in Hm.
    destruct Hm as [Hin Hk]. cbn [fst snd] in Hk.
    apply andb_true_iff in Hk. destruct Hk as [H1 H2].
    apply in_left_join in Hin. destruct Hin as [Hin _].
    apply in_inner_join in Hin. destruct Hin as (Hm & Hs' & Hon).
    repeat split; try assumption; try (apply Z.eqb_eq; assumption).
  - intros l Hl. apply in_firstn in Hl. apply filter_In in Hl.
    destruct Hl as [Hin Hk]. apply andb_true_iff in Hk. destruct Hk as [H1 H2].
    split; [exact Hin|]. split; [apply Z.eqb_eq; exact H1|].
    unfold Search.any_ilike in H2. apply existsb_exists in H2.
    destruct H2 as (col & Hcol & Hlike). unfold text_ilike in Hlike.
    destruct col as [text|]; [|discriminate]. exists text. split; assumption.
Qed.

End GlobalSearch.


(** One tenant with more matches than a global search shows: a linked
    contact, a message and six leads carry the letters "an"; the vehicle's
    photo list has blanks and an empty piece. *)
Definition crowded : db :=
  {| companies := [mk_company 1 "Alfa"];
     contacts := [mk_contact 10 "Ana" 10; mk_contact 11 "Joana" 20];
     contact_company := [{| cc_contact_id := 10; cc_company_id := 1 |}];
     sessions := [mk_session 100 1 10 1 1000];
     conversations := [mk_message 1 100 1 "Ana wants a van" 1500];
     leads := [mk_lead 1 1 10 "Ana 1" 100; mk_lead 2 1 10 "Ana 2" 200;
               mk_lead 3 1 10 "Ana 3" 300; mk_lead 4 1 10 "Ana 4" 400;
               mk_lead 5 1 10 "Ana 5" 500; mk_lead 6 1 10 "Ana 6" 600];
     transferred_leads := [];
     discarded_leads := [];
     knowledge_vault := [];
     stock := [{| v_id := 31; v_MARCA := Some "Fiat"; v_MODELO := None;
                  v_VERSAO := None; v_MATRICULA := None; v_VIN := None;
                  v_PRECO := None; v_QUILOMETROS := None;
                  v_CATEGORIA := None; v_TAGS := None;
                  v_EMPRESA := Some "Alfa"; v_LOCAL := None;
                  v_OTHER_PHOTOS := Some " a.jpg, ,b.jpg ,";
                  v_created_at := 0 |}];
     test_metrics := [] |}.

(** X7, witness: of the six matching leads of [crowded] five are answered,
    and the total is 1 + 1 + 5. *)
Lemma global_search_capped_witness :
  let req := request_of [] [("company_id", JStr "1"); ("q", JStr "an")] [] in
  exists hits total w',
    Search.global (E:=pg) req (start crowded)
    = (Success 200 (hits, JStr "an", total), w')
    /\ database w' = crowded
    /\ List.length (Search.gh_contacts hits) = 1%nat
    /\ List.length (Search.gh_conversations hits) = 1%nat
    /\ List.length (Search.gh_leads hits) = 5%nat
    /\ total = 7
    /\ (forall l, In l (Search.gh_leads hits) -> l_company_id l = 1).
Proof.
  intros req.
  destruct (global_search_capped (E:=pg) req (start crowded) "an" 1
              eq_refl ltac:(simpl; lia) eq_refl eq_refl)
    as (hits & total & w' & Hr & Hdb & _ & _ & _ & Ht & _ & _ & Hl).
  exists hits, total, w'.
  pose proof (f_equal fst Hr) as Hv. vm_compute in Hv.
  injection Hv as Hh Htot.
  split; [exact Hr|]. split; [exact Hdb|].
  rewrite <- Hh. repeat (split; [reflexivity|]).
  split; [symmetry; exact Htot|].
  intros l Hin. rewrite Hh in Hin. apply Hl in Hin. apply Hin.
Defined.

(* ------------------------------------------------------------------ *)
(** ** The photos of a vehicle *)
(* ------------------------------------------------------------------ *)

Section Trimming.

Lemma trimEnd_idempotent (s : string) : trimEnd (trimEnd s) = trimEnd s.
Proof.
  induction s as [|c t IH]; [reflexivity|].
  cbn [trimEnd]. destruct (trimEnd t) as [|c' t'] eqn:Et.
  - destruct (is_ws c) eqn:Ec; [reflexivity|].
    cbn [trimEnd]. rewrite Ec. reflexivity.
  - cbn [trimEnd]. cbn [trimEnd] in IH. rewrite IH. reflexivity.
Qed.

Lemma trimStart_head (s : string) :
  match trimStart s with
  | String c _ => is_ws c = false
  | EmptyString => True
  end.
Proof.
  induction s as [|c t IH]; [exact I|].
  cbn [trimStart]. destruct (is_ws c) eqn:Ec; [exact IH | exact Ec].
Qed.

Lemma trimEnd_head (c : ascii) (t : string) :
  is_ws c = false -> exists t', trimEnd (String c t) = String c t'.
Proof.
  intros Hc. cbn [trimEnd]. destruct (trimEnd t); [|eauto].
  rewrite Hc. eauto.
Qed.

Lemma trim_idempotent (s : string) : trim (trim s) = trim s.
Proof.
  unfold trim. pose proof (trimStart_head s) as H.
  destruct (trimStart s) as [|c t]; [reflexivity|].
  destruct (trimEnd_head c t H) as (t' & Ht).
  rewrite Ht at 1. cbn [trimStart]. rewrite H. rewrite <- Ht.
  apply trimEnd_idempotent.
Qed.

Lemma split_commas_nonempty (s : string) : Stock.split_commas s <> [].
Proof.
  induction s as [|c t IH]; [discriminate|].
  cbn [Stock.split_commas]. destruct (Ascii.eqb c ","); [discriminate|].
  destruct (Stock.split_commas t); discriminate.
Qed.

(** [s.split(',').join(',')] is [s]. *)
Lemma split_commas_join (s : string) :
  String.concat "," (Stock.split_commas s) = s.
Proof.
  induction s as [|c t IH]; [reflexivity|].
  cbn [Stock.split_commas]. destruct (Ascii.eqb c ",") eqn:Ec.
  - apply Ascii.eqb_eq in Ec. subst c.
    pose proof (split_commas_nonempty t) as Hn.
    destruct (Stock.split_commas t) as [|w ws]; [congruence|].
    cbn [String.concat]. cbn [String.concat] in IH.
    simpl. f_equal. exact IH.
  - pose proof (split_commas_nonempty t) as Hn.
    destruct (Stock.split_commas t) as [|w ws]; [congruence|].
    destruct ws; simpl in *; rewrite IH; reflexivity.
Qed.

End Trimming.

Section VehiclePhotos.
Context {E : engine}.

(** X8.  GET /api/stock/:id: the [other_photos] of the vehicle answered.
    A NULL or empty text is passed on as it is; any other text is split at
    its commas, and the answer holds the trimmed pieces that are not empty,
    in order: every URL answered is a trimmed piece of the text, is itself
    free of surrounding white space, and there are no more URLs than
    pieces.  (Joining the pieces with commas gives the text back.) *)
Theorem vehicle_photos_normalised (req : request) (w : world) (i : Z)
    (v : vehicle) (rest : list vehicle) :
  let id := get "id" (req_params req) in
  truthy id = true ->
  as_id id = Some (Some i) ->
  filter (fun x => v_id x =? i) (stock (database w)) = v :: rest ->
  exists photos,
    Stock.vehicle_by_id req w
    = (Success 200 {| Stock.vd_vehicle := v; Stock.vd_other_photos := photos |},
       logged w SelectVehicleDetails [id])
    /\ match v_OTHER_PHOTOS v with
       | None => photos = inl None
       | Some text =>
           if String.eqb text "" then photos = inl (Some "")
           else exists urls,
                  photos = inr urls
                  /\ (forall url, In url urls <->
                        url <> ""
                        /\ exists piece, In piece (Stock.split_commas text)
                                         /\ url = trim piece)
                  /\ (forall url, In url urls -> trim url = url)
                  /\ (List.length urls <= List.length (Stock.split_commas text))%nat
                  /\ String.concat "," (Stock.split_commas text) = text
       end.
Proof.
  intros id Ht Hi Hv. eexists. split.
  - unfold Stock.vehicle_by_id. fold id. rewrite Ht. simpl negb. cbv iota.
    apply catching_ok. erewrite bind_ok.
    2:{ unfold Stock.select_vehicle_details. apply select_ok; [reflexivity|].
        rewrite Hi. simpl int_eq. rewrite Hv. reflexivity. }
    reflexivity.
  - destruct (v_OTHER_PHOTOS v) as [text|]; [|reflexivity].
    destruct (String.eqb text "") eqn:Et.
    + apply String.eqb_eq in Et. subst text. reflexivity.
    + eexists. split; [reflexivity|]. split; [|split; [|split]].
      * intros url. rewrite filter_In, in_map_iff, negb_true_iff. split.
        -- intros [(piece & Hp & Hin) Hne]. split.
           ++ intros ->. rewrite String.eqb_refl in Hne. discriminate.
           ++ exists piece. split; [exact Hin | symmetry; exact Hp].
        -- intros [Hne (piece & Hin & Hp)]. split.
           ++ exists piece. split; [symmetry; exact Hp | exact Hin].
           ++ apply String.eqb_neq. exact Hne.
      * intros url Hin. apply filter_In in Hin. destruct Hin as [Hin _].
        apply in_map_iff in Hin. destruct Hin as (piece & <- & _).
        apply trim_idempotent.
      * etransitivity; [apply filter_length_le|]. rewrite length_map. lia.
      * apply split_commas_join.
Qed.

End VehiclePhotos.


(** X8, witness: the photo list of the vehicle of [crowded]. *)
Lemma vehicle_photos_normalised_witness :
  let req := request_of [("id", JStr "31")] [] [] in
  exists v,
    Stock.vehicle_by_id (E:=pg) req (start crowded)
    = (Success 200 {| Stock.vd_vehicle := v;
                      Stock.vd_other_photos := inr ["a.jpg"; "b.jpg"] |},
       logged (start crowded) SelectVehicleDetails [JStr "31"])
    /\ v_OTHER_PHOTOS v = Some " a.jpg, ,b.jpg ,"
    /\ Stock.split_commas " a.jpg, ,b.jpg ," = [" a.jpg"; " "; "b.jpg "; ""].
Proof.
  intros req.
  destruct (vehicle_photos_normalised (E:=pg) req (start crowded) 31
              (hd (mk_vehicle 0 "none" "none") (stock crowded)) []
              eq_refl eq_refl eq_refl)
    as (photos & Hr & _).
  exists (hd (mk_vehicle 0 "none" "none") (stock crowded)).
  split; [|split; reflexivity].
  rewrite Hr. pose proof (f_equal fst Hr) as Hv. vm_compute in Hv.
  injection Hv as Hv. rewrite <- Hv. reflexivity.
Defined.

(* ------------------------------------------------------------------ *)
(** ** The error handler *)
(* ------------------------------------------------------------------ *)

Section ErrorHandlerFacts.
Import ErrorHandler.
Context {D : Type}.

Lemma equals_eq (v : jsval) (s : string) : equals v s = true <-> v = JStr s.
Proof. apply jsval_eqb_str. Qed.

Lemma equals_truthy (v : jsval) (s : string) :
  s <> "" -> equals v s = true -> truthy v = true.
Proof.
  intros Hs H. apply equals_eq in H. subst v. simpl.
  apply negb_true_iff, String.eqb_neq. exact Hs.
Qed.

(** The rule that decides the answer, the last one of the handler first. *)
Definition decided (err : error D) : jsval * jsval :=
  let name := err_name err in
  let code := err_code err in
  if equals name "ValidationError" then (JNum 400, JStr "Validation failed")
  else if equals name "TokenExpiredError" then (JNum 401, JStr "Token expired")
  else if equals name "JsonWebTokenError" then (JNum 401, JStr "Invalid token")
  else if equals code "23505" then (JNum 409, JStr "Resource already exists")
  else if equals code "23503" then (JNum 400, JStr "Referenced resource not found")
  else if equals code "23514" then (JNum 400, JStr "Invalid data provided")
  else if equals code "42P01" then (JNum 500, JStr "Database schema error")
  else if equals code "ECONNREFUSED" || equals code "ENOTFOUND"
  then (JNum 503, JStr "Database connection failed")
  else (or_else (err_status err) (JNum 500),
        or_else (err_message err) (JStr "Internal Server Error")).

(** X9.  [errorHandler]: the rules are tried one after the other and each
    overwrites the answer of the ones before, so the last rule that applies
    decides.  Status and message are those of [decided]: a ValidationError
    name goes before a TokenExpiredError name, that before a
    JsonWebTokenError name, the names before the PostgreSQL codes, the
    codes before the connection codes, and only an error none of them
    matches is answered with its own status and message (500 and 'Internal
    Server Error' when they are missing).  Details are answered for a
    ValidationError only (its own, or an empty array), the stack only when
    NODE_ENV is 'development'; the status handed to [res.status] is never
    falsy. *)
Theorem error_handler_last_rule_wins (NODE_ENV : jsval) (err : error D) :
  let r := errorHandler NODE_ENV err in
  (status r, message r) = decided err
  /\ details r
     = (if equals (err_name err) "ValidationError"
        then Some (match err_details err with
                   | Some d => Own d
                   | None => EmptyArray
                   end)
        else None)
  /\ stack r
     = (if equals NODE_ENV "development" then Some (err_stack err) else None)
  /\ truthy (status r) = true
  /\ (status r = err_status err
      \/ In (status r) [JNum 400; JNum 401; JNum 409; JNum 500; JNum 503]).
Proof.
  intros r. unfold r, errorHandler, decided. cbv zeta.
  destruct (equals (err_name err) "ValidationError") eqn:Ev.
  { cbn. repeat split; auto 10. }
  destruct (equals (err_name err) "TokenExpiredError") eqn:Et.
  { cbn. repeat split; auto 10. }
  destruct (equals (err_name err) "JsonWebTokenError") eqn:Ej.
  { cbn. repeat split; auto 10. }
  destruct (equals (err_code err) "23505") eqn:E1.
  { rewrite (equals_truthy (err_code err) "23505" ltac:(discriminate) E1).
    cbn. repeat split; auto 10. }
  destruct (equals (err_code err) "23503") eqn:E2.
  { rewrite (equals_truthy (err_code err) "23503" ltac:(discriminate) E2).
    cbn. repeat split; auto 10. }
  destruct (equals (err_code err) "23514") eqn:E3.
  { rewrite (equals_truthy (err_code err) "23514" ltac:(discriminate) E3).
    cbn. repeat split; auto 10. }
  destruct (equals (err_code err) "42P01") eqn:E4.
  { rewrite (equals_truthy (err_code err) "42P01" ltac:(discriminate) E4).
    cbn. repeat split; auto 10. }
  destruct (equals (err_code err) "ECONNREFUSED" || equals (err_code err) "ENOTFOUND") eqn:E5.
  { destruct (truthy (err_code err)); cbn; repeat split; auto 10. }
  destruct (truthy (err_code err)); cbn [details status message stack];
    (split; [reflexivity|]); (split; [reflexivity|]); (split; [reflexivity|]).
  all: unfold or_else; destruct (truthy (err_status err)) eqn:Es;
    split; try assumption; try reflexivity; auto 10.
  all: right; simpl; auto.
Qed.

End ErrorHandlerFacts.

(* ------------------------------------------------------------------ *)
(** ** The token middlewares *)
(* ------------------------------------------------------------------ *)

Section TokenFacts.
Import Token.

Fixpoint no_space (s : string) : bool :=
  match s with
  | EmptyString => true
  | String c t => negb (Ascii.eqb c " ") && no_space t
  end.

Lemma split_spaces_plain (s : string) :
  no_space s = true -> split_spaces s = [s].
Proof.
  induction s as [|c t IH]; [reflexivity|].
  cbn [no_space split_spaces]. intros H. apply andb_true_iff in H.
  destruct H as [Hc Ht]. apply negb_true_iff in Hc. rewrite Hc.
  rewrite (IH Ht). reflexivity.
Qed.

Lemma split_spaces_first (s t : string) :
  no_space s = true ->
  split_spaces (s ++ String " " t) = s :: split_spaces t.
Proof.
  induction s as [|c u IH]; [reflexivity|].
  cbn [no_space]. intros H. apply andb_true_iff in H.
  destruct H as [Hc Hu]. apply negb_true_iff in Hc.
  cbn [append split_spaces]. rewrite Hc. rewrite (IH Hu). reflexivity.
Qed.

Lemma split_spaces_head (s : string) : exists w ws, split_spaces s = w :: ws.
Proof.
  destruct s as [|c t]; [eexists; eexists; reflexivity|].
  cbn [split_spaces]. destruct (Ascii.eqb c " "); [eauto|].
  destruct (split_spaces t); eauto.
Qed.

(** The second piece of a header does not depend on the first, nor on what
    follows a second space. *)
Lemma token_of_scheme (scheme token rest : string) :
  no_space scheme = true -> no_space token = true ->
  token_of (Some (scheme ++ String " " token)) = Some token
  /\ token_of (Some (scheme ++ String " " (token ++ String " " rest)))
     = Some token.
Proof.
  intros Hs Ht. unfold token_of.
  assert (Hne : forall u, String.eqb (scheme ++ String " " u) "" = false).
  { intros u. destruct scheme; reflexivity. }
  rewrite !Hne, !split_spaces_first by assumption.
  rewrite split_spaces_plain by assumption.
  destruct (split_spaces_head rest) as (w & ws & ->). split; reflexivity.
Qed.

Lemma user_object_id (decoded : obj) (id email : jsval) :
  get "id" (user_object id email decoded)
  = if has_member "id" decoded then get "id" decoded else id.
Proof.
  unfold user_object.
  induction decoded as [|[k v] decoded IH]; [reflexivity|].
  cbn [app get has_member]. destruct (String.eqb "id" k); [reflexivity | exact IH].
Qed.

(** X10.  [authenticateToken]: the request is let through exactly when the
    second piece of its authorization header (split at single spaces) is
    not empty and [jwt.verify] decodes it, and then [req.user] is
    [{ id: decoded.sub, email: decoded.email, ...decoded }]; it is answered
    401 'Access token required' exactly when the header is missing or has
    no such piece; every other answer is 401 'Invalid token', 401 'Token
    expired' or 500 'Authentication failed'.  The scheme in front of the
    token is not looked at, and an [id] claim of the token overrides the
    [sub] claim as the user's id. *)
Theorem authenticate_token_outcomes (verify : string -> verdict)
    (req : request) :
  let answer := authenticateToken verify req in
  (forall req',
     answer = Pass req' <->
     exists token decoded,
       token_of (authorization req) = Some token /\ token <> ""
       /\ verify token = Decoded decoded
       /\ req' = {| authorization := authorization req;
                    user := Some (user_object (get "sub" decoded)
                                              (get "email" decoded) decoded) |})
  /\ (answer = Answer 401 "Access token required" <->
      token_of (authorization req) = None
      \/ token_of (authorization req) = Some "")
  /\ (forall code message,
        answer = Answer code message ->
        (code = 401 /\ In message ["Access token required"; "Invalid token";
                                   "Token expired"])
        \/ (code = 500 /\ message = "Authentication failed"))
  /\ (forall scheme token,
        no_space scheme = true -> no_space token = true ->
        token_of (Some (scheme ++ " " ++ token)) = Some token)
  /\ (forall decoded id email,
        get "id" (user_object id email decoded)
        = if has_member "id" decoded then get "id" decoded else id).
Proof.
  intros answer. unfold answer, authenticateToken. cbv zeta.
  split; [|split; [|split; [|split]]].
  - intros req'. destruct (token_of (authorization req)) as [token|] eqn:Et.
    + destruct (String.eqb token "") eqn:Ee.
      * split; [discriminate|]. intros (t & d & Ht & Hne & _).
        injection Ht as <-. apply String.eqb_eq in Ee. contradiction.
      * apply String.eqb_neq in Ee.
        destruct (verify token) as [decoded|name] eqn:Ev.
        -- split.
           ++ intros H. injection H as <-. exists token, decoded. auto.
           ++ intros (t & d & Ht & _ & Hv & ->). injection Ht as <-.
              rewrite Ev in Hv. injection Hv as <-. reflexivity.
        -- split.
           ++ destruct (String.eqb name "JsonWebTokenError");
                [|destruct (String.eqb name "TokenExpiredError")]; discriminate.
           ++ intros (t & d & Ht & _ & Hv & _). injection Ht as <-.
              rewrite Ev in Hv. discriminate.
    + split; [discriminate|]. intros (t & d & Ht & _). discriminate.
  - destruct (token_of (authorization req)) as [token|] eqn:Et.
    + destruct (String.eqb token "") eqn:Ee.
      * apply String.eqb_eq in Ee. subst. split; auto.
      * apply String.eqb_neq in Ee. split.
        -- destruct (verify token) as [d|name]; [discriminate|].
           destruct (String.eqb name "JsonWebTokenError");
             [|destruct (String.eqb name "TokenExpiredError")]; discriminate.
        -- intros [H|H]; [discriminate | injection H as H; congruence].
    + split; auto.
  - intros code message.
    destruct (token_of (authorization req)) as [token|].
    + destruct (String.eqb token "").
      * intros H. injection H as <- <-. left. simpl. auto.
      * destruct (verify token) as [d|name]; [discriminate|].
        destruct (String.eqb name "JsonWebTokenError");
          [|destruct (String.eqb name "TokenExpiredError")];
          intros H; injection H as <- <-; simpl; auto 10.
    + intros H. injection H as <- <-. left. simpl. auto.
  - intros scheme token Hs Ht.
    exact (proj1 (token_of_scheme scheme token "" Hs Ht)).
  - intros decoded id email. apply user_object_id.
Qed.

(** X11.  [optionalAuth] never answers: it always calls [next()], with
    [req.user] untouched unless the token verifies and Supabase knows its
    user.  On GET /api/search/contacts it runs behind the router's
    [authenticateToken], so the request reaches the handler only with a
    verified token; its [req.user] is then the one [optionalAuth] wrote
    when Supabase knows the user, else the one [authenticateToken] wrote;
    and an answer of [authenticateToken] is the answer of the route. *)
Theorem optional_auth_never_stops (verify : string -> verdict)
    (getUser : string -> lookup) (req : request) :
  (exists req', optionalAuth verify getUser req = Pass req'
                /\ authorization req' = authorization req
                /\ (user req' = user req
                    \/ exists token decoded found,
                         token_of (authorization req) = Some token
                         /\ token <> ""
                         /\ verify token = Decoded decoded
                         /\ getUser token = User found
                         /\ user req'
                            = Some (user_object (get "id" found)
                                      (get "email" found) decoded)))
  /\ (forall req',
        chain (authenticateToken verify) (optionalAuth verify getUser) req
        = Pass req' ->
        exists token decoded,
          token_of (authorization req) = Some token /\ token <> ""
          /\ verify token = Decoded decoded
          /\ authorization req' = authorization req
          /\ user req'
             = Some (match getUser token with
                     | User found =>
                         user_object (get "id" found) (get "email" found)
                                     decoded
                     | _ =>
                         user_object (get "sub" decoded) (get "email" decoded)
                                     decoded
                     end))
  /\ (forall code message,
        authenticateToken verify req = Answer code message ->
        chain (authenticateToken verify) (optionalAuth verify getUser) req
        = Answer code message).
Proof.
  split; [|split].
  - unfold optionalAuth. cbv zeta.
    destruct (token_of (authorization req)) as [token|] eqn:Et;
      [|exists req; auto].
    destruct (String.eqb token "") eqn:Ee; [exists req; auto|].
    apply String.eqb_neq in Ee.
    destruct (verify token) as [decoded|name] eqn:Ev; [|exists req; auto].
    destruct (getUser token) as [found| |] eqn:Eg; try (exists req; auto; fail).
    eexists. split; [reflexivity|]. split; [reflexivity|].
    right. exists token, decoded, found. auto.
  - intros req' H. unfold chain, authenticateToken in H. cbv zeta in H.
    destruct (token_of (authorization req)) as [token|] eqn:Et; [|discriminate].
    destruct (String.eqb token "") eqn:Ee; [discriminate|].
    destruct (verify token) as [decoded|name] eqn:Ev.
    + exists token, decoded.
      split; [reflexivity|]. split; [apply String.eqb_neq; exact Ee|].
      split; [exact Ev|].
      unfold optionalAuth in H. cbn [authorization] in H.
      rewrite Et, Ee, Ev in H.
      destruct (getUser token); injection H as <-; split; reflexivity.
    + destruct (String.eqb name "JsonWebTokenError");
        [|destruct (String.eqb name "TokenExpiredError")]; discriminate.
  - intros code message H. unfold chain. rewrite H. reflexivity.
Qed.

End TokenFacts.
